(** * DeepCode Desktop: a shallow embedding of the UI handlers

    The desktop front-end is a set of React components
    ([App.tsx], [GuidedAnalysis.tsx], [ResultsDisplay.tsx],
    [ProgressDisplay.tsx], [Settings.tsx], [ProcessingHistory.tsx],
    [SystemDiagnostics.tsx]).  Each event handler is embedded
    as a computation over the component's state, the backend it talks to
    and a log of the outbound calls it issues.

    Part I holds the model, Part II the theorems. *)

From Stdlib Require Import List String Ascii Bool NArith ZArith QArith Qabs Qround Lia Lqa.
From Stdlib Require Import DecimalString.
Import ListNotations.

Set Implicit Arguments.
Set Warnings "-register-all".
Local Open Scope list_scope.
Local Close Scope Q_scope.

(* ===================================================================== *)
(** * Part I: the model *)
(* ===================================================================== *)

(** ** JavaScript values as the handlers see them *)

Module JS.

(** A JS string is a sequence of UTF-16 code units. *)
Definition jsstring := list N.

(** ASCII literals of the source. *)
Definition str (s : string) : jsstring :=
  map N_of_ascii (list_ascii_of_string s).

Fixpoint jsstring_eqb (a b : jsstring) : bool :=
  match a, b with
  | [], [] => true
  | x :: a', y :: b' => N.eqb x y && jsstring_eqb a' b'
  | _, _ => false
  end.

(** ECMAScript WhiteSpace and LineTerminator code points, the set
    [String.prototype.trim] strips. *)
Definition is_white_space (c : N) : bool :=
  existsb (N.eqb c)
    [9; 10; 11; 12; 13; 32; 160; 5760; 8232; 8233; 8239; 8287; 12288; 65279]%N
  || (N.leb 8192 c && N.leb c 8202).

Fixpoint trimStart (s : jsstring) : jsstring :=
  match s with
  | c :: rest => if is_white_space c then trimStart rest else s
  | [] => []
  end.

Definition trimEnd (s : jsstring) : jsstring := rev (trimStart (rev s)).

Definition trim (s : jsstring) : jsstring := trimEnd (trimStart s).

(** [s.split('/').pop()]: the segment after the last slash. *)
Fixpoint last_segment (acc s : jsstring) : jsstring :=
  match s with
  | [] => acc
  | c :: rest => if N.eqb c 47 then last_segment [] rest
                 else last_segment (acc ++ [c]) rest
  end.

(** [index.toString()] for an array index. *)
Definition index_key (i : nat) : jsstring :=
  str (NilZero.string_of_uint (Nat.to_uint i)).

(** Numbers: finite doubles are idealised as rationals; [NaN] is kept
    apart because it is falsy and is what [Number] yields on garbage. *)
Inductive jsnum := NaN | Fin (q : Q).

(** The JSON/YAML value tree.  An object keeps its keys in insertion
    order, as JS objects with non-index keys do. *)
Inductive value :=
| VUndef
| VNull
| VBool (b : bool)
| VNum (n : jsnum)
| VStr (s : jsstring)
| VArr (items : list value)
| VObj (fields : list (jsstring * value)).

Definition num_truthy (n : jsnum) : bool :=
  match n with
  | NaN => false
  | Fin q => negb (Z.eqb (Qnum q) 0)
  end.

(** ToBoolean. *)
Definition truthy (v : value) : bool :=
  match v with
  | VUndef | VNull => false
  | VBool b => b
  | VNum n => num_truthy n
  | VStr s => match s with [] => false | _ => true end
  | VArr _ | VObj _ => true
  end.

(** [a || b] *)
Definition js_or (a b : value) : value := if truthy a then a else b.

(** Own-property lookup in an object's field list. *)
Fixpoint assoc (k : jsstring) (fs : list (jsstring * value)) : option value :=
  match fs with
  | [] => None
  | (k', v) :: rest => if jsstring_eqb k k' then Some v else assoc k rest
  end.

(** Property write on a field list: an existing key keeps its position,
    a new key goes last. *)
Fixpoint put (k : jsstring) (v : value) (fs : list (jsstring * value))
  : list (jsstring * value) :=
  match fs with
  | [] => [(k, v)]
  | (k', v') :: rest =>
      if jsstring_eqb k k' then (k', v) :: rest else (k', v') :: put k v rest
  end.

(** What the handlers can throw or be rejected with. *)
Inductive exn :=
| JsError (name message : jsstring)   (* an [Error] instance *)
| Thrown (v : value).                 (* any other rejection reason *)

(** Faults raised by the engine or by React, whose message text is the
    engine's own. *)
Inductive fault :=
| ReadProp (base : value) (key : jsstring)
| WriteProp (base : value) (key : jsstring)
| NotAFunction (base : value) (key : jsstring)
| InvalidReactChild (child : value)
| NotPrimitive (object : value).

(** The libraries and engine services the handlers call but do not
    define: number formatting and parsing, JSON, js-yaml, message texts. *)
Class Runtime := {
  Number_toString : Q -> jsstring;
  StringToNumber : jsstring -> jsnum;
  JSON_parse : jsstring -> exn + value;
  JSON_stringify : value -> jsstring;
  JSON_stringify_indent2 : value -> jsstring;
  yaml_load : jsstring -> exn + value;
  yaml_dump : value -> exn + jsstring;
  fault_message : fault -> jsstring
}.

Section WithRuntime.
Context {RT : Runtime}.

Definition raise (f : fault) : exn :=
  match f with
  | InvalidReactChild _ => JsError (str "Error") (fault_message f)
  | _ => JsError (str "TypeError") (fault_message f)
  end.

Definition num_to_string (n : jsnum) : jsstring :=
  match n with
  | NaN => str "NaN"
  | Fin q => Number_toString q
  end.

Fixpoint join (sep : jsstring) (parts : list jsstring) : jsstring :=
  match parts with
  | [] => []
  | [p] => p
  | p :: rest => p ++ sep ++ join sep rest
  end.

(** ToString on the value tree.  A plain object prints through the
    inherited [toString] as [[object Object]], unless it carries an entry
    of its own under that name: a parsed document holds no function, so
    the entry cannot be called, the inherited [valueOf] hands the object
    back, and the conversion throws a TypeError.  An array prints its
    elements joined by commas, [null] and [undefined] as the empty
    string. *)
Fixpoint ToString (v : value) : exn + jsstring :=
  match v with
  | VUndef => inr (str "undefined")
  | VNull => inr (str "null")
  | VBool true => inr (str "true")
  | VBool false => inr (str "false")
  | VNum n => inr (num_to_string n)
  | VStr s => inr s
  | VArr items =>
      match
        (fix each (l : list value) : exn + list jsstring :=
           match l with
           | [] => inr []
           | x :: rest =>
               match (match x with
                      | VUndef | VNull => inr []
                      | _ => ToString x
                      end) with
               | inl e => inl e
               | inr part =>
                   match each rest with
                   | inl e => inl e
                   | inr parts => inr (part :: parts)
                   end
               end
           end) items
      with
      | inl e => inl e
      | inr parts => inr (join (str ",") parts)
      end
  | VObj fs =>
      match assoc (str "toString") fs with
      | Some _ => inl (raise (NotPrimitive v))
      | None => inr (str "[object Object]")
      end
  end.

(** ToNumber; arrays and plain objects go through their string form
    (the inherited [valueOf] hands the object back). *)
Definition ToNumber (v : value) : exn + jsnum :=
  match v with
  | VUndef => inr NaN
  | VNull => inr (Fin 0)
  | VBool true => inr (Fin 1)
  | VBool false => inr (Fin 0)
  | VNum n => inr n
  | VStr s => inr (StringToNumber s)
  | VArr _ | VObj _ =>
      match ToString v with
      | inl e => inl e
      | inr s => inr (StringToNumber s)
      end
  end.

(** [String(e)] of a caught value, as template literals print it:
    [Error.prototype.toString] for an error, ToString for anything
    else. *)
Definition exn_to_string (e : exn) : exn + jsstring :=
  match e with
  | JsError name message =>
      inr match name, message with
          | [], _ => message
          | _, [] => name
          | _, _ => name ++ str ": " ++ message
          end
  | Thrown v => ToString v
  end.

(** How a [catch] block that prints the caught [e] into a message ends:
    it goes on once [e] is printed, and throws what the conversion of [e]
    to a string throws. *)
Definition after_report (e : exn) : exn + unit :=
  match exn_to_string e with
  | inr _ => inr tt
  | inl thrown => inl thrown
  end.

(** [base.key] for the fixed names the handlers read (never an index or
    [length]): only objects carry them. *)
Definition get_prop (base : value) (key : jsstring) : exn + value :=
  match base with
  | VUndef | VNull => inl (raise (ReadProp base key))
  | VObj fs => inr (match assoc key fs with Some v => v | None => VUndef end)
  | _ => inr VUndef
  end.

(** [base?.key] *)
Definition opt_get (base : value) (key : jsstring) : value :=
  match base with
  | VObj fs => match assoc key fs with Some v => v | None => VUndef end
  | _ => VUndef
  end.

(** [e.message] of a caught value. *)
Definition exn_message (e : exn) : exn + value :=
  match e with
  | JsError _ message => inr (VStr message)
  | Thrown v => get_prop v (str "message")
  end.

(** [a === b] against a string literal. *)
Definition is_string (v : value) (lit : jsstring) : bool :=
  match v with
  | VStr s => jsstring_eqb s lit
  | _ => false
  end.

End WithRuntime.

(** Sequencing of fallible steps outside a handler. *)
Definition and_then {A C} (x : exn + A) (k : A -> exn + C) : exn + C :=
  match x with
  | inl e => inl e
  | inr a => k a
  end.

End JS.

Declare Scope result_scope.
Delimit Scope result_scope with result.
Notation "x <- m ;; k" := (JS.and_then m (fun x => k))
  (at level 61, m at next level, right associativity) : result_scope.

(** ** Handlers: component state, backend and the log of outbound calls *)

Module Handler.
Import JS.

(** The second argument of [fetch]. *)
Record RequestInit := {
  method : jsstring;
  headers : list (jsstring * jsstring);
  body : jsstring
}.

(** A fulfilled [fetch]; [json] is what [response.json()] settles to. *)
Record Response := {
  ok : bool;
  json : exn + value
}.

(** What a handler does to the outside. *)
Inductive call :=
| Invoke (cmd : jsstring) (args : value)
| Fetch (url : jsstring) (init : RequestInit)
| Alert (message : jsstring)
| ConsoleError (label : jsstring) (error : exn)
| Callback (prop : jsstring) (arg : value).

(** The collaborator behind the native bridge and the network: each call
    may change its world and settles to a value or a rejection. *)
Record Backend (W : Type) := {
  on_invoke : W -> jsstring -> value -> W * (exn + value);
  on_fetch : W -> jsstring -> RequestInit -> W * (exn + Response)
}.

Section Monad.
Variables W St : Type.
Variable B : Backend W.

(** A run threads the backend's world, the component state as the setters
    have left it so far, and every call issued, each with the state at
    the moment it was issued.  State survives a throw. *)
Record Run := {
  world : W;
  state : St;
  log : list (call * St)
}.

Definition M (A : Type) : Type := Run -> Run * (exn + A).

Definition ret {A} (a : A) : M A := fun r => (r, inr a).

Definition bind {A C} (m : M A) (k : A -> M C) : M C :=
  fun r =>
    match m r with
    | (r', inr a) => k a r'
    | (r', inl e) => (r', inl e)
    end.

Definition throw {A} (e : exn) : M A := fun r => (r, inl e).

Definition lift {A} (x : exn + A) : M A := fun r => (r, x).

(** [try { m } catch (e) { h e }] *)
Definition try_catch {A} (m : M A) (h : exn -> M A) : M A :=
  fun r =>
    match m r with
    | (r', inl e) => h e r'
    | done => done
    end.

(** [try { m } finally { f }] *)
Definition finally {A} (m : M A) (f : M unit) : M A :=
  fun r =>
    match m r with
    | (r', res) =>
        match f r' with
        | (r'', inl e) => (r'', inl e)
        | (r'', inr _) => (r'', res)
        end
    end.

(** A state setter. *)
Definition set (f : St -> St) : M unit :=
  fun r => ({| world := world r; state := f (state r); log := log r |}, inr tt).

Definition record (c : call) (r : Run) (w : W) : Run :=
  {| world := w; state := state r; log := log r ++ [(c, state r)] |}.

(** [await invoke(cmd, args)] *)
Definition invoke (cmd : jsstring) (args : value) : M value :=
  fun r =>
    let (w, res) := on_invoke B (world r) cmd args in
    (record (Invoke cmd args) r w, res).

(** [await fetch(url, init)] *)
Definition fetch (url : jsstring) (init : RequestInit) : M Response :=
  fun r =>
    let (w, res) := on_fetch B (world r) url init in
    (record (Fetch url init) r w, res).

Definition alert (message : jsstring) : M unit :=
  fun r => (record (Alert message) r (world r), inr tt).

Definition console_error (label : jsstring) (e : exn) : M unit :=
  fun r => (record (ConsoleError label e) r (world r), inr tt).

(** Calling a callback prop handed down by the parent component. *)
Definition callback (prop : jsstring) (arg : value) : M unit :=
  fun r => (record (Callback prop arg) r (world r), inr tt).

(** Running a handler from a rendered state. *)
Definition start (w : W) (s : St) : Run := {| world := w; state := s; log := [] |}.

Definition calls (r : Run) : list call := map fst (log r).

(** The run a handler leaves behind when fired in world [w] from the
    rendered state [s]. *)
Definition exec {A} (m : M A) (w : W) (s : St) : Run := fst (m (start w s)).

(** A computation that issues no call and leaves the backend alone. *)
Definition quiet {A} (m : M A) : Prop :=
  forall r, log (fst (m r)) = log r /\ world (fst (m r)) = world r.

End Monad.

Arguments ret {W St A} a _.
Arguments throw {W St A} e _.
Arguments lift {W St A} x _.
Arguments set {W St} f _.
Arguments alert {W St} message _.
Arguments console_error {W St} label e _.
Arguments callback {W St} prop arg _.
Arguments start {W St} w s.

Definition is_invoke (c : call) : bool :=
  match c with Invoke _ _ => true | _ => false end.

Definition is_fetch (c : call) : bool :=
  match c with Fetch _ _ => true | _ => false end.

Definition is_alert (c : call) : bool :=
  match c with Alert _ => true | _ => false end.

End Handler.

Declare Scope handler_scope.
Delimit Scope handler_scope with handler.
Notation "x <- m ;; k" := (Handler.bind m (fun x => k))
  (at level 61, m at next level, right associativity) : handler_scope.
Notation "m ;; k" := (Handler.bind m (fun _ => k))
  (at level 61, right associativity) : handler_scope.


(** ** What a computation leaves alone *)

Module Frames.
Import JS Handler.

Section Keeps.
Variables W St X : Type.
Variable cell : St -> X.

(** [m] hands the cell [cell] of the component state on as it found it,
    whether it returns or throws. *)
Definition keeps {A} (m : M W St A) : Prop :=
  forall r, cell (state (fst (m r))) = cell (state r).

End Keeps.

End Frames.
(** ** App.tsx: input capture, submission dispatch, progress display *)

Module App.
Import JS Handler.
Local Open Scope handler_scope.

Inductive InputMode := Direct | Guided.
Inductive InputType := Chat | Url | File.
Inductive TaskStatus := Idle | Processing | Success | Error.

(** A browser [File] as the handlers use it; [path] is the extra field
    the desktop shell adds (absent, hence [VUndef], in a plain browser). *)
Record FileHandle := {
  name : jsstring;
  size : N;
  type : jsstring;
  path : value
}.

(** The [useState] cells of [App]. *)
Record State := {
  inputMode : InputMode;
  inputType : InputType;
  textInput : value;
  fileInput : option FileHandle;
  taskStatus : TaskStatus;
  apiResult : value;
  isSettingsOpen : bool;
  isHistoryOpen : bool;
  isDiagnosticsOpen : bool;
  showGuidedAnalysis : bool;
  enableIndexing : bool;
  progress : value;
  statusText : value
}.

Definition initialState : State := {|
  inputMode := Direct;
  inputType := Chat;
  textInput := VStr [];
  fileInput := None;
  taskStatus := Idle;
  apiResult := VNull;
  isSettingsOpen := false;
  isHistoryOpen := false;
  isDiagnosticsOpen := false;
  showGuidedAnalysis := false;
  enableIndexing := true;
  progress := VNum (Fin 0);
  statusText := VStr []
|}.

Definition setTaskStatus (x : TaskStatus) (s : State) : State := {|
  inputMode := inputMode s; inputType := inputType s;
  textInput := textInput s; fileInput := fileInput s;
  taskStatus := x; apiResult := apiResult s;
  isSettingsOpen := isSettingsOpen s; isHistoryOpen := isHistoryOpen s;
  isDiagnosticsOpen := isDiagnosticsOpen s;
  showGuidedAnalysis := showGuidedAnalysis s;
  enableIndexing := enableIndexing s;
  progress := progress s; statusText := statusText s
|}.

Definition setApiResult (x : value) (s : State) : State := {|
  inputMode := inputMode s; inputType := inputType s;
  textInput := textInput s; fileInput := fileInput s;
  taskStatus := taskStatus s; apiResult := x;
  isSettingsOpen := isSettingsOpen s; isHistoryOpen := isHistoryOpen s;
  isDiagnosticsOpen := isDiagnosticsOpen s;
  showGuidedAnalysis := showGuidedAnalysis s;
  enableIndexing := enableIndexing s;
  progress := progress s; statusText := statusText s
|}.

Definition setShowGuidedAnalysis (x : bool) (s : State) : State := {|
  inputMode := inputMode s; inputType := inputType s;
  textInput := textInput s; fileInput := fileInput s;
  taskStatus := taskStatus s; apiResult := apiResult s;
  isSettingsOpen := isSettingsOpen s; isHistoryOpen := isHistoryOpen s;
  isDiagnosticsOpen := isDiagnosticsOpen s;
  showGuidedAnalysis := x;
  enableIndexing := enableIndexing s;
  progress := progress s; statusText := statusText s
|}.

Definition setTextInput (x : value) (s : State) : State := {|
  inputMode := inputMode s; inputType := inputType s;
  textInput := x; fileInput := fileInput s;
  taskStatus := taskStatus s; apiResult := apiResult s;
  isSettingsOpen := isSettingsOpen s; isHistoryOpen := isHistoryOpen s;
  isDiagnosticsOpen := isDiagnosticsOpen s;
  showGuidedAnalysis := showGuidedAnalysis s;
  enableIndexing := enableIndexing s;
  progress := progress s; statusText := statusText s
|}.

Definition setProgress (x : value) (s : State) : State := {|
  inputMode := inputMode s; inputType := inputType s;
  textInput := textInput s; fileInput := fileInput s;
  taskStatus := taskStatus s; apiResult := apiResult s;
  isSettingsOpen := isSettingsOpen s; isHistoryOpen := isHistoryOpen s;
  isDiagnosticsOpen := isDiagnosticsOpen s;
  showGuidedAnalysis := showGuidedAnalysis s;
  enableIndexing := enableIndexing s;
  progress := x; statusText := statusText s
|}.

Definition setStatusText (x : value) (s : State) : State := {|
  inputMode := inputMode s; inputType := inputType s;
  textInput := textInput s; fileInput := fileInput s;
  taskStatus := taskStatus s; apiResult := apiResult s;
  isSettingsOpen := isSettingsOpen s; isHistoryOpen := isHistoryOpen s;
  isDiagnosticsOpen := isDiagnosticsOpen s;
  showGuidedAnalysis := showGuidedAnalysis s;
  enableIndexing := enableIndexing s;
  progress := progress s; statusText := x
|}.

Definition setInputMode (x : InputMode) (s : State) : State := {|
  inputMode := x;
  inputType := inputType s;
  textInput := textInput s;
  fileInput := fileInput s;
  taskStatus := taskStatus s;
  apiResult := apiResult s;
  isSettingsOpen := isSettingsOpen s;
  isHistoryOpen := isHistoryOpen s;
  isDiagnosticsOpen := isDiagnosticsOpen s;
  showGuidedAnalysis := showGuidedAnalysis s;
  enableIndexing := enableIndexing s;
  progress := progress s;
  statusText := statusText s
|}.

Definition setInputType (x : InputType) (s : State) : State := {|
  inputMode := inputMode s;
  inputType := x;
  textInput := textInput s;
  fileInput := fileInput s;
  taskStatus := taskStatus s;
  apiResult := apiResult s;
  isSettingsOpen := isSettingsOpen s;
  isHistoryOpen := isHistoryOpen s;
  isDiagnosticsOpen := isDiagnosticsOpen s;
  showGuidedAnalysis := showGuidedAnalysis s;
  enableIndexing := enableIndexing s;
  progress := progress s;
  statusText := statusText s
|}.

Definition setFileInput (x : option FileHandle) (s : State) : State := {|
  inputMode := inputMode s;
  inputType := inputType s;
  textInput := textInput s;
  fileInput := x;
  taskStatus := taskStatus s;
  apiResult := apiResult s;
  isSettingsOpen := isSettingsOpen s;
  isHistoryOpen := isHistoryOpen s;
  isDiagnosticsOpen := isDiagnosticsOpen s;
  showGuidedAnalysis := showGuidedAnalysis s;
  enableIndexing := enableIndexing s;
  progress := progress s;
  statusText := statusText s
|}.

Definition setEnableIndexing (x : bool) (s : State) : State := {|
  inputMode := inputMode s;
  inputType := inputType s;
  textInput := textInput s;
  fileInput := fileInput s;
  taskStatus := taskStatus s;
  apiResult := apiResult s;
  isSettingsOpen := isSettingsOpen s;
  isHistoryOpen := isHistoryOpen s;
  isDiagnosticsOpen := isDiagnosticsOpen s;
  showGuidedAnalysis := showGuidedAnalysis s;
  enableIndexing := x;
  progress := progress s;
  statusText := statusText s
|}.

(** The string an [inputType] is in the source. *)
Definition input_type_name (t : InputType) : jsstring :=
  match t with
  | Chat => str "chat"
  | Url => str "url"
  | File => str "file"
  end.

Definition text_endpoint : jsstring := str "http://localhost:8000/process/text".

(** The object literal handed to [JSON.stringify] for the POST body. *)
Definition request_payload (inputSource : value) (t : InputType) (indexing : bool)
  : value :=
  VObj [ (str "input_source", inputSource);
         (str "input_type", VStr (input_type_name t));
         (str "enable_indexing", VBool indexing) ].

Section WithBackend.
Context {RT : Runtime} {W : Type}.
Variable B : Backend W.

(** [inputSource.trim()] : [inputSource] is typed [string]; anything
    else the caller smuggles in has no [trim] to call. *)
Definition call_trim (v : value) : exn + jsstring :=
  match v with
  | VStr s => inr (trim s)
  | VUndef | VNull => inl (raise (ReadProp v (str "trim")))
  | _ => inl (raise (NotAFunction v (str "trim")))
  end.

(** The three dispatch branches of [handleSubmit]'s [try] block.  [None]
    is the early [return] of the last branch. *)
Definition dispatch (c : State) (inputSource : value) : M W State (option value) :=
  match inputType c, fileInput c with
  | File, Some f =>
      response <- invoke B (str "process_file") (VObj [(str "filePath", path f)]) ;;
      ret (Some response)
  | _, _ =>
      trimmed <- lift (call_trim inputSource) ;;
      if negb (jsstring_eqb trimmed [])
      then
        fetchResponse <- fetch B text_endpoint
          {| method := str "POST";
             headers := [(str "Content-Type", str "application/json")];
             body := JSON_stringify
                       (request_payload inputSource (inputType c) (enableIndexing c)) |} ;;
        response <- lift (json fetchResponse) ;;
        ret (Some response)
      else
        alert (str "Please provide an input.") ;;
        set (setTaskStatus Idle) ;;
        ret None
  end.

(** The rest of the [try] block: normalise the response and store it. *)
Definition store_response (response : option value) : M W State unit :=
  match response with
  | None => ret tt
  | Some response =>
      data <- lift (match response with
                    | VStr text => JSON_parse text
                    | _ => inr response
                    end) ;;
      status <- lift (get_prop data (str "status")) ;;
      if is_string status (str "error")
      then
        message <- lift (ToString (js_or (opt_get data (str "error"))
                                         (VStr (str "An unknown error occurred.")))) ;;
        throw (JsError (str "Error") message)
      else
        set (setApiResult data) ;;
        set (setTaskStatus Success)
  end.

(** The [catch] block. *)
Definition report_failure (err : exn) : M W State unit :=
  message <- lift (exn_message err) ;;
  set (setApiResult (VObj [(str "status", VStr (str "error"));
                           (str "error", message)])) ;;
  set (setTaskStatus Error).

(** [handleSubmit(requirements?)], run from the rendered state [c] whose
    cells its closure reads. *)
Definition handleSubmit (c : State) (requirements : value) : M W State unit :=
  set (setTaskStatus Processing) ;;
  set (setApiResult VNull) ;;
  set (setShowGuidedAnalysis false) ;;
  let inputSource := js_or requirements (textInput c) in
  try_catch
    (response <- dispatch c inputSource ;;
     store_response response)
    report_failure.

(** [handleGuidedComplete] *)
Definition handleGuidedComplete (c : State) (requirements : value) : M W State unit :=
  set (setTextInput requirements) ;;
  handleSubmit c requirements.

(** [handleTextChange], [handleFileSelect] and [handleInputModeChange] *)
Definition handleTextChange (target_value : jsstring) : M W State unit :=
  set (setTextInput (VStr target_value)).

Definition handleFileSelect (file : FileHandle) : M W State unit :=
  set (setFileInput (Some file)).

Definition handleInputModeChange (mode : InputMode) : M W State unit :=
  set (setInputMode mode) ;;
  match mode with
  | Guided => set (setShowGuidedAnalysis true)
  | Direct => set (setShowGuidedAnalysis false)
  end.

(** The push channel's [onmessage]. *)
Definition onmessage (event_data : jsstring) : M W State unit :=
  data <- lift (JSON_parse event_data) ;;
  p <- lift (get_prop data (str "progress")) ;;
  set (setProgress p) ;;
  set (setStatusText (opt_get data (str "message"))).

(** [Math.floor(progress / 12.5)], the [currentStep] prop handed to
    [ProgressDisplay]. *)
Definition Math_floor (n : jsnum) : jsnum :=
  match n with
  | NaN => NaN
  | Fin q => Fin (inject_Z (Qfloor q))
  end.

Definition band_width : Q := 25 # 2.

(** Half the smallest positive double, [2^-1075]: a quotient no larger
    than this in magnitude is rounded to a zero. *)
Definition underflow_bound : Q := 1 # (2 ^ 1075).

(** [n / d] for a positive divisor.  Numbers stand for doubles.  For a
    progress below [2^52] in magnitude the rounding of [progress / 12.5]
    moves the floor of the quotient across an integer in one case only,
    which the model keeps: a quotient that underflows is a zero, whatever
    its sign.  ([Fin 0] stands for both zeros; nothing here tells them
    apart, [-0 === 0] and [Math.floor(-0)] being a zero again.)  Beyond
    [2^52] the rounded quotient can differ from the exact one by more
    than its fraction; of the index the model gives there, only the sign
    and that it is 8 or more in magnitude are the code's, and the stage
    cards depend on nothing else. *)
Definition divide (n : jsnum) (d : Q) : jsnum :=
  match n with
  | NaN => NaN
  | Fin q => if Qle_bool (Qabs (q / d)) underflow_bound then Fin 0 else Fin (q / d)
  end.

Definition currentStep (s : State) : exn + jsnum :=
  match ToNumber (progress s) with
  | inl e => inl e
  | inr n => inr (Math_floor (divide n band_width))
  end.

(** [getStepClass] of ProgressDisplay.tsx: the CSS class of the stage
    card at [index], given the [currentStep] and [status] props. *)
Definition num_lt (a b : jsnum) : bool :=
  match a, b with
  | Fin x, Fin y => negb (Qle_bool y x)
  | _, _ => false
  end.

Definition num_eq (a b : jsnum) : bool :=
  match a, b with
  | Fin x, Fin y => Qeq_bool x y
  | _, _ => false
  end.

Definition getStepClass (current : jsnum) (status : jsstring) (index : nat) : jsstring :=
  let i := Fin (inject_Z (Z.of_nat index)) in
  if num_lt i current then str "completed"
  else if num_eq i current then status
  else str "pending".

End WithBackend.

End App.

(** ** GuidedAnalysis.tsx: the guided requirements wizard *)

Module GuidedAnalysis.
Import JS Handler.
Local Open Scope handler_scope.

(** [RequirementAnalysisStep] of types/index.ts. *)
Inductive RequirementAnalysisStep := Input | Questions | Summary | Editing.

(** The [useState] cells of the wizard.  [answers] is the object keyed by
    question index; index keys enumerate in ascending order. *)
Record State := {
  currentStep : RequirementAnalysisStep;
  initialRequirement : jsstring;
  questions : value;
  answers : list (nat * jsstring);
  detailedRequirements : value;
  editFeedback : jsstring;
  isLoading : bool;
  error : option jsstring
}.

Definition initialState : State := {|
  currentStep := Input;
  initialRequirement := [];
  questions := VArr [];
  answers := [];
  detailedRequirements := VStr [];
  editFeedback := [];
  isLoading := false;
  error := None
|}.

Definition setCurrentStep (x : RequirementAnalysisStep) (s : State) : State := {|
  currentStep := x; initialRequirement := initialRequirement s;
  questions := questions s; answers := answers s;
  detailedRequirements := detailedRequirements s;
  editFeedback := editFeedback s; isLoading := isLoading s; error := error s
|}.

Definition setInitialRequirement (x : jsstring) (s : State) : State := {|
  currentStep := currentStep s; initialRequirement := x;
  questions := questions s; answers := answers s;
  detailedRequirements := detailedRequirements s;
  editFeedback := editFeedback s; isLoading := isLoading s; error := error s
|}.

Definition setQuestions (x : value) (s : State) : State := {|
  currentStep := currentStep s; initialRequirement := initialRequirement s;
  questions := x; answers := answers s;
  detailedRequirements := detailedRequirements s;
  editFeedback := editFeedback s; isLoading := isLoading s; error := error s
|}.

Definition setAnswers (x : list (nat * jsstring)) (s : State) : State := {|
  currentStep := currentStep s; initialRequirement := initialRequirement s;
  questions := questions s; answers := x;
  detailedRequirements := detailedRequirements s;
  editFeedback := editFeedback s; isLoading := isLoading s; error := error s
|}.

Definition setDetailedRequirements (x : value) (s : State) : State := {|
  currentStep := currentStep s; initialRequirement := initialRequirement s;
  questions := questions s; answers := answers s;
  detailedRequirements := x;
  editFeedback := editFeedback s; isLoading := isLoading s; error := error s
|}.

Definition setEditFeedback (x : jsstring) (s : State) : State := {|
  currentStep := currentStep s; initialRequirement := initialRequirement s;
  questions := questions s; answers := answers s;
  detailedRequirements := detailedRequirements s;
  editFeedback := x; isLoading := isLoading s; error := error s
|}.

Definition setIsLoading (x : bool) (s : State) : State := {|
  currentStep := currentStep s; initialRequirement := initialRequirement s;
  questions := questions s; answers := answers s;
  detailedRequirements := detailedRequirements s;
  editFeedback := editFeedback s; isLoading := x; error := error s
|}.

Definition setError (x : option jsstring) (s : State) : State := {|
  currentStep := currentStep s; initialRequirement := initialRequirement s;
  questions := questions s; answers := answers s;
  detailedRequirements := detailedRequirements s;
  editFeedback := editFeedback s; isLoading := isLoading s; error := x
|}.

(** [{ ...prev, [index.toString()]: value }] *)
Fixpoint put_answer (i : nat) (x : jsstring) (prev : list (nat * jsstring))
  : list (nat * jsstring) :=
  match prev with
  | [] => [(i, x)]
  | (j, y) :: rest =>
      if Nat.eqb i j then (j, x) :: rest
      else if Nat.ltb i j then (i, x) :: (j, y) :: rest
      else (j, y) :: put_answer i x rest
  end.

(** The [answers] object as it crosses the bridge. *)
Definition answers_object (a : list (nat * jsstring)) : value :=
  VObj (map (fun e => (index_key (fst e), VStr (snd e))) a).

Section WithBackend.
Context {RT : Runtime} {W : Type}.
Variable B : Backend W.

(** Step 1: initial input. *)
Definition handleInitialSubmit (c : State) : M W State unit :=
  if Nat.ltb (List.length (trim (initialRequirement c))) 10
  then
    set (setError (Some (str
      "Please provide at least a brief description (more than 10 characters)")))
  else
    set (setIsLoading true) ;;
    set (setError None) ;;
    finally
      (try_catch
         (response <- invoke B (str "generate_questions")
                        (VObj [(str "initialRequirement",
                                VStr (trim (initialRequirement c)))]) ;;
          set (setQuestions response) ;;
          set (setCurrentStep Questions))
         (fun err =>
            text <- lift (exn_to_string err) ;;
            set (setError (Some (str "Failed to generate questions: " ++ text)))))
      (set (setIsLoading false)).

(** Step 2: answer questions. *)
Definition handleAnswerChange (index : nat) (x : jsstring) : M W State unit :=
  set (fun s => setAnswers (put_answer index x (answers s)) s).

Definition handleGenerateRequirements (c : State) : M W State unit :=
  set (setIsLoading true) ;;
  set (setError None) ;;
  finally
    (try_catch
       (response <- invoke B (str "generate_detailed_requirements")
                      (VObj [(str "initialRequirement",
                              VStr (trim (initialRequirement c)));
                             (str "answers", answers_object (answers c))]) ;;
        set (setDetailedRequirements response) ;;
        set (setCurrentStep Summary))
       (fun err =>
          text <- lift (exn_to_string err) ;;
          set (setError (Some (str "Failed to generate requirements: " ++ text)))))
    (set (setIsLoading false)).

(** Step 3: review and confirm. *)
Definition handleConfirm (c : State) : M W State unit :=
  callback (str "onComplete") (detailedRequirements c).

Definition handleEdit : M W State unit :=
  set (setCurrentStep Editing).

(** Step 4: edit requirements. *)
Definition handleApplyEdit (c : State) : M W State unit :=
  if jsstring_eqb (trim (editFeedback c)) []
  then
    set (setError (Some (str "Please provide your modification request")))
  else
    set (setIsLoading true) ;;
    set (setError None) ;;
    finally
      (try_catch
         (response <- invoke B (str "edit_requirements")
                        (VObj [(str "currentRequirements", detailedRequirements c);
                               (str "editFeedback", VStr (trim (editFeedback c)))]) ;;
          set (setDetailedRequirements response) ;;
          set (setEditFeedback []) ;;
          set (setCurrentStep Summary))
         (fun err =>
            text <- lift (exn_to_string err) ;;
            set (setError (Some (str "Failed to edit requirements: " ++ text)))))
      (set (setIsLoading false)).

Definition handleStartOver : M W State unit :=
  set (setCurrentStep Input) ;;
  set (setInitialRequirement []) ;;
  set (setQuestions (VArr [])) ;;
  set (setAnswers []) ;;
  set (setDetailedRequirements (VStr [])) ;;
  set (setEditFeedback []) ;;
  set (setError None).

(** The two inline [onClick] handlers of the Back buttons. *)
Definition backToInput : M W State unit :=
  set (setCurrentStep Input).

Definition backToSummary : M W State unit :=
  set (setEditFeedback []) ;;
  set (setCurrentStep Summary).

End WithBackend.

End GuidedAnalysis.

(** ** ResultsDisplay.tsx: the tabbed results view *)

Module ResultsDisplay.
Import JS.
Local Open Scope result_scope.

Inductive Tab := Analysis | Download | Implementation | Files.

(** [useState('implementation')] *)
Definition initialTab : Tab := Implementation.

Definition tab_name (t : Tab) : jsstring :=
  match t with
  | Analysis => str "analysis"
  | Download => str "download"
  | Implementation => str "implementation"
  | Files => str "files"
  end.

Definition tab_eqb (a b : Tab) : bool :=
  match a, b with
  | Analysis, Analysis | Download, Download
  | Implementation, Implementation | Files, Files => true
  | _, _ => false
  end.

(** What a click handler of the view does. *)
Inductive action :=
| SetActiveTab (t : Tab)
| HandleExport
| HandleDownload (filePath : value).

(** The rendered element tree. *)
Inductive vnode :=
| Text (s : jsstring)
| Elem (tag className : jsstring) (onClick : option action) (children : list vnode).

(** The text leaves of a tree, in document order. *)
Fixpoint text_content (n : vnode) : list jsstring :=
  match n with
  | Text s => [s]
  | Elem _ _ _ children =>
      (fix each (l : list vnode) : list jsstring :=
         match l with
         | [] => []
         | c :: rest => text_content c ++ each rest
         end) children
  end.

Section WithRuntime.
Context {RT : Runtime}.

(** How React renders a [{value}] child: strings and numbers as text,
    booleans, [null] and [undefined] as nothing, arrays element by
    element; a plain object is refused. *)
Fixpoint child (v : value) : exn + list vnode :=
  match v with
  | VStr s => inr [Text s]
  | VNum n => inr [Text (num_to_string n)]
  | VUndef | VNull | VBool _ => inr []
  | VArr items =>
      (fix each (l : list value) : exn + list vnode :=
         match l with
         | [] => inr []
         | x :: rest =>
             match child x with
             | inl e => inl e
             | inr xs =>
                 match each rest with
                 | inl e => inl e
                 | inr ys => inr (xs ++ ys)
                 end
             end
         end) items
  | VObj _ => inl (raise (InvalidReactChild v))
  end.

(** [JSON.stringify(v, null, 2)]: [undefined] has no JSON text. *)
Definition stringify_indented (v : value) : value :=
  match v with
  | VUndef => VUndef
  | _ => VStr (JSON_stringify_indent2 v)
  end.

(** One phase panel: heading and the result card around [body]. *)
Definition phase_panel (className heading : jsstring) (body : list vnode) : vnode :=
  Elem (str "div") className None
    [ Elem (str "h3") [] None [Text heading];
      Elem (str "div") (str "result-card") None
        [Elem (str "pre") [] None body] ].

(** [file.split('/').pop()] *)
Definition file_base_name (file : value) : exn + jsstring :=
  match file with
  | VStr s => inr (last_segment [] s)
  | VUndef | VNull => inl (raise (ReadProp file (str "split")))
  | _ => inl (raise (NotAFunction file (str "split")))
  end.

Definition file_item (file : value) : exn + vnode :=
  base <- file_base_name file ;;
  inr (Elem (str "div") (str "file-item") None
         [ Elem (str "span") (str "file-icon") None [Text [55357; 56516]%N];
           Elem (str "span") (str "file-name") None [Text base];
           Elem (str "button") (str "download-btn") (Some (HandleDownload file))
             [Text (str "Download")] ]).

Fixpoint file_items (files : list value) : exn + list vnode :=
  match files with
  | [] => inr []
  | file :: rest =>
      item <- file_item file ;;
      items <- file_items rest ;;
      inr (item :: items)
  end.

Definition no_files : vnode :=
  Elem (str "p") [] None [Text (str "No files generated.")].

(** [files.length > 0 ? files.map(...) : <p>No files generated.</p>] for
    whatever [generated_files] holds. *)
Definition file_list (files : value) : exn + list vnode :=
  match files with
  | VArr [] => inr [no_files]
  | VArr items => file_items items
  | VStr _ => inl (raise (NotAFunction files (str "map")))
  | VObj fs =>
      match ToNumber (opt_get files (str "length")) with
      | inl e => inl e
      | inr (Fin q) => if Qle_bool q 0 then inr [no_files]
                       else inl (raise (NotAFunction files (str "map")))
      | inr NaN => inr [no_files]
      end
  | _ => inr [no_files]
  end.

Definition renderTabContent (activeTab : Tab) (result : value) : exn + vnode :=
  match activeTab with
  | Analysis =>
      body <- child (js_or (opt_get result (str "analysis_result"))
                           (VStr (str "No analysis results available."))) ;;
      inr (phase_panel (str "tab-content analysis-content") (str "Analysis Phase") body)
  | Download =>
      body <- child (js_or (opt_get result (str "download_result"))
                           (VStr (str "No download results available."))) ;;
      inr (phase_panel (str "tab-content download-content") (str "Download Phase") body)
  | Implementation =>
      body <- child (js_or (stringify_indented (opt_get result (str "repo_result")))
                           (VStr (str "No implementation results available."))) ;;
      inr (phase_panel (str "tab-content implementation-content")
             (str "Implementation Phase") body)
  | Files =>
      let files := js_or (opt_get (opt_get result (str "repo_result"))
                                  (str "generated_files"))
                         (VArr []) in
      items <- file_list files ;;
      inr (Elem (str "div") (str "tab-content files-content") None
             [ Elem (str "h3") [] None [Text (str "Generated Files")];
               Elem (str "div") (str "file-list") None items ])
  end.

Definition tab_button (activeTab t : Tab) (label : jsstring) : vnode :=
  Elem (str "button")
    (str "tab-btn " ++ (if tab_eqb activeTab t then str "active" else []))
    (Some (SetActiveTab t)) [Text label].

(** The component: [null] for a missing result, the header, the four tab
    buttons and the active tab's content otherwise. *)
Definition ResultsDisplay (activeTab : Tab) (result : value) : exn + option vnode :=
  if negb (truthy result) then inr None
  else
    content <- renderTabContent activeTab result ;;
    inr (Some
      (Elem (str "div") (str "results-display") None
         [ Elem (str "div") (str "results-header") None
             [ Elem (str "h2") [] None [Text (str "Processing Results")];
               Elem (str "div") (str "status-badge success") None
                 [ Elem (str "span") (str "dot") None [];
                   Text (str " Completed") ];
               Elem (str "button") (str "export-btn") (Some HandleExport)
                 [Text (str "Export Results")] ];
           Elem (str "div") (str "tabs-container") None
             [ Elem (str "div") (str "tabs-header") None
                 [ tab_button activeTab Analysis ([55357; 56522]%N ++ str " Analysis");
                   tab_button activeTab Download ([11015; 65039]%N ++ str " Download");
                   tab_button activeTab Implementation
                     ([55357; 56507]%N ++ str " Implementation");
                   tab_button activeTab Files ([55357; 56514]%N ++ str " Files") ];
               Elem (str "div") (str "tabs-body") None [content] ] ])).

End WithRuntime.

End ResultsDisplay.

(** ** ProgressDisplay.tsx: the stage cards and the status line *)

Module ProgressDisplay.
Import JS ResultsDisplay.


(** The class a rendered element carries. *)
Definition class_name (n : vnode) : jsstring :=
  match n with
  | Text _ => []
  | Elem _ className _ _ => className
  end.




(** The cards of a grid. *)
Definition cards (grid : vnode) : list vnode :=
  match grid with
  | Text _ => []
  | Elem _ _ _ children => children
  end.


Section WithRuntime.
Context {RT : Runtime}.

(** The status line under the bar; the template literal converts
    [statusText] to a string. *)
Definition status_text (status : jsstring) (statusText : value) : exn + vnode :=
  match ToString statusText with
  | inl e => inl e
  | inr text =>
      inr (Elem (str "div") (str "status-text") None
             [Text (if jsstring_eqb status (str "error")
                    then [10060%N] ++ str " Error: " ++ text
                    else [8505; 65039]%N ++ str " " ++ text)])
  end.

End WithRuntime.

End ProgressDisplay.

(** ** App.tsx: what is rendered, and the events it reacts to *)

Module AppView.
Import JS Handler App ResultsDisplay ProgressDisplay.
Local Open Scope handler_scope.

Definition setIsSettingsOpen (x : bool) (s : State) : State := {|
  inputMode := inputMode s;
  inputType := inputType s;
  textInput := textInput s;
  fileInput := fileInput s;
  taskStatus := taskStatus s;
  apiResult := apiResult s;
  isSettingsOpen := x;
  isHistoryOpen := isHistoryOpen s;
  isDiagnosticsOpen := isDiagnosticsOpen s;
  showGuidedAnalysis := showGuidedAnalysis s;
  enableIndexing := enableIndexing s;
  progress := progress s;
  statusText := statusText s
|}.

Definition setIsHistoryOpen (x : bool) (s : State) : State := {|
  inputMode := inputMode s;
  inputType := inputType s;
  textInput := textInput s;
  fileInput := fileInput s;
  taskStatus := taskStatus s;
  apiResult := apiResult s;
  isSettingsOpen := isSettingsOpen s;
  isHistoryOpen := x;
  isDiagnosticsOpen := isDiagnosticsOpen s;
  showGuidedAnalysis := showGuidedAnalysis s;
  enableIndexing := enableIndexing s;
  progress := progress s;
  statusText := statusText s
|}.

Definition setIsDiagnosticsOpen (x : bool) (s : State) : State := {|
  inputMode := inputMode s;
  inputType := inputType s;
  textInput := textInput s;
  fileInput := fileInput s;
  taskStatus := taskStatus s;
  apiResult := apiResult s;
  isSettingsOpen := isSettingsOpen s;
  isHistoryOpen := isHistoryOpen s;
  isDiagnosticsOpen := x;
  showGuidedAnalysis := showGuidedAnalysis s;
  enableIndexing := enableIndexing s;
  progress := progress s;
  statusText := statusText s
|}.


Definition input_type_eqb (a b : InputType) : bool :=
  match a, b with
  | Chat, Chat | Url, Url | File, File => true
  | _, _ => false
  end.

Definition task_status_eqb (a b : TaskStatus) : bool :=
  match a, b with
  | Idle, Idle | Processing, Processing | Success, Success | Error, Error => true
  | _, _ => false
  end.

(** The object the [catch] block of [handleSubmit] stores. *)
Definition error_result (message : value) : value :=
  VObj [(str "status", VStr (str "error")); (str "error", message)].

Section WithRuntime.
Context {RT : Runtime}.
Local Open Scope result_scope.





End WithRuntime.

(** *** Events *)

(** What the user, the wizard and the push channel can make [App] do. *)
Inductive event :=
| TextChange (text : jsstring)
| FileSelect (file : FileHandle)
| Submit
| GuidedComplete (requirements : value)
| GuidedCancel
| InputModeChange (mode : InputMode)
| SelectInputType (t : InputType)
| ToggleIndexing (checked : bool)
| OpenSettings | CloseSettings
| OpenHistory | CloseHistory
| OpenDiagnostics | CloseDiagnostics
| Message (data : jsstring).

(** Whether the control behind an event is on screen (and not disabled)
    in the rendered state [s]: the mode selector needs the chat input type
    and no wizard, the direct input interface needs no wizard, the submit
    button is disabled while processing, the wizard's callbacks need the
    wizard, a modal's close button the modal. *)
Definition enabled (e : event) (s : State) : bool :=
  match e with
  | TextChange _ =>
      negb (showGuidedAnalysis s) && negb (input_type_eqb (inputType s) File)
  | FileSelect _ =>
      negb (showGuidedAnalysis s) && input_type_eqb (inputType s) File
  | Submit =>
      negb (showGuidedAnalysis s) && negb (task_status_eqb (taskStatus s) Processing)
  | GuidedComplete _ | GuidedCancel => showGuidedAnalysis s
  | InputModeChange _ =>
      input_type_eqb (inputType s) Chat && negb (showGuidedAnalysis s)
  | SelectInputType _ => negb (showGuidedAnalysis s)
  | CloseSettings => isSettingsOpen s
  | CloseHistory => isHistoryOpen s
  | CloseDiagnostics => isDiagnosticsOpen s
  | ToggleIndexing _ | OpenSettings | OpenHistory | OpenDiagnostics | Message _ => true
  end.

Section WithBackend.
Context {RT : Runtime} {W : Type}.
Variable B : Backend W.

(** [handleGuidedCancel] *)
Definition handleGuidedCancel : M W State unit :=
  set (setShowGuidedAnalysis false).

(** The handler an event runs, with the rendered state [c] in its
    closure. *)
Definition fire (e : event) (c : State) : M W State unit :=
  match e with
  | TextChange text => handleTextChange text
  | FileSelect file => handleFileSelect file
  | Submit => handleSubmit B c VUndef
  | GuidedComplete requirements => handleGuidedComplete B c requirements
  | GuidedCancel => handleGuidedCancel
  | InputModeChange mode => handleInputModeChange mode
  | SelectInputType t => set (setInputType t)
  | ToggleIndexing checked => set (setEnableIndexing checked)
  | OpenSettings => set (setIsSettingsOpen true)
  | CloseSettings => set (setIsSettingsOpen false)
  | OpenHistory => set (setIsHistoryOpen true)
  | CloseHistory => set (setIsHistoryOpen false)
  | OpenDiagnostics => set (setIsDiagnosticsOpen true)
  | CloseDiagnostics => set (setIsDiagnosticsOpen false)
  | Message data => onmessage data
  end.

(** The states [App] can be in between two events, each handler having
    run to its end before the next event is taken. *)
Inductive reachable : W -> State -> Prop :=
| reach_initial (w : W) : reachable w initialState
| reach_event (w : W) (s : State) (e : event) :
    reachable w s -> enabled e s = true ->
    reachable (world (exec (fire e s) w s)) (state (exec (fire e s) w s)).

End WithBackend.

(** The result cell agrees with the task status: nothing to show while
    idle or processing, the two-field error object after a failure, a
    reply whose status is not ['error'] after a success. *)
Definition result_matches_status {RT : Runtime} (s : State) : Prop :=
  match taskStatus s with
  | Idle | Processing => apiResult s = VNull
  | Error => exists message, apiResult s = error_result message
  | Success =>
      exists status,
        get_prop (apiResult s) (str "status") = inr status
        /\ is_string status (str "error") = false
  end.

End AppView.

(** ** GuidedAnalysis.tsx: what is rendered, and the events it reacts to *)

Module GuidedAnalysisView.
Import JS Handler GuidedAnalysis ResultsDisplay.
Local Open Scope handler_scope.

(** [answers[index.toString()]] *)
Fixpoint answer_at (i : nat) (a : list (nat * jsstring)) : option jsstring :=
  match a with
  | [] => None
  | (j, y) :: rest => if Nat.eqb i j then Some y else answer_at i rest
  end.

(** The keys of [answers] come in strictly ascending order, which is how
    an object enumerates its index keys. *)
Fixpoint ascending (a : list (nat * jsstring)) : bool :=
  match a with
  | [] => true
  | (i, _) :: rest =>
      match rest with
      | [] => true
      | (j, _) :: _ => Nat.ltb i j && ascending rest
      end
  end.

(** [answers[k].trim()] as a condition. *)
Definition is_answered (a : list (nat * jsstring)) (k : nat) : bool :=
  match answer_at k a with
  | Some y => negb (jsstring_eqb (trim y) [])
  | None => false
  end.

(** [Object.keys(answers).filter(k => answers[k].trim()).length], the
    count shown in "You've answered ... out of ... questions". *)
Definition answered (a : list (nat * jsstring)) : nat :=
  List.length (filter (is_answered a) (map fst a)).

Definition step_eqb (a b : RequirementAnalysisStep) : bool :=
  match a, b with
  | Input, Input | Questions, Questions | Summary, Summary | Editing, Editing => true
  | _, _ => false
  end.

(** [Object.values(RequirementAnalysisStep)] *)
Definition step_values : list RequirementAnalysisStep :=
  [Input; Questions; Summary; Editing].

(** [values.indexOf(x)], counting from [i]. *)
Fixpoint index_from (i : Z) (x : RequirementAnalysisStep)
    (values : list RequirementAnalysisStep) : Z :=
  match values with
  | [] => (-1)%Z
  | y :: rest => if step_eqb y x then i else index_from (i + 1)%Z x rest
  end.

Definition progress_labels : list jsstring :=
  [str "Input"; str "Questions"; str "Summary"; str "Complete"].

(** [steps.map((step, index) => ...)] of [renderProgressBar]. *)
Fixpoint progress_steps (currentIndex : Z) (index : nat) (steps : list jsstring)
  : list vnode :=
  match steps with
  | [] => []
  | step :: rest =>
      Elem (str "div")
        (str "progress-step "
         ++ (if Z.leb (Z.of_nat index) currentIndex then str "active" else []))
        None
        [ Elem (str "div") (str "progress-circle") None [Text (index_key (S index))];
          Elem (str "div") (str "progress-label") None [Text step] ]
        :: progress_steps currentIndex (S index) rest
  end.

Definition renderProgressBar (s : State) : vnode :=
  Elem (str "div") (str "progress-bar") None
    (progress_steps (index_from 0 (currentStep s) step_values) 0 progress_labels).

(** The [disabled] attribute of the three buttons that call the backend. *)
Definition generate_questions_disabled (s : State) : bool :=
  isLoading s || Nat.ltb (List.length (trim (initialRequirement s))) 10.

Definition generate_requirements_disabled (s : State) : bool :=
  isLoading s.

Definition apply_changes_disabled (s : State) : bool :=
  isLoading s || jsstring_eqb (trim (editFeedback s)) [].

(** *** Events *)

(** What the user can make the wizard do.  (Cancel only calls the
    parent's [onCancel] and touches no cell of the wizard.) *)
Inductive event :=
| ChangeRequirement (text : jsstring)
| InitialSubmit
| AnswerChange (index : nat) (text : jsstring)
| BackToInput
| GenerateRequirements
| StartOver
| Edit
| Confirm
| ChangeFeedback (text : jsstring)
| BackToSummary
| ApplyEdit.

(** [questions.map((question, index) => ...)] offers an answer box for
    every index below the number of questions. *)
Definition is_question (questions : value) (index : nat) : bool :=
  match questions with
  | VArr items => Nat.ltb index (List.length items)
  | _ => false
  end.

(** Whether the control behind an event is on screen and not disabled in
    the rendered state [s]: each step shows its own controls. *)
Definition enabled (e : event) (s : State) : bool :=
  match e with
  | ChangeRequirement _ => step_eqb (currentStep s) Input
  | InitialSubmit =>
      step_eqb (currentStep s) Input && negb (generate_questions_disabled s)
  | AnswerChange index _ =>
      step_eqb (currentStep s) Questions && is_question (questions s) index
  | BackToInput => step_eqb (currentStep s) Questions
  | GenerateRequirements =>
      step_eqb (currentStep s) Questions && negb (generate_requirements_disabled s)
  | StartOver => step_eqb (currentStep s) Summary || step_eqb (currentStep s) Editing
  | Edit | Confirm => step_eqb (currentStep s) Summary
  | ChangeFeedback _ | BackToSummary => step_eqb (currentStep s) Editing
  | ApplyEdit => step_eqb (currentStep s) Editing && negb (apply_changes_disabled s)
  end.

(** [answers[k].trim()] as a condition on the text. *)
Definition nonblank (y : jsstring) : bool := negb (jsstring_eqb (trim y) []).

(** The argument objects of the three bridge calls. *)
Definition questions_request (c : State) : value :=
  VObj [(str "initialRequirement", VStr (trim (initialRequirement c)))].

Definition requirements_request (c : State) : value :=
  VObj [(str "initialRequirement", VStr (trim (initialRequirement c)));
        (str "answers", answers_object (answers c))].

Definition edit_request (c : State) : value :=
  VObj [(str "currentRequirements", detailedRequirements c);
        (str "editFeedback", VStr (trim (editFeedback c)))].

(** The error banner is empty or reports a failed call. *)
Definition reports_failure (e : option jsstring) : Prop :=
  match e with
  | None => True
  | Some text => exists rest, text = str "Failed to " ++ rest
  end.

(** The handlers that [await] a call of the bridge. *)
Definition awaits (e : event) : bool :=
  match e with
  | InitialSubmit | GenerateRequirements | ApplyEdit => true
  | _ => false
  end.

(** The two validation messages of the wizard. *)
Definition too_short : jsstring :=
  str "Please provide at least a brief description (more than 10 characters)".

Definition no_feedback : jsstring :=
  str "Please provide your modification request".

Section WithBackend.
Context {RT : Runtime} {W : Type}.
Variable B : Backend W.

(** The handler an event runs, with the rendered state [c] in its
    closure. *)
Definition fire (e : event) (c : State) : M W State unit :=
  match e with
  | ChangeRequirement text => set (setInitialRequirement text)
  | InitialSubmit => handleInitialSubmit B c
  | AnswerChange index text => handleAnswerChange index text
  | BackToInput => backToInput
  | GenerateRequirements => handleGenerateRequirements B c
  | StartOver => handleStartOver
  | Edit => handleEdit
  | Confirm => handleConfirm c
  | ChangeFeedback text => set (setEditFeedback text)
  | BackToSummary => backToSummary
  | ApplyEdit => handleApplyEdit B c
  end.

(** *** Events while a call is in flight *)

(** The three handlers that call the bridge are [async]: each runs up to
    its [await], and the rest of it runs when the call has settled.  In
    between the wizard is on screen and takes whatever event its controls
    allow. *)

(** What a handler does up to its [await]: the command and arguments of
    the call it then issues, or [None] when it has run to its end. *)
Definition until_await (e : event) (c : State) : M W State (option (jsstring * value)) :=
  match e with
  | InitialSubmit =>
      if Nat.ltb (List.length (trim (initialRequirement c))) 10
      then set (setError (Some too_short)) ;; ret None
      else
        set (setIsLoading true) ;;
        set (setError None) ;;
        ret (Some (str "generate_questions", questions_request c))
  | GenerateRequirements =>
      set (setIsLoading true) ;;
      set (setError None) ;;
      ret (Some (str "generate_detailed_requirements", requirements_request c))
  | ApplyEdit =>
      if jsstring_eqb (trim (editFeedback c)) []
      then set (setError (Some no_feedback)) ;; ret None
      else
        set (setIsLoading true) ;;
        set (setError None) ;;
        ret (Some (str "edit_requirements", edit_request c))
  | _ => fire e c ;; ret None
  end.

(** What the handler does once its call has settled with [outcome]: the
    rest of the [try] block, or the [catch] block, and the [finally]
    block.  None of it reads the closure. *)
Definition after_await (e : event) (outcome : exn + value) : M W State unit :=
  match e with
  | InitialSubmit =>
      finally
        (try_catch
           (response <- lift outcome ;;
            set (setQuestions response) ;;
            set (setCurrentStep Questions))
           (fun err =>
              text <- lift (exn_to_string err) ;;
              set (setError (Some (str "Failed to generate questions: " ++ text)))))
        (set (setIsLoading false))
  | GenerateRequirements =>
      finally
        (try_catch
           (response <- lift outcome ;;
            set (setDetailedRequirements response) ;;
            set (setCurrentStep Summary))
           (fun err =>
              text <- lift (exn_to_string err) ;;
              set (setError (Some (str "Failed to generate requirements: " ++ text)))))
        (set (setIsLoading false))
  | ApplyEdit =>
      finally
        (try_catch
           (response <- lift outcome ;;
            set (setDetailedRequirements response) ;;
            set (setEditFeedback []) ;;
            set (setCurrentStep Summary))
           (fun err =>
              text <- lift (exn_to_string err) ;;
              set (setError (Some (str "Failed to edit requirements: " ++ text)))))
        (set (setIsLoading false))
  | _ => ret tt
  end.

(** A call in flight: the handler that awaits it and what the bridge will
    settle it with. *)
Definition in_flight : Type := event * (exn + value).

(** The wizard between two turns of the event loop: the bridge's world,
    the cells, and the calls in flight. *)
Definition take (e : event) (w : W) (s : State) (pending : list in_flight)
  : W * State * list in_flight :=
  match until_await e s (start w s) with
  | (r, inr (Some (cmd, args))) =>
      let (w', outcome) := on_invoke B (world r) cmd args in
      (w', state r, pending ++ [(e, outcome)])
  | (r, _) => (world r, state r, pending)
  end.

Definition settle (e : event) (outcome : exn + value) (w : W) (s : State) : State :=
  state (fst (after_await e outcome (start w s))).

(** The states the wizard can be in.  A turn of the event loop is an
    event of a control that is on screen and enabled, whose handler runs
    up to its [await] or to its end, or the settling of a call in flight,
    in any order, whose handler then runs to its end. *)
Inductive reachable : W -> State -> list in_flight -> Prop :=
| reach_initial (w : W) : reachable w initialState []
| reach_event (w : W) (s : State) (pending : list in_flight) (e : event) :
    reachable w s pending -> enabled e s = true ->
    reachable (fst (fst (take e w s pending)))
              (snd (fst (take e w s pending)))
              (snd (take e w s pending))
| reach_settled (w : W) (s : State) (before after : list in_flight)
    (e : event) (outcome : exn + value) :
    reachable w s (before ++ (e, outcome) :: after) ->
    reachable w (settle e outcome w s) (before ++ after).

End WithBackend.

(** What holds of the wizard between two turns: the banner is empty or
    reports a failed call, the answers are in order, and the loading flag
    is set exactly while the one call in flight is. *)
Definition in_step (s : State) (pending : list (event * (exn + value))) : Prop :=
  reports_failure (error s) /\
  ascending (answers s) = true /\
  (forall x, In x pending -> awaits (fst x) = true) /\
  ((pending = [] /\ isLoading s = false) \/
   (exists x, pending = [x] /\ isLoading s = true)).

End GuidedAnalysisView.

(** ** ResultsDisplay.tsx: the name a download is saved under *)

Module Download.
Import JS.

(** [a.download = filePath.split('/').pop() || 'download'] of
    [handleDownload]. *)
Definition download_name (filePath : jsstring) : jsstring :=
  match last_segment [] filePath with
  | [] => str "download"
  | base => base
  end.

End Download.

(** ** Settings.tsx: the settings panel and its two documents *)

Module Settings.
Import JS Handler.

Inductive MsgType := success | error.

Record StatusMsg := {
  type : MsgType;
  text : jsstring
}.

(** The [useState] cells of [Settings]: the two parsed documents and the
    form.  A form cell holds whatever the document held, so it is a
    [value]. *)
Record State := {
  activeTab : jsstring;
  isLoading : bool;
  statusMsg : option StatusMsg;
  config : value;
  secrets : value;
  openaiKey : value;
  openaiBaseUrl : value;
  anthropicKey : value;
  braveKey : value;
  bochaKey : value;
  searchServer : value;
  docSegEnabled : value;
  docSegThreshold : value;
  defaultModel : value
}.

Definition initialState : State := {|
  activeTab := str "api-keys";
  isLoading := false;
  statusMsg := None;
  config := VNull;
  secrets := VNull;
  openaiKey := VStr [];
  openaiBaseUrl := VStr [];
  anthropicKey := VStr [];
  braveKey := VStr [];
  bochaKey := VStr [];
  searchServer := VStr (str "brave");
  docSegEnabled := VBool false;
  docSegThreshold := VNum (Fin 50000);
  defaultModel := VStr (str "anthropic/claude-3.5-sonnet")
|}.

Definition setActiveTab (x : jsstring) (s : State) : State := {|
  activeTab := x;
  isLoading := isLoading s;
  statusMsg := statusMsg s;
  config := config s;
  secrets := secrets s;
  openaiKey := openaiKey s;
  openaiBaseUrl := openaiBaseUrl s;
  anthropicKey := anthropicKey s;
  braveKey := braveKey s;
  bochaKey := bochaKey s;
  searchServer := searchServer s;
  docSegEnabled := docSegEnabled s;
  docSegThreshold := docSegThreshold s;
  defaultModel := defaultModel s
|}.

Definition setIsLoading (x : bool) (s : State) : State := {|
  activeTab := activeTab s;
  isLoading := x;
  statusMsg := statusMsg s;
  config := config s;
  secrets := secrets s;
  openaiKey := openaiKey s;
  openaiBaseUrl := openaiBaseUrl s;
  anthropicKey := anthropicKey s;
  braveKey := braveKey s;
  bochaKey := bochaKey s;
  searchServer := searchServer s;
  docSegEnabled := docSegEnabled s;
  docSegThreshold := docSegThreshold s;
  defaultModel := defaultModel s
|}.

Definition setStatusMsg (x : option StatusMsg) (s : State) : State := {|
  activeTab := activeTab s;
  isLoading := isLoading s;
  statusMsg := x;
  config := config s;
  secrets := secrets s;
  openaiKey := openaiKey s;
  openaiBaseUrl := openaiBaseUrl s;
  anthropicKey := anthropicKey s;
  braveKey := braveKey s;
  bochaKey := bochaKey s;
  searchServer := searchServer s;
  docSegEnabled := docSegEnabled s;
  docSegThreshold := docSegThreshold s;
  defaultModel := defaultModel s
|}.

Definition setConfig (x : value) (s : State) : State := {|
  activeTab := activeTab s;
  isLoading := isLoading s;
  statusMsg := statusMsg s;
  config := x;
  secrets := secrets s;
  openaiKey := openaiKey s;
  openaiBaseUrl := openaiBaseUrl s;
  anthropicKey := anthropicKey s;
  braveKey := braveKey s;
  bochaKey := bochaKey s;
  searchServer := searchServer s;
  docSegEnabled := docSegEnabled s;
  docSegThreshold := docSegThreshold s;
  defaultModel := defaultModel s
|}.

Definition setSecrets (x : value) (s : State) : State := {|
  activeTab := activeTab s;
  isLoading := isLoading s;
  statusMsg := statusMsg s;
  config := config s;
  secrets := x;
  openaiKey := openaiKey s;
  openaiBaseUrl := openaiBaseUrl s;
  anthropicKey := anthropicKey s;
  braveKey := braveKey s;
  bochaKey := bochaKey s;
  searchServer := searchServer s;
  docSegEnabled := docSegEnabled s;
  docSegThreshold := docSegThreshold s;
  defaultModel := defaultModel s
|}.

Definition setOpenaiKey (x : value) (s : State) : State := {|
  activeTab := activeTab s;
  isLoading := isLoading s;
  statusMsg := statusMsg s;
  config := config s;
  secrets := secrets s;
  openaiKey := x;
  openaiBaseUrl := openaiBaseUrl s;
  anthropicKey := anthropicKey s;
  braveKey := braveKey s;
  bochaKey := bochaKey s;
  searchServer := searchServer s;
  docSegEnabled := docSegEnabled s;
  docSegThreshold := docSegThreshold s;
  defaultModel := defaultModel s
|}.

Definition setOpenaiBaseUrl (x : value) (s : State) : State := {|
  activeTab := activeTab s;
  isLoading := isLoading s;
  statusMsg := statusMsg s;
  config := config s;
  secrets := secrets s;
  openaiKey := openaiKey s;
  openaiBaseUrl := x;
  anthropicKey := anthropicKey s;
  braveKey := braveKey s;
  bochaKey := bochaKey s;
  searchServer := searchServer s;
  docSegEnabled := docSegEnabled s;
  docSegThreshold := docSegThreshold s;
  defaultModel := defaultModel s
|}.

Definition setAnthropicKey (x : value) (s : State) : State := {|
  activeTab := activeTab s;
  isLoading := isLoading s;
  statusMsg := statusMsg s;
  config := config s;
  secrets := secrets s;
  openaiKey := openaiKey s;
  openaiBaseUrl := openaiBaseUrl s;
  anthropicKey := x;
  braveKey := braveKey s;
  bochaKey := bochaKey s;
  searchServer := searchServer s;
  docSegEnabled := docSegEnabled s;
  docSegThreshold := docSegThreshold s;
  defaultModel := defaultModel s
|}.

Definition setBraveKey (x : value) (s : State) : State := {|
  activeTab := activeTab s;
  isLoading := isLoading s;
  statusMsg := statusMsg s;
  config := config s;
  secrets := secrets s;
  openaiKey := openaiKey s;
  openaiBaseUrl := openaiBaseUrl s;
  anthropicKey := anthropicKey s;
  braveKey := x;
  bochaKey := bochaKey s;
  searchServer := searchServer s;
  docSegEnabled := docSegEnabled s;
  docSegThreshold := docSegThreshold s;
  defaultModel := defaultModel s
|}.

Definition setBochaKey (x : value) (s : State) : State := {|
  activeTab := activeTab s;
  isLoading := isLoading s;
  statusMsg := statusMsg s;
  config := config s;
  secrets := secrets s;
  openaiKey := openaiKey s;
  openaiBaseUrl := openaiBaseUrl s;
  anthropicKey := anthropicKey s;
  braveKey := braveKey s;
  bochaKey := x;
  searchServer := searchServer s;
  docSegEnabled := docSegEnabled s;
  docSegThreshold := docSegThreshold s;
  defaultModel := defaultModel s
|}.

Definition setSearchServer (x : value) (s : State) : State := {|
  activeTab := activeTab s;
  isLoading := isLoading s;
  statusMsg := statusMsg s;
  config := config s;
  secrets := secrets s;
  openaiKey := openaiKey s;
  openaiBaseUrl := openaiBaseUrl s;
  anthropicKey := anthropicKey s;
  braveKey := braveKey s;
  bochaKey := bochaKey s;
  searchServer := x;
  docSegEnabled := docSegEnabled s;
  docSegThreshold := docSegThreshold s;
  defaultModel := defaultModel s
|}.

Definition setDocSegEnabled (x : value) (s : State) : State := {|
  activeTab := activeTab s;
  isLoading := isLoading s;
  statusMsg := statusMsg s;
  config := config s;
  secrets := secrets s;
  openaiKey := openaiKey s;
  openaiBaseUrl := openaiBaseUrl s;
  anthropicKey := anthropicKey s;
  braveKey := braveKey s;
  bochaKey := bochaKey s;
  searchServer := searchServer s;
  docSegEnabled := x;
  docSegThreshold := docSegThreshold s;
  defaultModel := defaultModel s
|}.

Definition setDocSegThreshold (x : value) (s : State) : State := {|
  activeTab := activeTab s;
  isLoading := isLoading s;
  statusMsg := statusMsg s;
  config := config s;
  secrets := secrets s;
  openaiKey := openaiKey s;
  openaiBaseUrl := openaiBaseUrl s;
  anthropicKey := anthropicKey s;
  braveKey := braveKey s;
  bochaKey := bochaKey s;
  searchServer := searchServer s;
  docSegEnabled := docSegEnabled s;
  docSegThreshold := x;
  defaultModel := defaultModel s
|}.

Definition setDefaultModel (x : value) (s : State) : State := {|
  activeTab := activeTab s;
  isLoading := isLoading s;
  statusMsg := statusMsg s;
  config := config s;
  secrets := secrets s;
  openaiKey := openaiKey s;
  openaiBaseUrl := openaiBaseUrl s;
  anthropicKey := anthropicKey s;
  braveKey := braveKey s;
  bochaKey := bochaKey s;
  searchServer := searchServer s;
  docSegEnabled := docSegEnabled s;
  docSegThreshold := docSegThreshold s;
  defaultModel := x
|}.

(** *** Documents as trees *)

Definition path := list jsstring.

(** The value found by following [p] through nested objects. *)
Fixpoint lookup (p : path) (d : value) : option value :=
  match p with
  | [] => Some d
  | k :: rest =>
      match d with
      | VObj fs =>
          match assoc k fs with
          | Some c => lookup rest c
          | None => None
          end
      | _ => None
      end
  end.

Fixpoint is_prefix (p q : path) : bool :=
  match p, q with
  | [], _ => true
  | k :: p', k' :: q' => jsstring_eqb k k' && is_prefix p' q'
  | _ :: _, [] => false
  end.

Fixpoint indexed (i : nat) (items : list value) : list (jsstring * value) :=
  match items with
  | [] => []
  | x :: rest => (index_key i, x) :: indexed (S i) rest
  end.

(** [{ ...v }]: the own enumerable properties of [v]. *)
Definition spread (v : value) : value :=
  match v with
  | VObj fs => VObj fs
  | VArr items => VObj (indexed 0 items)
  | VStr s => VObj (indexed 0 (map (fun c => VStr [c]) s))
  | _ => VObj []
  end.

(** The key a server block of the loaded config offers to the form:
    [parsedConfig.mcp?.servers?.[name]?.env?.[key]]. *)
Definition server_key (parsedConfig : value) (name key : jsstring) : value :=
  opt_get (opt_get (opt_get (opt_get (opt_get parsedConfig (str "mcp"))
                                     (str "servers")) name) (str "env")) key.

Section WithRuntime.
Context {RT : Runtime}.
Local Open Scope result_scope.

(** [d.k1.k2...kn = v] on a tree (the module is strict code).  The
    containers on the way are read, the last one is written.  Reading
    through [null] or [undefined] and writing on a primitive throw; a
    named property written on an array is not part of the array's
    elements, which is all a dumped array shows, so the tree keeps the
    array as it is. *)
Fixpoint assign (p : path) (v : value) (d : value) : exn + value :=
  match p with
  | [] => inr v
  | k :: rest =>
      match d with
      | VObj fs =>
          child <- assign rest v (match assoc k fs with
                                  | Some c => c
                                  | None => VUndef
                                  end) ;;
          inr (VObj (put k child fs))
      | VArr _ => inr d
      | VUndef | VNull =>
          inl (raise (match rest with
                      | [] => WriteProp d k
                      | _ => ReadProp d k
                      end))
      | _ =>
          match rest with
          | [] => inl (raise (WriteProp d k))
          | _ => assign rest v VUndef
          end
      end
  end.

(** The block that writes one search server's API key:
    [if (newConfig.mcp?.servers?.[name]) { if (!...env) ...env = {};
    ...env[key] = x }]. *)
Definition update_server_key (name key : jsstring) (x : value) (newConfig : value)
  : exn + value :=
  let server := opt_get (opt_get (opt_get newConfig (str "mcp")) (str "servers")) name in
  if truthy server
  then
    newConfig <-
      (if negb (truthy (opt_get server (str "env")))
       then assign [str "mcp"; str "servers"; name; str "env"] (VObj []) newConfig
       else inr newConfig) ;;
    assign [str "mcp"; str "servers"; name; str "env"; key] x newConfig
  else inr newConfig.

(** [if (!newConfig.document_segmentation) {...}] and the two writes
    into the section. *)
Definition write_segmentation (c : State) (newConfig : value) : exn + value :=
  newConfig <-
    (if negb (truthy (opt_get newConfig (str "document_segmentation")))
     then assign [str "document_segmentation"]
            (VObj [(str "enabled", VBool false);
                   (str "size_threshold_chars", VNum (Fin 50000))])
            newConfig
     else inr newConfig) ;;
  newConfig <- assign [str "document_segmentation"; str "enabled"]
                 (docSegEnabled c) newConfig ;;
  threshold <- ToNumber (docSegThreshold c) ;;
  assign [str "document_segmentation"; str "size_threshold_chars"]
    (VNum threshold) newConfig.

(** [if (!newConfig.openai) {...}] and the write of the model. *)
Definition write_model (c : State) (newConfig : value) : exn + value :=
  newConfig <-
    (if negb (truthy (opt_get newConfig (str "openai")))
     then assign [str "openai"] (VObj [(str "default_model", defaultModel c)]) newConfig
     else inr newConfig) ;;
  assign [str "openai"; str "default_model"] (defaultModel c) newConfig.

(** The config object [handleSave] builds from the loaded document and
    the form, as it stands when it is dumped (or what building it throws). *)
Definition updatedConfig (c : State) : exn + value :=
  let newConfig := spread (config c) in
  newConfig <- assign [str "default_search_server"] (searchServer c) newConfig ;;
  newConfig <- write_segmentation c newConfig ;;
  newConfig <- write_model c newConfig ;;
  newConfig <- update_server_key (str "brave") (str "BRAVE_API_KEY") (braveKey c)
                 newConfig ;;
  update_server_key (str "bocha-mcp") (str "BOCHA_API_KEY") (bochaKey c) newConfig.

(** [if (!newSecrets.openai) {...}] and the two writes into the section. *)
Definition write_openai_secrets (c : State) (newSecrets : value) : exn + value :=
  newSecrets <-
    (if negb (truthy (opt_get newSecrets (str "openai")))
     then assign [str "openai"]
            (VObj [(str "api_key", VStr []); (str "base_url", VStr [])]) newSecrets
     else inr newSecrets) ;;
  newSecrets <- assign [str "openai"; str "api_key"] (openaiKey c) newSecrets ;;
  assign [str "openai"; str "base_url"] (openaiBaseUrl c) newSecrets.

(** [if (!newSecrets.anthropic) {...}] and the write of the key. *)
Definition write_anthropic_secrets (c : State) (newSecrets : value) : exn + value :=
  newSecrets <-
    (if negb (truthy (opt_get newSecrets (str "anthropic")))
     then assign [str "anthropic"] (VObj [(str "api_key", VStr [])]) newSecrets
     else inr newSecrets) ;;
  assign [str "anthropic"; str "api_key"] (anthropicKey c) newSecrets.

(** The secrets object [handleSave] builds. *)
Definition updatedSecrets (c : State) : exn + value :=
  let newSecrets := spread (secrets c) in
  newSecrets <- write_openai_secrets c newSecrets ;;
  write_anthropic_secrets c newSecrets.

(** [yaml.load(input)]: the library starts by converting its input with
    [String].  The parsed document is a tree here.  Where a YAML text
    shares a node between two places through an anchor, the library hands
    out one object for both, so that a write at one place shows at the
    other; a tree holds two copies and cannot show that.  What is said
    below of the documents a save builds is said of documents without
    such sharing. *)
Definition yaml_load_value (input : value) : exn + value :=
  text <- ToString input ;;
  yaml_load text.

End WithRuntime.

(** The cell a document was spread from, seen while [newDoc], its shallow
    copy, is being written.  The copy holds the very objects the cell
    holds, so a write into one of them shows in the cell.  A slot of the
    copy parts from the cell's only when the handler gives the slot itself
    a new value: the slots it assigns outright ([assigned]) and the
    sections it creates, which it does only where the slot was falsy. *)
Definition seen_through (assigned : list jsstring) (newDoc cell : value) : value :=
  match cell with
  | VObj fs =>
      VObj (map (fun kv =>
                   if truthy (snd kv) && negb (existsb (jsstring_eqb (fst kv)) assigned)
                   then (fst kv, match lookup [fst kv] newDoc with
                                 | Some v => v
                                 | None => snd kv
                                 end)
                   else kv) fs)
  | _ => cell
  end.

Section WithBackend.
Context {RT : Runtime} {W : Type}.
Variable B : Backend W.
Local Open Scope handler_scope.

Definition loadConfiguration : M W State unit :=
  set (setIsLoading true) ;;
  set (setStatusMsg None) ;;
  finally
    (try_catch
       (configContent <- invoke B (str "read_config") VUndef ;;
        parsedConfig <- lift (yaml_load_value configContent) ;;
        set (setConfig parsedConfig) ;;
        secretsContent <- invoke B (str "read_secrets") VUndef ;;
        parsedSecrets <- lift (yaml_load_value secretsContent) ;;
        set (setSecrets parsedSecrets) ;;
        server <- lift (get_prop parsedConfig (str "default_search_server")) ;;
        set (setSearchServer (js_or server (VStr (str "brave")))) ;;
        set (setDocSegEnabled
               (js_or (opt_get (opt_get parsedConfig (str "document_segmentation"))
                               (str "enabled"))
                      (VBool false))) ;;
        set (setDocSegThreshold
               (js_or (opt_get (opt_get parsedConfig (str "document_segmentation"))
                               (str "size_threshold_chars"))
                      (VNum (Fin 50000)))) ;;
        set (setDefaultModel
               (js_or (opt_get (opt_get parsedConfig (str "openai"))
                               (str "default_model"))
                      (VStr (str "anthropic/claude-3.5-sonnet")))) ;;
        openai <- lift (get_prop parsedSecrets (str "openai")) ;;
        set (setOpenaiKey (js_or (opt_get openai (str "api_key")) (VStr []))) ;;
        set (setOpenaiBaseUrl (js_or (opt_get openai (str "base_url")) (VStr []))) ;;
        set (setAnthropicKey
               (js_or (opt_get (opt_get parsedSecrets (str "anthropic"))
                               (str "api_key"))
                      (VStr []))) ;;
        (if truthy (server_key parsedConfig (str "brave") (str "BRAVE_API_KEY"))
         then set (setBraveKey
                     (server_key parsedConfig (str "brave") (str "BRAVE_API_KEY")))
         else ret tt) ;;
        (if truthy (server_key parsedConfig (str "bocha-mcp") (str "BOCHA_API_KEY"))
         then set (setBochaKey
                     (server_key parsedConfig (str "bocha-mcp") (str "BOCHA_API_KEY")))
         else ret tt))
       (fun err =>
          console_error (str "Failed to load configuration:") err ;;
          shown <- lift (exn_to_string err) ;;
          set (setStatusMsg
                 (Some {| type := error;
                          text := str "Failed to load configuration: " ++ shown |}))))
    (set (setIsLoading false)).

(** One statement of [handleSave] that writes into the copy [newDoc] of
    a document: the write happens, or throws, and the cell the document
    was spread from shows it as far as the two share the object written. *)
Definition writing (put_cell : value -> State -> State) (assigned : list jsstring)
    (cell : value) (written : exn + value) : M W State value :=
  newDoc <- lift written ;;
  set (put_cell (seen_through assigned newDoc cell)) ;;
  ret newDoc.

(** The block of [handleSave] that writes one search server's key. *)
Definition write_server_key (c : State) (name key : jsstring) (x : value)
    (newConfig : value) : M W State value :=
  let config_write := writing setConfig [str "default_search_server"] (config c) in
  let server := opt_get (opt_get (opt_get newConfig (str "mcp")) (str "servers")) name in
  if truthy server
  then
    newConfig <-
      (if negb (truthy (opt_get server (str "env")))
       then config_write
              (assign [str "mcp"; str "servers"; name; str "env"] (VObj []) newConfig)
       else ret newConfig) ;;
    config_write (assign [str "mcp"; str "servers"; name; str "env"; key] x newConfig)
  else ret newConfig.

(** "Update Config Object": the statements that build [newConfig], one
    by one. *)
Definition build_config (c : State) : M W State value :=
  let config_write := writing setConfig [str "default_search_server"] (config c) in
  newConfig <- config_write
                 (assign [str "default_search_server"] (searchServer c)
                    (spread (config c))) ;;
  newConfig <-
    (if negb (truthy (opt_get newConfig (str "document_segmentation")))
     then config_write
            (assign [str "document_segmentation"]
               (VObj [(str "enabled", VBool false);
                      (str "size_threshold_chars", VNum (Fin 50000))])
               newConfig)
     else ret newConfig) ;;
  newConfig <- config_write
                 (assign [str "document_segmentation"; str "enabled"]
                    (docSegEnabled c) newConfig) ;;
  threshold <- lift (ToNumber (docSegThreshold c)) ;;
  newConfig <- config_write
                 (assign [str "document_segmentation"; str "size_threshold_chars"]
                    (VNum threshold) newConfig) ;;
  newConfig <-
    (if negb (truthy (opt_get newConfig (str "openai")))
     then config_write
            (assign [str "openai"] (VObj [(str "default_model", defaultModel c)])
               newConfig)
     else ret newConfig) ;;
  newConfig <- config_write
                 (assign [str "openai"; str "default_model"] (defaultModel c)
                    newConfig) ;;
  newConfig <- write_server_key c (str "brave") (str "BRAVE_API_KEY") (braveKey c)
                 newConfig ;;
  write_server_key c (str "bocha-mcp") (str "BOCHA_API_KEY") (bochaKey c) newConfig.

(** "Update Secrets Object" *)
Definition build_secrets (c : State) : M W State value :=
  let secrets_write := writing setSecrets [] (secrets c) in
  let newSecrets := spread (secrets c) in
  newSecrets <-
    (if negb (truthy (opt_get newSecrets (str "openai")))
     then secrets_write
            (assign [str "openai"]
               (VObj [(str "api_key", VStr []); (str "base_url", VStr [])]) newSecrets)
     else ret newSecrets) ;;
  newSecrets <- secrets_write
                  (assign [str "openai"; str "api_key"] (openaiKey c) newSecrets) ;;
  newSecrets <- secrets_write
                  (assign [str "openai"; str "base_url"] (openaiBaseUrl c) newSecrets) ;;
  newSecrets <-
    (if negb (truthy (opt_get newSecrets (str "anthropic")))
     then secrets_write
            (assign [str "anthropic"] (VObj [(str "api_key", VStr [])]) newSecrets)
     else ret newSecrets) ;;
  secrets_write (assign [str "anthropic"; str "api_key"] (anthropicKey c) newSecrets).

(** [handleSave], fired from the rendered state [c], whose [config] and
    [secrets] cells hold the objects the run's state holds.  The two new
    documents are shallow copies: what is written into their sections is
    written into the objects of the cells, without a render. *)
Definition handleSave (c : State) : M W State unit :=
  set (setIsLoading true) ;;
  set (setStatusMsg None) ;;
  finally
    (try_catch
       (if negb (truthy (config c)) || negb (truthy (secrets c))
        then ret tt
        else
          newConfig <- build_config c ;;
          newSecrets <- build_secrets c ;;
          configText <- lift (yaml_dump newConfig) ;;
          invoke B (str "write_config") (VObj [(str "content", VStr configText)]) ;;
          secretsText <- lift (yaml_dump newSecrets) ;;
          invoke B (str "write_secrets") (VObj [(str "content", VStr secretsText)]) ;;
          set (setStatusMsg
                 (Some {| type := success;
                          text := str "Configuration saved successfully!" |})) ;;
          loadConfiguration)
       (fun err =>
          console_error (str "Failed to save configuration:") err ;;
          shown <- lift (exn_to_string err) ;;
          set (setStatusMsg
                 (Some {| type := error;
                          text := str "Failed to save configuration: " ++ shown |}))))
    (set (setIsLoading false)).

End WithBackend.

(** *** The bridge behind the panel *)

(** Modelled from the spec: the native bridge's [read_config],
    [write_config], [read_secrets] and [write_secrets] operations, which
    live in the desktop shell and not in these sources.  The two documents
    are kept as text: a write replaces a document, a read returns the text
    last written.  [broken] makes an operation reject; [refusal] is what a
    malformed or unknown call is rejected with. *)
Record Store := {
  config_file : jsstring;
  secrets_file : jsstring;
  broken : jsstring -> option exn;
  refusal : exn
}.

Definition bridge : Backend Store := {|
  on_invoke := fun w cmd args =>
    match broken w cmd with
    | Some e => (w, inl e)
    | None =>
        if jsstring_eqb cmd (str "read_config")
        then (w, inr (VStr (config_file w)))
        else if jsstring_eqb cmd (str "read_secrets")
        then (w, inr (VStr (secrets_file w)))
        else if jsstring_eqb cmd (str "write_config")
        then
          match opt_get args (str "content") with
          | VStr text =>
              ({| config_file := text; secrets_file := secrets_file w;
                  broken := broken w; refusal := refusal w |}, inr VNull)
          | _ => (w, inl (refusal w))
          end
        else if jsstring_eqb cmd (str "write_secrets")
        then
          match opt_get args (str "content") with
          | VStr text =>
              ({| config_file := config_file w; secrets_file := text;
                  broken := broken w; refusal := refusal w |}, inr VNull)
          | _ => (w, inl (refusal w))
          end
        else (w, inl (refusal w))
    end;
  on_fetch := fun w _ _ => (w, inl (refusal w))
|}.

(** *** The recognised fields *)

(** The nine form controls, the document each is saved to and the place
    in that document [handleSave] writes it at. *)
Inductive field :=
| OpenaiKey | OpenaiBaseUrl | AnthropicKey | BraveKey | BochaKey
| SearchServer | DocSegEnabled | DocSegThreshold | DefaultModel.

Inductive document := ConfigDoc | SecretsDoc.

Definition all_fields : list field :=
  [OpenaiKey; OpenaiBaseUrl; AnthropicKey; BraveKey; BochaKey;
   SearchServer; DocSegEnabled; DocSegThreshold; DefaultModel].

Definition home (f : field) : document :=
  match f with
  | OpenaiKey | OpenaiBaseUrl | AnthropicKey => SecretsDoc
  | _ => ConfigDoc
  end.

Definition field_path (f : field) : path :=
  match f with
  | OpenaiKey => [str "openai"; str "api_key"]
  | OpenaiBaseUrl => [str "openai"; str "base_url"]
  | AnthropicKey => [str "anthropic"; str "api_key"]
  | BraveKey => [str "mcp"; str "servers"; str "brave"; str "env"; str "BRAVE_API_KEY"]
  | BochaKey =>
      [str "mcp"; str "servers"; str "bocha-mcp"; str "env"; str "BOCHA_API_KEY"]
  | SearchServer => [str "default_search_server"]
  | DocSegEnabled => [str "document_segmentation"; str "enabled"]
  | DocSegThreshold => [str "document_segmentation"; str "size_threshold_chars"]
  | DefaultModel => [str "openai"; str "default_model"]
  end.

Definition document_eqb (a b : document) : bool :=
  match a, b with
  | ConfigDoc, ConfigDoc | SecretsDoc, SecretsDoc => true
  | _, _ => false
  end.

Definition recognized (d : document) : list path :=
  map field_path (filter (fun f => document_eqb (home f) d) all_fields).

(** The [onChange] handler of a field's control. *)
Definition edit (f : field) (x : value) : State -> State :=
  match f with
  | OpenaiKey => setOpenaiKey x
  | OpenaiBaseUrl => setOpenaiBaseUrl x
  | AnthropicKey => setAnthropicKey x
  | BraveKey => setBraveKey x
  | BochaKey => setBochaKey x
  | SearchServer => setSearchServer x
  | DocSegEnabled => setDocSegEnabled x
  | DocSegThreshold => setDocSegThreshold x
  | DefaultModel => setDefaultModel x
  end.

(** What a control can hand to its handler: [e.target.value] of a text
    box or select, [e.target.checked] of the toggle,
    [Number(e.target.value)] of the threshold box. *)
Definition entered (f : field) (x : value) : bool :=
  match f, x with
  | DocSegEnabled, VBool _ => true
  | DocSegEnabled, _ => false
  | DocSegThreshold, VNum _ => true
  | DocSegThreshold, _ => false
  | _, VStr _ => true
  | _, _ => false
  end.

Definition pick (d : document) (cfg sec : value) : value :=
  match d with
  | ConfigDoc => cfg
  | SecretsDoc => sec
  end.

(** [p] lies neither on, nor under, nor above [g]. *)
Definition apart (p g : path) : bool :=
  negb (is_prefix p g) && negb (is_prefix g p).

(** *** Documents the form keeps *)

(** A recognised field survives the trip through the form when it is
    absent or holds a value that the form's defaulting ([x || fallback])
    hands back unchanged: a truthy value, or the fallback itself.  The
    threshold also goes through [Number], which only a number survives. *)
Definition kept_text (x : option value) : bool :=
  match x with
  | None => true
  | Some v => truthy v
  end.

Definition kept_key (x : option value) : bool :=
  match x with
  | None | Some (VStr []) => true
  | Some v => truthy v
  end.

Definition kept_toggle (x : option value) : bool :=
  match x with
  | None | Some (VBool false) => true
  | Some v => truthy v
  end.

Definition kept_number (x : option value) : bool :=
  match x with
  | None => true
  | Some (VNum n) => num_truthy n
  | _ => false
  end.

(** A recognised section is absent or a mapping whose fields are kept. *)
Definition kept_section (x : option value) (inner : list (jsstring * value) -> bool)
  : bool :=
  match x with
  | None => true
  | Some (VObj fs) => inner fs
  | _ => false
  end.

Definition server_of (cfg : value) (name : jsstring) : value :=
  opt_get (opt_get (opt_get cfg (str "mcp")) (str "servers")) name.

(** A server block is missing (or falsy), or a mapping whose [env] is
    absent or a mapping with the key kept. *)
Definition kept_server (cfg : value) (name key : jsstring) : bool :=
  match server_of cfg name with
  | VObj fs => kept_section (assoc (str "env") fs) (fun env => kept_key (assoc key env))
  | v => negb (truthy v)
  end.

Definition config_kept (cfg : value) : bool :=
  match cfg with
  | VObj top =>
      kept_text (assoc (str "default_search_server") top)
      && kept_section (assoc (str "document_segmentation") top)
           (fun fs => kept_toggle (assoc (str "enabled") fs)
                      && kept_number (assoc (str "size_threshold_chars") fs))
      && kept_section (assoc (str "openai") top)
           (fun fs => kept_text (assoc (str "default_model") fs))
      && kept_server cfg (str "brave") (str "BRAVE_API_KEY")
      && kept_server cfg (str "bocha-mcp") (str "BOCHA_API_KEY")
  | _ => false
  end.

Definition secrets_kept (sec : value) : bool :=
  match sec with
  | VObj top =>
      kept_section (assoc (str "openai") top)
        (fun fs => kept_key (assoc (str "api_key") fs)
                   && kept_key (assoc (str "base_url") fs))
      && kept_section (assoc (str "anthropic") top)
           (fun fs => kept_key (assoc (str "api_key") fs))
  | _ => false
  end.

(** [handleSave] writes a search key only into a server block that
    exists; every other field always has a place. *)
Definition has_place (f : field) (cfg : value) : bool :=
  match f with
  | BraveKey => match server_of cfg (str "brave") with VObj _ => true | _ => false end
  | BochaKey => match server_of cfg (str "bocha-mcp") with VObj _ => true | _ => false end
  | _ => true
  end.

(** What [handleSave] writes for a field: the form cell, passed through
    [Number] for the threshold (when [Number] throws, the handler does not
    get to write it). *)
Definition stored {RT : Runtime} (f : field) (s : State) : value :=
  match f with
  | OpenaiKey => openaiKey s
  | OpenaiBaseUrl => openaiBaseUrl s
  | AnthropicKey => anthropicKey s
  | BraveKey => braveKey s
  | BochaKey => bochaKey s
  | SearchServer => searchServer s
  | DocSegEnabled => docSegEnabled s
  | DocSegThreshold =>
      match ToNumber (docSegThreshold s) with
      | inr n => VNum n
      | inl _ => VUndef
      end
  | DefaultModel => defaultModel s
  end.

Definition is_object (v : value) : bool :=
  match v with
  | VObj _ => true
  | _ => false
  end.

(** [d'] is the mapping [d] with the places [targets] written and
    everything apart from them as it was. *)
Definition writes (targets : list (path * value)) (d d' : value) : Prop :=
  is_object d' = true /\
  (forall g x, In (g, x) targets -> lookup g d' = Some x) /\
  (forall p, (forall g x, In (g, x) targets -> apart p g = true) ->
             lookup p d' = lookup p d).

(** The panel after a load that went through, for the parsed documents
    [cfg] and [sec]. *)
Definition populated (cfg sec : value) (s : State) : State :=
  let brave := server_key cfg (str "brave") (str "BRAVE_API_KEY") in
  let bocha := server_key cfg (str "bocha-mcp") (str "BOCHA_API_KEY") in
  {| activeTab := activeTab s;
     isLoading := false;
     statusMsg := None;
     config := cfg;
     secrets := sec;
     openaiKey := js_or (opt_get (opt_get sec (str "openai")) (str "api_key")) (VStr []);
     openaiBaseUrl :=
       js_or (opt_get (opt_get sec (str "openai")) (str "base_url")) (VStr []);
     anthropicKey :=
       js_or (opt_get (opt_get sec (str "anthropic")) (str "api_key")) (VStr []);
     braveKey := if truthy brave then brave else braveKey s;
     bochaKey := if truthy bocha then bocha else bochaKey s;
     searchServer :=
       js_or (opt_get cfg (str "default_search_server")) (VStr (str "brave"));
     docSegEnabled :=
       js_or (opt_get (opt_get cfg (str "document_segmentation")) (str "enabled"))
             (VBool false);
     docSegThreshold :=
       js_or (opt_get (opt_get cfg (str "document_segmentation"))
                      (str "size_threshold_chars"))
             (VNum (Fin 50000));
     defaultModel :=
       js_or (opt_get (opt_get cfg (str "openai")) (str "default_model"))
             (VStr (str "anthropic/claude-3.5-sonnet")) |}.

(** The shape the blocks of [handleSave] need of a recognised section:
    absent, or a mapping. *)
Definition section_shape (sec : jsstring) (d : value) : Prop :=
  lookup [sec] d = None \/ exists fs, lookup [sec] d = Some (VObj fs).

(** The shape the server block needs: no (truthy) server entry, or a
    mapping whose [env] is absent or a mapping. *)
Definition server_shape (name : jsstring) (d : value) : Prop :=
  (exists bfs,
      lookup [str "mcp"; str "servers"; name] d = Some (VObj bfs) /\
      (assoc (str "env") bfs = None \/
       exists efs, assoc (str "env") bfs = Some (VObj efs)))
  \/ truthy (server_of d name) = false.

(** The YAML library gives [d] back when it loads what it dumped for it. *)
Definition yaml_returns {RT : Runtime} (d : value) : Prop :=
  exists text, yaml_dump d = inr text /\ yaml_load text = inr d.

End Settings.

(** ** Settings.tsx: failed loads and the order of a document's keys *)

Module SettingsView.
Import JS Settings.

(** [Object.keys(d)] of a mapping, the order a dump writes them in. *)
Definition keys (d : value) : list jsstring :=
  match d with
  | VObj fs => map fst fs
  | _ => []
  end.

(** [d'] is a mapping that starts with the keys of the mapping [d], in
    their order, and goes on with keys out of [added] only; no key comes
    twice in [d'] unless one does in [d]. *)
Definition extends_keys (added : list jsstring) (d d' : value) : Prop :=
  is_object d = true /\ is_object d' = true /\
  exists extra,
    keys d' = keys d ++ extra /\
    incl extra added /\
    (NoDup (keys d) -> NoDup (keys d')).

(** [null] and [undefined], the two values a property cannot be read
    from. *)
Definition nullish (v : value) : bool :=
  match v with
  | VUndef | VNull => true
  | _ => false
  end.

(** The status a finished handler can leave: none, or an error. *)
Definition no_success (m : option StatusMsg) : Prop :=
  m = None \/ exists text, m = Some {| type := error; text := text |}.

(** The cells of a panel once a save fired from [c] has built its two
    documents [cfg'] and [sec']: both documents cells have been written
    through. *)
Definition written_through (c : State) (cfg' sec' : value) (s : State) : State :=
  setSecrets (seen_through [] sec' (secrets c))
    (setConfig (seen_through [str "default_search_server"] cfg' (config c)) s).

Section WithRuntime.
Context {RT : Runtime}.

(** The panel after a load or a save that failed with [e] from the state
    [s]: the loading flag is cleared and the status message reports [e],
    or is empty when [e] cannot be converted to a string. *)
Definition failed (what : jsstring) (e : exn) (s : State) : State :=
  setIsLoading false
    (setStatusMsg
       (match exn_to_string e with
        | inr shown => Some {| type := error; text := what ++ shown |}
        | inl _ => None
        end) s).

End WithRuntime.

End SettingsView.

(** ** ProcessingHistory.tsx: the history modal *)

Module ProcessingHistory.
Import JS Handler.
Local Open Scope handler_scope.

(** The [useState] cells of [ProcessingHistory]. *)
Record State := {
  history : value;
  isLoading : bool;
  expandedId : value
}.

Definition initialState : State := {|
  history := VArr [];
  isLoading := false;
  expandedId := VNull
|}.

Definition setHistory (x : value) (s : State) : State := {|
  history := x;
  isLoading := isLoading s;
  expandedId := expandedId s
|}.

Definition setIsLoading (x : bool) (s : State) : State := {|
  history := history s;
  isLoading := x;
  expandedId := expandedId s
|}.

Definition setExpandedId (x : value) (s : State) : State := {|
  history := history s;
  isLoading := isLoading s;
  expandedId := x
|}.

Section WithRuntime.
Context {RT : Runtime}.
Local Open Scope result_scope.

(** [h.status === status] *)
Definition has_status (status : jsstring) (h : value) : exn + bool :=
  found <- get_prop h (str "status") ;;
  inr (is_string found status).

(** [history.filter(h => h.status === status).length] *)
Fixpoint count_status (status : jsstring) (entries : list value) : exn + nat :=
  match entries with
  | [] => inr O
  | h :: rest =>
      hit <- has_status status h ;;
      n <- count_status status rest ;;
      inr (if hit then S n else n)
  end.

(** The three figures of the statistics row: total, successful, failed. *)
Definition stats (entries : list value) : exn + (nat * nat * nat) :=
  successful <- count_status (str "success") entries ;;
  failed <- count_status (str "error") entries ;;
  inr (List.length entries, successful, failed).

End WithRuntime.

Section WithBackend.
Context {RT : Runtime} {W : Type}.
Variable B : Backend W.

Definition loadHistory : M W State unit :=
  set (setIsLoading true) ;;
  finally
    (try_catch
       (response <- invoke B (str "get_processing_history") VUndef ;;
        set (setHistory response))
       (fun err => console_error (str "Failed to load processing history:") err))
    (set (setIsLoading false)).

(** [handleClearHistory]; [confirmed] is the user's answer to the
    [confirm] dialog it opens. *)
Definition handleClearHistory (confirmed : bool) : M W State unit :=
  if negb confirmed then ret tt
  else
    try_catch
      (invoke B (str "clear_processing_history") VUndef ;;
       set (setHistory (VArr [])))
      (fun err => console_error (str "Failed to clear history:") err).

End WithBackend.

End ProcessingHistory.

(** ** SystemDiagnostics.tsx: the diagnostics modal *)

Module SystemDiagnostics.
Import JS Handler.
Local Open Scope handler_scope.

(** The [useState] cells of [SystemDiagnostics]. *)
Record State := {
  diagnostics : value;
  isLoading : bool;
  resetMessage : option jsstring
}.

Definition initialState : State := {|
  diagnostics := VNull;
  isLoading := false;
  resetMessage := None
|}.

Definition setDiagnostics (x : value) (s : State) : State := {|
  diagnostics := x;
  isLoading := isLoading s;
  resetMessage := resetMessage s
|}.

Definition setIsLoading (x : bool) (s : State) : State := {|
  diagnostics := diagnostics s;
  isLoading := x;
  resetMessage := resetMessage s
|}.

Definition setResetMessage (x : option jsstring) (s : State) : State := {|
  diagnostics := diagnostics s;
  isLoading := isLoading s;
  resetMessage := x
|}.

(** [s.startsWith(sub)] and [s.includes(sub)] *)
Fixpoint starts_with (sub s : jsstring) : bool :=
  match sub, s with
  | [], _ => true
  | x :: sub', y :: s' => N.eqb x y && starts_with sub' s'
  | _ :: _, [] => false
  end.

Fixpoint includes (s sub : jsstring) : bool :=
  starts_with sub s
  || match s with
     | [] => false
     | _ :: rest => includes rest sub
     end.

(** The class of the banner that shows [resetMessage]. *)
Definition reset_message_class (resetMessage : jsstring) : jsstring :=
  str "reset-message "
  ++ (if includes resetMessage (str "success") then str "success" else str "error").

Definition reset_done : jsstring :=
  str "Application state reset successfully! Reloading...".

Section WithBackend.
Context {RT : Runtime} {W : Type}.
Variable B : Backend W.

Definition loadDiagnostics : M W State unit :=
  set (setIsLoading true) ;;
  finally
    (try_catch
       (response <- invoke B (str "get_system_diagnostics") VUndef ;;
        set (setDiagnostics response))
       (fun err => console_error (str "Failed to load system diagnostics:") err))
    (set (setIsLoading false)).

(** [handleResetState]; [confirmed] is the user's answer to the [confirm]
    dialog it opens.  It returns the delay of the timer it sets for the
    page reload, if it sets one. *)
Definition handleResetState (confirmed : bool) : M W State (option N) :=
  if negb confirmed then ret None
  else
    try_catch
      (invoke B (str "reset_application_state") VUndef ;;
       invoke B (str "reset_application_state") VUndef ;;
       set (setResetMessage (Some reset_done)) ;;
       ret (Some 1500%N))
      (fun err =>
         text <- lift (exn_to_string err) ;;
         set (setResetMessage (Some (str "Failed to reset state: " ++ text))) ;;
         ret None).

End WithBackend.

End SystemDiagnostics.

(** ** Fixtures: a small runtime and backends to run the model on *)

Module Fixtures.
Import JS Handler.

(** A stand-in serialiser: a prefix code over code units, with its
    reader.  It plays js-yaml and JSON in the worked examples. *)
Fixpoint encode (v : value) : jsstring :=
  match v with
  | VUndef => [0%N]
  | VNull => [1%N]
  | VBool false => [2%N]
  | VBool true => [3%N]
  | VNum NaN => [4%N]
  | VNum (Fin q) =>
      [5%N; (if Z.ltb (Qnum q) 0 then 1 else 0)%N; Z.abs_N (Qnum q); Npos (Qden q)]
  | VStr s => 6%N :: N.of_nat (List.length s) :: s
  | VArr items =>
      7%N :: N.of_nat (List.length items) ::
        (fix each (l : list value) : jsstring :=
           match l with
           | [] => []
           | x :: rest => encode x ++ each rest
           end) items
  | VObj fields =>
      8%N :: N.of_nat (List.length fields) ::
        (fix each (l : list (jsstring * value)) : jsstring :=
           match l with
           | [] => []
           | (k, x) :: rest => (N.of_nat (List.length k) :: k) ++ encode x ++ each rest
           end) fields
  end.

Definition take (n : N) (s : jsstring) : option (jsstring * jsstring) :=
  if Nat.leb (N.to_nat n) (List.length s)
  then Some (firstn (N.to_nat n) s, skipn (N.to_nat n) s)
  else None.

Fixpoint decode (fuel : nat) (s : jsstring) : option (value * jsstring) :=
  match fuel with
  | O => None
  | S fuel' =>
      match s with
      | 0%N :: rest => Some (VUndef, rest)
      | 1%N :: rest => Some (VNull, rest)
      | 2%N :: rest => Some (VBool false, rest)
      | 3%N :: rest => Some (VBool true, rest)
      | 4%N :: rest => Some (VNum NaN, rest)
      | 5%N :: sign :: mag :: Npos den :: rest =>
          let z := Z.of_N mag in
          Some (VNum (Fin ((if N.eqb sign 1 then Z.opp z else z) # den)), rest)
      | 6%N :: n :: rest =>
          match take n rest with
          | Some (str', rest') => Some (VStr str', rest')
          | None => None
          end
      | 7%N :: n :: rest =>
          match
            (fix items (k : nat) (s : jsstring) : option (list value * jsstring) :=
               match k with
               | O => Some ([], s)
               | S k' =>
                   match decode fuel' s with
                   | Some (x, s') =>
                       match items k' s' with
                       | Some (xs, s'') => Some (x :: xs, s'')
                       | None => None
                       end
                   | None => None
                   end
               end) (N.to_nat n) rest
          with
          | Some (xs, rest') => Some (VArr xs, rest')
          | None => None
          end
      | 8%N :: n :: rest =>
          match
            (fix fields (k : nat) (s : jsstring)
               : option (list (jsstring * value) * jsstring) :=
               match k with
               | O => Some ([], s)
               | S k' =>
                   match s with
                   | len :: s0 =>
                       match take len s0 with
                       | Some (key, s1) =>
                           match decode fuel' s1 with
                           | Some (x, s2) =>
                               match fields k' s2 with
                               | Some (fs, s3) => Some ((key, x) :: fs, s3)
                               | None => None
                               end
                           | None => None
                           end
                       | None => None
                       end
                   | [] => None
                   end
               end) (N.to_nat n) rest
          with
          | Some (fs, rest') => Some (VObj fs, rest')
          | None => None
          end
      | _ => None
      end
  end.

Definition parse (text : jsstring) : exn + value :=
  match decode (S (List.length text)) text with
  | Some (v, []) => inr v
  | _ => inl (JsError (str "SyntaxError") (str "unreadable document"))
  end.

Definition demoRuntime : Runtime := {|
  Number_toString := fun q => str (NilZero.string_of_int (Z.to_int (Qnum q)));
  StringToNumber := fun _ => NaN;
  JSON_parse := parse;
  JSON_stringify := encode;
  JSON_stringify_indent2 := encode;
  yaml_load := parse;
  yaml_dump := fun v => inr (encode v);
  fault_message := fun _ => str "fault"
|}.

(** A backend that fulfils every bridge call and every request with the
    same successful response. *)
Definition okResponse : value := VObj [(str "status", VStr (str "success"))].

Definition okBackend : Backend unit := {|
  on_invoke := fun w _ _ => (w, inr okResponse);
  on_fetch := fun w _ _ => (w, inr {| ok := true; json := inr okResponse |})
|}.

(** A backend whose every call is rejected. *)
Definition downBackend : Backend unit := {|
  on_invoke := fun w _ _ => (w, inl (Thrown (VStr (str "bridge unavailable"))));
  on_fetch := fun w _ _ => (w, inl (JsError (str "TypeError") (str "Failed to fetch")))
|}.

(** A backend whose every call is rejected with an object that cannot be
    converted to a string: its own [toString] entry is not a function. *)
Definition opaqueRejection : value := VObj [(str "toString", VNull)].

Definition opaqueBackend : Backend unit := {|
  on_invoke := fun w _ _ => (w, inl (Thrown opaqueRejection));
  on_fetch := fun w _ _ => (w, inl (Thrown opaqueRejection))
|}.

(** App states to submit from. *)
Definition chatState : App.State :=
  App.setTextInput (VStr (str "build a todo app")) App.initialState.

Definition paper : App.FileHandle := {|
  App.name := str "paper.pdf";
  App.size := 52431;
  App.type := str "application/pdf";
  App.path := VStr (str "/home/user/paper.pdf")
|}.

Definition fileState : App.State :=
  App.setFileInput (Some paper) (App.setInputType App.File App.initialState).

Definition fileTypeWithText : App.State :=
  App.setTextInput (VStr (str "notes on the paper"))
    (App.setInputType App.File App.initialState).

Definition staleState : App.State :=
  App.setApiResult okResponse (App.setTaskStatus App.Success App.initialState).

(** Wizard states. *)
Definition shortIdea : GuidedAnalysis.State :=
  GuidedAnalysis.setInitialRequirement (str "  a bot  ") GuidedAnalysis.initialState.

Definition editing : GuidedAnalysis.State :=
  GuidedAnalysis.setEditFeedback (str " add login ")
    (GuidedAnalysis.setDetailedRequirements (VStr (str "A web shop."))
       (GuidedAnalysis.setCurrentStep GuidedAnalysis.Editing
          GuidedAnalysis.initialState)).

(** Two configuration documents with keys outside the known schema. *)
Definition demoConfig : value :=
  VObj [ (str "default_search_server", VStr (str "brave"));
         (str "document_segmentation",
            VObj [ (str "enabled", VBool true);
                   (str "size_threshold_chars", VNum (Fin 80000)) ]);
         (str "openai", VObj [ (str "default_model", VStr (str "openai/gpt-4o"));
                               (str "base_max_tokens", VNum (Fin 16384)) ]);
         (str "planning_mode", VStr (str "traditional")) ].

Definition demoSecrets : value :=
  VObj [ (str "openai", VObj [ (str "api_key", VStr (str "sk-old"));
                               (str "base_url", VStr []) ]);
         (str "google", VObj [ (str "api_key", VStr (str "g-key")) ]) ].

Definition storeOf (cfg sec : value) : Settings.Store := {|
  Settings.config_file := encode cfg;
  Settings.secrets_file := encode sec;
  Settings.broken := fun _ => None;
  Settings.refusal := Thrown (VStr (str "invalid args"))
|}.

(** The same config with the segmentation threshold at zero. *)
Definition zeroThresholdConfig : value :=
  VObj [ (str "default_search_server", VStr (str "brave"));
         (str "document_segmentation",
            VObj [ (str "enabled", VBool false);
                   (str "size_threshold_chars", VNum (Fin 0)) ]);
         (str "openai", VObj [ (str "default_model", VStr (str "openai/gpt-4o")) ]);
         (str "planning_mode", VStr (str "traditional")) ].

(** A config whose Brave block carries an empty key, and a panel in which
    a key was typed before the load. *)
Definition emptyBraveKeyConfig : value :=
  VObj [ (str "default_search_server", VStr (str "brave"));
         (str "mcp",
            VObj [ (str "servers",
                      VObj [ (str "brave",
                                VObj [ (str "command", VStr (str "npx"));
                                       (str "env",
                                          VObj [ (str "BRAVE_API_KEY", VStr []) ]) ]) ]) ]) ].

Definition typedBraveKey : Settings.State :=
  Settings.setBraveKey (VStr (str "typed-key")) Settings.initialState.

(** A response that lists two generated files. *)
Definition filesResponse : value :=
  VObj [ (str "status", VStr (str "success"));
         (str "repo_result",
            VObj [ (str "generated_files",
                      VArr [ VStr (str "out/src/main.py"); VStr (str "README.md") ]) ]) ].

(** Load the documents into a fresh panel, set the OpenAI key, save. *)
Definition saveNewKey (cfg sec : value) : Run Settings.Store Settings.State :=
  let loaded :=
    exec (Settings.loadConfiguration (RT := demoRuntime) Settings.bridge)
      (storeOf cfg sec) Settings.initialState in
  let edited := Settings.edit Settings.OpenaiKey (VStr (str "sk-new")) (state loaded) in
  exec (Settings.handleSave (RT := demoRuntime) Settings.bridge edited)
    (world loaded) edited.

(** Load the documents into a fresh panel, set the segmentation threshold
    to zero, save. *)
Definition saveZeroThreshold (cfg sec : value) : Run Settings.Store Settings.State :=
  let loaded :=
    exec (Settings.loadConfiguration (RT := demoRuntime) Settings.bridge)
      (storeOf cfg sec) Settings.initialState in
  let edited :=
    Settings.edit Settings.DocSegThreshold (VNum (Fin 0)) (state loaded) in
  exec (Settings.handleSave (RT := demoRuntime) Settings.bridge edited)
    (world loaded) edited.

End Fixtures.

(** ** More fixtures: replies, event sequences, stores *)

Module MoreFixtures.
Import JS Handler Fixtures.

(** A backend whose requests come back with HTTP status 500 and an error
    reply that carries a traceback. *)
Definition errorReply : list (jsstring * value) :=
  [ (str "status", VStr (str "error"));
    (str "error", VStr (str "model unavailable"));
    (str "traceback", VStr (str "Traceback (most recent call last): ...")) ].

Definition failingBackend : Backend unit := {|
  on_invoke := fun w _ _ => (w, inr (VObj errorReply));
  on_fetch := fun w _ _ => (w, inr {| ok := false; json := inr (VObj errorReply) |})
|}.

(** A backend whose requests come back with HTTP status 422 and a body
    that has no [status] at all. *)
Definition unprocessable : list (jsstring * value) :=
  [ (str "detail", VStr (str "Field required")) ].

Definition strictBackend : Backend unit := {|
  on_invoke := fun w _ _ => (w, inr (VObj unprocessable));
  on_fetch := fun w _ _ => (w, inr {| ok := false; json := inr (VObj unprocessable) |})
|}.

(** Runs a list of events of [App] from its initial state. *)
Fixpoint appAfter (B : Backend unit) (events : list AppView.event) (s : App.State)
  : App.State :=
  match events with
  | [] => s
  | e :: rest =>
      appAfter B rest
        (state (exec (AppView.fire (RT := demoRuntime) B e s) tt s))
  end.

(** Whether each event of a list is enabled when its turn comes. *)
Fixpoint appAllows (B : Backend unit) (events : list AppView.event) (s : App.State)
  : bool :=
  match events with
  | [] => true
  | e :: rest =>
      AppView.enabled e s
      && appAllows B rest
           (state (exec (AppView.fire (RT := demoRuntime) B e s) tt s))
  end.

(** A file is chosen, then the user goes back to chat and opens the
    wizard. *)
Definition wizardOverFile : list AppView.event :=
  [ AppView.SelectInputType App.File;
    AppView.FileSelect paper;
    AppView.SelectInputType App.Chat;
    AppView.InputModeChange App.Guided ].

(** Text is typed and submitted. *)
Definition typedAndSubmitted : list AppView.event :=
  [ AppView.TextChange (str "build a todo app"); AppView.Submit ].

(** Wizard states. *)
Definition longIdea : GuidedAnalysis.State :=
  GuidedAnalysis.setInitialRequirement (str "  a todo app  ")
    GuidedAnalysis.initialState.

Definition someAnswers : list (nat * jsstring) :=
  [ (0%nat, str "a web app"); (2%nat, str "   "); (3%nat, str "Postgres") ].

Definition answering : GuidedAnalysis.State :=
  GuidedAnalysis.setAnswers someAnswers
    (GuidedAnalysis.setCurrentStep GuidedAnalysis.Questions longIdea).

(** A turn of the wizard: an event of the user, or the settling of the
    oldest call in flight. *)
Inductive turn :=
| Does (e : GuidedAnalysisView.event)
| Settles.

(** The wizard between two turns: the world, the cells, the calls in
    flight. *)
Definition wizard : Type :=
  unit * GuidedAnalysis.State * list GuidedAnalysisView.in_flight.

Definition wizardTurn (B : Backend unit) (t : turn) (x : wizard) : wizard :=
  match t, x with
  | Does e, (w, s, pending) =>
      GuidedAnalysisView.take (RT := demoRuntime) B e w s pending
  | Settles, (w, s, (e, outcome) :: rest) =>
      (w, GuidedAnalysisView.settle (RT := demoRuntime) e outcome w s, rest)
  | Settles, (_, _, []) => x
  end.

Definition turnAllowed (t : turn) (x : wizard) : bool :=
  match t, x with
  | Does e, (_, s, _) => GuidedAnalysisView.enabled e s
  | Settles, (_, _, pending) => negb (Nat.eqb (List.length pending) 0)
  end.

(** Runs a list of turns of the wizard. *)
Fixpoint wizardAfter (B : Backend unit) (turns : list turn) (x : wizard) : wizard :=
  match turns with
  | [] => x
  | t :: rest => wizardAfter B rest (wizardTurn B t x)
  end.

Fixpoint wizardAllows (B : Backend unit) (turns : list turn) (x : wizard) : bool :=
  match turns with
  | [] => true
  | t :: rest => turnAllowed t x && wizardAllows B rest (wizardTurn B t x)
  end.

Definition freshWizard : wizard := (tt, GuidedAnalysis.initialState, []).

(** An idea is typed and sent for questions while the bridge is down. *)
Definition ideaSent : list turn :=
  [ Does (GuidedAnalysisView.ChangeRequirement (str "a todo app for teams"));
    Does GuidedAnalysisView.InitialSubmit ].

(** While the call is in flight the user goes on typing; then the call is
    rejected. *)
Definition ideaSentWhileDown : list turn :=
  ideaSent
  ++ [ Does (GuidedAnalysisView.ChangeRequirement (str "a todo app for big teams"));
       Settles ].

(** Processing history entries. *)
Definition entry (status : string) : value :=
  VObj [ (str "id", VStr (str "1")); (str "status", VStr (str status)) ].

Definition someHistory : list value :=
  [ entry "success"; entry "error"; entry "processing"; entry "success" ].

(** A store whose secrets cannot be written. *)
Definition readOnlySecrets (cfg sec : value) : Settings.Store := {|
  Settings.config_file := encode cfg;
  Settings.secrets_file := encode sec;
  Settings.broken := fun cmd =>
    if jsstring_eqb cmd (str "write_secrets")
    then Some (Thrown (VStr (str "permission denied")))
    else None;
  Settings.refusal := Thrown (VStr (str "invalid args"))
|}.

(** The panel after the demo documents are loaded into it. *)
Definition loadedPanel : Settings.State :=
  state (exec (Settings.loadConfiguration (RT := demoRuntime) Settings.bridge)
           (storeOf demoConfig demoSecrets) Settings.initialState).

(** The two documents a save from that panel dumps. *)
Definition panelNewConfig : value :=
  match Settings.updatedConfig (RT := demoRuntime) loadedPanel with
  | inr d => d
  | inl _ => VNull
  end.

Definition panelNewSecrets : value :=
  match Settings.updatedSecrets (RT := demoRuntime) loadedPanel with
  | inr d => d
  | inl _ => VNull
  end.

(** The panel after the segmentation toggle is switched off, and the two
    documents a save from it dumps. *)
Definition toggledPanel : Settings.State :=
  Settings.edit Settings.DocSegEnabled (VBool false) loadedPanel.

Definition toggledNewConfig : value :=
  match Settings.updatedConfig (RT := demoRuntime) toggledPanel with
  | inr d => d
  | inl _ => VNull
  end.

Definition toggledNewSecrets : value :=
  match Settings.updatedSecrets (RT := demoRuntime) toggledPanel with
  | inr d => d
  | inl _ => VNull
  end.

(** A backend that rejects every call with [undefined]. *)
Definition silentBackend : Backend unit := {|
  on_invoke := fun w _ _ => (w, inl (Thrown VUndef));
  on_fetch := fun w _ _ => (w, inl (Thrown VUndef))
|}.

(** A history panel that shows entries. *)
Definition shownHistory : ProcessingHistory.State :=
  ProcessingHistory.setHistory (VArr someHistory) ProcessingHistory.initialState.

End MoreFixtures.

(* ===================================================================== *)
(** * Part II: theorems *)
(* ===================================================================== *)

(** ** Strings *)

Module JSFacts.
Import JS.

Lemma jsstring_eqb_refl (a : jsstring) : jsstring_eqb a a = true.
Proof.
  induction a as [| x a IH]; simpl; [reflexivity |].
  now rewrite N.eqb_refl, IH.
Qed.

Lemma jsstring_eqb_eq (a b : jsstring) : jsstring_eqb a b = true <-> a = b.
Proof.
  split; [| intros ->; apply jsstring_eqb_refl].
  revert b. induction a as [| x a IH]; intros [| y b]; simpl; try discriminate; auto.
  rewrite andb_true_iff, N.eqb_eq. intros [-> H]. f_equal. now apply IH.
Qed.

Lemma jsstring_eqb_neq (a b : jsstring) : a <> b -> jsstring_eqb a b = false.
Proof.
  intro H. destruct (jsstring_eqb a b) eqn:E; [| reflexivity].
  now apply jsstring_eqb_eq in E.
Qed.

Lemma jsstring_eqb_sym (a b : jsstring) : jsstring_eqb a b = jsstring_eqb b a.
Proof.
  destruct (jsstring_eqb a b) eqn:E.
  - apply jsstring_eqb_eq in E. subst. symmetry. apply jsstring_eqb_refl.
  - destruct (jsstring_eqb b a) eqn:E'; [| reflexivity].
    apply jsstring_eqb_eq in E'. subst. now rewrite jsstring_eqb_refl in E.
Qed.

Lemma assoc_put_same (k : jsstring) (v : value) (fs : list (jsstring * value)) :
  assoc k (put k v fs) = Some v.
Proof.
  induction fs as [| [k' v'] fs IH]; simpl.
  - now rewrite jsstring_eqb_refl.
  - destruct (jsstring_eqb k k') eqn:E; simpl; rewrite E; auto.
Qed.

Lemma assoc_put_other (k k' : jsstring) (v : value) (fs : list (jsstring * value)) :
  jsstring_eqb k k' = false -> assoc k (put k' v fs) = assoc k fs.
Proof.
  intro Hne. induction fs as [| [k0 v0] fs IH]; simpl.
  - now rewrite Hne.
  - destruct (jsstring_eqb k' k0) eqn:E; simpl.
    + apply jsstring_eqb_eq in E. subst k0. now rewrite Hne.
    + destruct (jsstring_eqb k k0); auto.
Qed.

Section Conversions.
Context {RT : Runtime}.

(** The only way a conversion to a string fails is the TypeError of an
    object that cannot be made a primitive. *)
Lemma ToString_fault : forall (v : value) (e : exn),
  ToString v = inl e -> exists o, e = raise (NotPrimitive o).
Proof.
  fix IH 1. intros v e.
  destruct v as [| | b | n | s | items | fs]; cbn [ToString]; try discriminate.
  - destruct b; discriminate.
  - induction items as [| x rest IHrest].
    + discriminate.
    + pose proof (IH x) as IHx.
      assert (Hx : forall part,
                 (match x with
                  | VUndef | VNull => inr []
                  | _ => ToString x
                  end) = part ->
                 match part with
                 | inl e' => exists o, e' = raise (NotPrimitive o)
                 | inr _ => True
                 end).
      { intros part <-.
        destruct (ToString x) as [e' |] eqn:E.
        - specialize (IHx _ eq_refl). destruct x; try exact I; exact IHx.
        - destruct x; exact I. }
      specialize (Hx _ eq_refl).
      destruct (match x with VUndef | VNull => inr [] | _ => ToString x end)
        as [e' | part].
      * intro H. injection H as <-. exact Hx.
      * match type of IHrest with
        | (match ?t with _ => _ end = _ -> _) => destruct t as [e' | parts]
        end.
        -- intro H. injection H as <-. apply IHrest. reflexivity.
        -- discriminate.
  - destruct (assoc (str "toString") fs); [| discriminate].
    intro H. injection H as <-. eexists. reflexivity.
Qed.

Lemma ToNumber_fault (v : value) (e : exn) :
  ToNumber v = inl e -> exists o, e = raise (NotPrimitive o).
Proof.
  destruct v as [| | b | n | s | items | fs]; cbn [ToNumber]; try discriminate.
  - destruct b; discriminate.
  - destruct (ToString (VArr items)) eqn:E; [| discriminate].
    intro H. injection H as <-. exact (ToString_fault _ E).
  - destruct (ToString (VObj fs)) eqn:E; [| discriminate].
    intro H. injection H as <-. exact (ToString_fault _ E).
Qed.

(** What the conversion of a caught value throws can itself be printed. *)
Lemma exn_to_string_fault (e thrown : exn) :
  exn_to_string e = inl thrown -> exists text, exn_to_string thrown = inr text.
Proof.
  destruct e as [name message | v]; cbn [exn_to_string]; [discriminate |].
  intro H. destruct (ToString_fault _ H) as [o ->].
  eexists. reflexivity.
Qed.

Lemma exn_to_string_error (name message : jsstring) :
  exists text, exn_to_string (JsError name message) = inr text.
Proof. eexists. reflexivity. Qed.

End Conversions.

End JSFacts.

(** ** Generic facts about handler runs *)

Module HandlerFacts.
Import JS Handler.
Local Open Scope handler_scope.

Section Quiet.
Variables W St : Type.
Variable B : Backend W.

Lemma quiet_ret A (a : A) : quiet (ret a : M W St A).
Proof. intro r. split; reflexivity. Qed.

Lemma quiet_throw A (e : exn) : quiet (throw e : M W St A).
Proof. intro r. split; reflexivity. Qed.

Lemma quiet_lift A (x : exn + A) : quiet (lift x : M W St A).
Proof. intro r. split; reflexivity. Qed.

Lemma quiet_set (f : St -> St) : quiet (set f : M W St unit).
Proof. intro r. split; reflexivity. Qed.

Lemma quiet_bind A C (m : M W St A) (k : A -> M W St C) :
  quiet m -> (forall a, quiet (k a)) -> quiet (bind m k).
Proof.
  intros Hm Hk r. unfold bind.
  destruct (Hm r) as [Hl Hw].
  destruct (m r) as [r' [e | a]]; simpl in *.
  - now split.
  - destruct (Hk a r') as [Hl' Hw']. split; congruence.
Qed.

Lemma quiet_try_catch A (m : M W St A) (h : exn -> M W St A) :
  quiet m -> (forall e, quiet (h e)) -> quiet (try_catch m h).
Proof.
  intros Hm Hh r. unfold try_catch.
  destruct (Hm r) as [Hl Hw].
  destruct (m r) as [r' [e | a]]; simpl in *.
  - destruct (Hh e r') as [Hl' Hw']. split; congruence.
  - now split.
Qed.

Lemma quiet_finally A (m : M W St A) (f : M W St unit) :
  quiet m -> quiet f -> quiet (finally m f).
Proof.
  intros Hm Hf r. unfold finally.
  destruct (Hm r) as [Hl Hw].
  destruct (m r) as [r' res]; simpl in *.
  destruct (Hf r') as [Hl' Hw'].
  destruct (f r') as [r'' [e | u]]; simpl in *; split; congruence.
Qed.

(** What a [try]/[catch] logs is what its body logs up to the last call,
    when neither the rest of the body nor the handler calls out. *)
Lemma try_catch_log A C (m : M W St A) (k : A -> M W St C) (h : exn -> M W St C) r :
  (forall a, quiet (k a)) -> (forall e, quiet (h e)) ->
  log (fst (try_catch (bind m k) h r)) = log (fst (m r)) /\
  world (fst (try_catch (bind m k) h r)) = world (fst (m r)).
Proof.
  intros Hk Hh. unfold try_catch, bind.
  destruct (m r) as [r1 [e | a]]; simpl.
  - apply Hh.
  - destruct (Hk a r1) as [Hl Hw].
    destruct (k a r1) as [r2 [e | c]]; simpl in *.
    + destruct (Hh e r2) as [Hl' Hw']. split; congruence.
    + now split.
Qed.

End Quiet.

End HandlerFacts.

(** ** App.tsx *)

Module AppFacts.
Import JS Handler App JSFacts HandlerFacts.
Local Open Scope handler_scope.

Section WithBackend.
Context {RT : Runtime} {W : Type}.
Variable B : Backend W.

(** Once the dispatch branch has run, the rest of [handleSubmit] only
    parses and stores. *)
Lemma dispatch_text (c : State) (t : jsstring) (r1 : Run W State) :
  (inputType c <> File \/ fileInput c = None) ->
  trim t <> [] ->
  log (fst (dispatch B c (VStr t) r1)) =
  log r1 ++
  [(Fetch text_endpoint
      {| method := str "POST";
         headers := [(str "Content-Type", str "application/json")];
         body := JSON_stringify
                   (VObj [ (str "input_source", VStr t);
                           (str "input_type", VStr (input_type_name (inputType c)));
                           (str "enable_indexing", VBool (enableIndexing c)) ]) |},
    state r1)].
Proof.
  intros Hsel Ht. unfold dispatch.
  assert (E : jsstring_eqb (trim t) [] = false) by now apply jsstring_eqb_neq.
  destruct (inputType c) eqn:Ety; destruct (fileInput c) eqn:Ef;
    try (destruct Hsel; congruence);
    unfold bind, lift, call_trim, fetch; simpl; rewrite E; simpl;
    destruct (on_fetch B (world r1) _ _) as [w' [e | resp]]; simpl;
    try reflexivity;
    destruct (json resp); reflexivity.
Qed.

Lemma dispatch_file (c : State) (src : value) (f : FileHandle) (r1 : Run W State) :
  inputType c = File -> fileInput c = Some f ->
  log (fst (dispatch B c src r1)) =
  log r1 ++ [(Invoke (str "process_file") (VObj [(str "filePath", path f)]), state r1)].
Proof.
  intros Hty Hf. unfold dispatch. rewrite Hty, Hf.
  unfold bind, invoke.
  destruct (on_invoke B (world r1) _ _) as [w' [e | v]]; reflexivity.
Qed.

Lemma dispatch_empty (c : State) (t : jsstring) (r1 : Run W State) :
  (inputType c <> File \/ fileInput c = None) ->
  trim t = [] ->
  dispatch B c (VStr t) r1 =
  ({| world := world r1;
      state := setTaskStatus Idle (state r1);
      log := log r1 ++ [(Alert (str "Please provide an input."), state r1)] |},
   inr None).
Proof.
  intros Hsel Ht. unfold dispatch.
  destruct (inputType c) eqn:Ety; destruct (fileInput c) eqn:Ef;
    try (destruct Hsel; congruence);
    unfold bind, lift, call_trim, alert, set, record; simpl; rewrite Ht; reflexivity.
Qed.

Lemma store_response_quiet (response : option value) :
  quiet (store_response (W := W) response).
Proof.
  destruct response as [response |]; [| apply quiet_ret].
  apply quiet_bind; [apply quiet_lift | intro data].
  apply quiet_bind; [apply quiet_lift | intro status].
  destruct (is_string status (str "error")).
  - apply quiet_bind; [apply quiet_lift | intro message; apply quiet_throw].
  - apply quiet_bind; [apply quiet_set | intros _; apply quiet_set].
Qed.

Lemma report_failure_quiet (e : exn) : quiet (report_failure (W := W) e).
Proof.
  apply quiet_bind; [apply quiet_lift | intro message].
  apply quiet_bind; [apply quiet_set | intros _; apply quiet_set].
Qed.

(** The state in which the dispatch branch runs. *)
Lemma handleSubmit_unfold (c : State) (requirements : value) (w : W) (s : State) :
  handleSubmit B c requirements (start w s) =
  try_catch
    (bind (dispatch B c (js_or requirements (textInput c))) store_response)
    report_failure
    {| world := w;
       state := setShowGuidedAnalysis false
                  (setApiResult VNull (setTaskStatus Processing s));
       log := [] |}.
Proof. reflexivity. Qed.

Lemma handleSubmit_after_dispatch (c : State) (requirements : value) (w : W) (s : State) :
  let r1 := {| world := w;
               state := setShowGuidedAnalysis false
                          (setApiResult VNull (setTaskStatus Processing s));
               log := [] |} in
  let r := exec (handleSubmit B c requirements) w s in
  let d := fst (dispatch B c (js_or requirements (textInput c)) r1) in
  log r = log d /\ world r = world d.
Proof.
  cbv zeta. unfold exec. rewrite handleSubmit_unfold.
  apply try_catch_log.
  - apply store_response_quiet.
  - apply report_failure_quiet.
Qed.

Lemma handleSubmit_empty (c : State) (requirements : value) (w : W) (t : jsstring) :
  js_or requirements (textInput c) = VStr t ->
  trim t = [] ->
  (inputType c <> File \/ fileInput c = None) ->
  exec (handleSubmit B c requirements) w c =
  {| world := w;
     state := setTaskStatus Idle
                (setShowGuidedAnalysis false
                   (setApiResult VNull (setTaskStatus Processing c)));
     log := [(Alert (str "Please provide an input."),
              setShowGuidedAnalysis false
                (setApiResult VNull (setTaskStatus Processing c)))] |}.
Proof.
  intros Hsrc Ht Hsel. unfold exec. rewrite handleSubmit_unfold, Hsrc.
  unfold try_catch, bind. rewrite dispatch_empty by assumption. reflexivity.
Qed.

(** C1.  A chat or URL submission whose effective text (the guided
    requirements when given, the text box otherwise) is non-empty after
    trimming issues exactly one call, the POST to the text endpoint, whose
    body is the serialised object with exactly the fields [input_source],
    [input_type] and [enable_indexing]; a file submission with a selected
    file issues exactly one call, the bridge's [process_file]. *)
Theorem handleSubmit_dispatches_once (c : State) (requirements : value) (w : W) :
  let r := exec (handleSubmit B c requirements) w c in
  (forall t,
      inputType c = Chat \/ inputType c = Url ->
      js_or requirements (textInput c) = VStr t ->
      trim t <> [] ->
      calls r =
      [Fetch (str "http://localhost:8000/process/text")
         {| method := str "POST";
            headers := [(str "Content-Type", str "application/json")];
            body := JSON_stringify
                      (VObj [ (str "input_source", VStr t);
                              (str "input_type", VStr (input_type_name (inputType c)));
                              (str "enable_indexing", VBool (enableIndexing c)) ]) |}])
  /\
  (forall f,
      inputType c = File ->
      fileInput c = Some f ->
      calls r = [Invoke (str "process_file") (VObj [(str "filePath", path f)])]).
Proof.
  cbv zeta.
  destruct (handleSubmit_after_dispatch c requirements w c) as [Hlog _].
  unfold calls. rewrite Hlog. split.
  - intros t Hty Hsrc Ht. rewrite Hsrc, dispatch_text; trivial.
    left. destruct Hty as [E | E]; rewrite E; discriminate.
  - intros f Hty Hf. now rewrite (dispatch_file c _ _ Hty Hf).
Qed.

(** C8.  With nothing but white space as text and no file selected,
    [handleSubmit] issues neither a request nor a bridge call: its only
    effect on the outside is the alert, and the task status ends idle. *)
Theorem handleSubmit_rejects_empty_input
    (c : State) (requirements : value) (w : W) (t : jsstring) :
  js_or requirements (textInput c) = VStr t ->
  trim t = [] ->
  fileInput c = None ->
  let r := exec (handleSubmit B c requirements) w c in
  calls r = [Alert (str "Please provide an input.")] /\
  filter is_fetch (calls r) = [] /\
  filter is_invoke (calls r) = [] /\
  taskStatus (state r) = Idle /\
  world r = w.
Proof.
  intros Hsrc Ht Hf. cbv zeta.
  rewrite (handleSubmit_empty c requirements w Hsrc Ht) by auto.
  repeat split; reflexivity.
Qed.

(** C9.  With the file input type chosen but no file selected, text left
    in the text box is still submitted: one POST to the text endpoint,
    carrying [input_type: 'file'], and no alert. *)
Theorem handleSubmit_file_type_falls_back_to_text
    (c : State) (requirements : value) (w : W) (t : jsstring) :
  inputType c = File ->
  fileInput c = None ->
  js_or requirements (textInput c) = VStr t ->
  trim t <> [] ->
  let r := exec (handleSubmit B c requirements) w c in
  calls r =
  [Fetch text_endpoint
     {| method := str "POST";
        headers := [(str "Content-Type", str "application/json")];
        body := JSON_stringify
                  (VObj [ (str "input_source", VStr t);
                          (str "input_type", VStr (str "file"));
                          (str "enable_indexing", VBool (enableIndexing c)) ]) |}]
  /\ filter is_alert (calls r) = [].
Proof.
  intros Hty Hf Hsrc Ht. cbv zeta.
  destruct (handleSubmit_after_dispatch c requirements w c) as [Hlog _].
  unfold calls. rewrite Hlog, Hsrc, dispatch_text by auto.
  rewrite Hty. split; reflexivity.
Qed.

(** The call log of a submission holds at most the one dispatch call. *)
Lemma handleSubmit_log_states (c : State) (requirements : value) (w : W) :
  forall call seen,
    In (call, seen) (log (exec (handleSubmit B c requirements) w c)) ->
    seen = setShowGuidedAnalysis false
             (setApiResult VNull (setTaskStatus Processing c)).
Proof.
  intros call seen.
  destruct (handleSubmit_after_dispatch c requirements w c) as [Hlog _].
  rewrite Hlog. clear Hlog. unfold dispatch.
  destruct (inputType c); destruct (fileInput c);
    unfold bind, lift, invoke, fetch, alert, set, record; simpl;
    repeat match goal with
      | |- context [on_invoke B ?a ?b ?x] =>
          destruct (on_invoke B a b x) as [? [? | ?]]; simpl
      | |- context [on_fetch B ?a ?b ?x] =>
          destruct (on_fetch B a b x) as [? [? | ?]]; simpl
      | |- context [call_trim ?x] => destruct (call_trim x); simpl
      | |- context [jsstring_eqb ?a ?b] => destruct (jsstring_eqb a b); simpl
      | |- context [json ?x] => destruct (json x); simpl
      end;
    intros H; repeat (destruct H as [H | H]; [now inversion H |]); contradiction.
Qed.

(** With a file to send, or a string as the effective text, the dispatch
    branch issues exactly one call: the bridge call, the request or the
    alert. *)
Lemma dispatch_calls_once (c : State) (src : value) (r1 : Run W State) :
  (inputType c = File /\ fileInput c <> None) \/ (exists t, src = VStr t) ->
  exists call, log (fst (dispatch B c src r1)) = log r1 ++ [(call, state r1)].
Proof.
  intros H.
  destruct (inputType c) eqn:Ety; destruct (fileInput c) as [f |] eqn:Ef;
    try (rewrite (@dispatch_file c src f r1 Ety Ef); eexists; reflexivity);
    (destruct H as [[Hty Hf] | [t ->]]; [congruence |]);
    (destruct (jsstring_eqb (trim t) []) eqn:Et;
     [ apply jsstring_eqb_eq in Et;
       rewrite (@dispatch_empty c t r1) by (auto; left; congruence);
       eexists; reflexivity
     | rewrite (@dispatch_text c t r1);
       [ eexists; reflexivity
       | auto; left; congruence
       | intro E; rewrite E in Et; discriminate ] ]).
Qed.

(** C10.  Every [handleSubmit] first drops the previous result and marks
    the task as processing, before it validates anything or calls out:
    whatever call it then issues (the bridge call, the request or the
    alert of the validation) is issued in that state, and it does issue
    one whenever it has a file to send or a string to look at.  Nothing of
    the previous result or status reaches the final state.  A submission
    rejected for empty input therefore ends idle with no result left to
    show. *)
Theorem handleSubmit_clears_previous_result
    (c : State) (requirements : value) (w : W) :
  let r := exec (handleSubmit B c requirements) w c in
  (forall call seen,
      In (call, seen) (log r) ->
      taskStatus seen = Processing /\ apiResult seen = VNull)
  /\
  (forall oldStatus oldResult,
      let c' := setApiResult oldResult (setTaskStatus oldStatus c) in
      state (exec (handleSubmit B c' requirements) w c') = state r)
  /\
  (forall t,
      js_or requirements (textInput c) = VStr t ->
      trim t = [] ->
      fileInput c = None ->
      taskStatus (state r) = Idle /\ apiResult (state r) = VNull)
  /\
  ((inputType c = File /\ fileInput c <> None)
   \/ (exists t, js_or requirements (textInput c) = VStr t) ->
   exists call seen,
     log r = [(call, seen)] /\
     taskStatus seen = Processing /\ apiResult seen = VNull /\
     seen = setShowGuidedAnalysis false (setApiResult VNull (setTaskStatus Processing c))).
Proof.
  cbv zeta. split; [| split; [| split]].
  - intros call seen Hin.
    apply handleSubmit_log_states in Hin. subst seen. split; reflexivity.
  - intros oldStatus oldResult. reflexivity.
  - intros t Hsrc Ht Hf.
    rewrite (handleSubmit_empty c requirements w Hsrc Ht) by auto.
    split; reflexivity.
  - intros H.
    destruct (handleSubmit_after_dispatch c requirements w c) as [Hlog _].
    rewrite Hlog.
    match goal with
    | |- context [dispatch B c ?src ?r1] =>
        destruct (@dispatch_calls_once c src r1 H) as [call Hcall]
    end.
    rewrite Hcall. exists call. eexists. split; [reflexivity |].
    repeat split.
Qed.

(** C4.  A progress value [p] between 0 and 100 is shown as stage
    [floor (p / 12.5)]: the one index [k] in 0..8 whose band
    [12.5 k <= p < 12.5 (k + 1)] holds [p].  In particular 0, 12, 50, 87
    and 100 are shown as stages 0, 0, 4, 6 and 8. *)
(** A quotient that is not negative has the floor of its rounding. *)
Lemma underflow_bound_small : (underflow_bound < 1)%Q.
Proof.
  unfold underflow_bound, Qlt. cbn [Qnum Qden]. rewrite Z.mul_1_l, Z.mul_1_l.
  rewrite Pos2Z.inj_pow. apply Z.pow_gt_1; lia.
Qed.

Lemma Math_floor_divide (q d : Q) :
  (0 <= q / d)%Q ->
  Math_floor (divide (Fin q) d) = Fin (inject_Z (Qfloor (q / d))).
Proof.
  intro Hpos. unfold divide.
  destruct (Qle_bool (Qabs (q / d)) underflow_bound) eqn:E; [| reflexivity].
  apply Qle_bool_iff in E. rewrite Qabs_pos in E by exact Hpos.
  cbn [Math_floor]. do 2 f_equal.
  assert (Hlt : (q / d < 1)%Q)
    by (eapply Qle_lt_trans; [exact E | apply underflow_bound_small]).
  assert (H0 : (Qfloor 0 <= Qfloor (q / d))%Z) by (now apply Qfloor_resp_le).
  assert (H1 : (Qfloor (q / d) < 1)%Z).
  { destruct (Z_lt_le_dec (Qfloor (q / d)) 1) as [L | L]; [exact L |].
    exfalso. apply (Qlt_irrefl 1). eapply Qle_lt_trans; [| exact Hlt].
    eapply Qle_trans; [| apply Qfloor_le].
    change 1%Q with (inject_Z 1). rewrite <- Zle_Qle. exact L. }
  change (Qfloor 0) with 0%Z in H0. change (Qfloor 0) with 0%Z. lia.
Qed.

(** C4.  A progress value [p] between 0 and 100 is shown as stage
    [floor (p / 12.5)]: the one index [k] in 0..8 whose band
    [12.5 k <= p < 12.5 (k + 1)] holds [p].  In particular 0, 12, 50, 87
    and 100 are shown as stages 0, 0, 4, 6 and 8. *)
Theorem currentStep_is_floor_of_band (s : State) (p : Q) :
  (0 <= p)%Q -> (p <= 100)%Q ->
  progress s = VNum (Fin p) ->
  (exists k : Z,
      currentStep s = inr (Fin (inject_Z k)) /\
      k = Qfloor (p / (25 # 2)) /\
      (0 <= k <= 8)%Z /\
      ((25 # 2) * inject_Z k <= p)%Q /\
      (p < (25 # 2) * inject_Z (k + 1))%Q)
  /\ currentStep (setProgress (VNum (Fin 0)) s) = inr (Fin (inject_Z 0))
  /\ currentStep (setProgress (VNum (Fin 12)) s) = inr (Fin (inject_Z 0))
  /\ currentStep (setProgress (VNum (Fin 50)) s) = inr (Fin (inject_Z 4))
  /\ currentStep (setProgress (VNum (Fin 87)) s) = inr (Fin (inject_Z 6))
  /\ currentStep (setProgress (VNum (Fin 100)) s) = inr (Fin (inject_Z 8)).
Proof.
  intros Hlo Hhi Hp.
  assert (Hpos : (0 < 25 # 2)%Q) by reflexivity.
  assert (Hne : ~ ((25 # 2) == 0)%Q) by discriminate.
  assert (Hat : forall q, (0 <= q)%Q ->
            currentStep (setProgress (VNum (Fin q)) s)
            = inr (Fin (inject_Z (Qfloor (q / (25 # 2)))))).
  { intros q Hq. unfold currentStep. cbn [progress setProgress ToNumber].
    f_equal. apply Math_floor_divide.
    apply Qle_shift_div_l; [exact Hpos |]. now rewrite Qmult_0_l. }
  split; [| repeat split; (rewrite Hat; [reflexivity | discriminate])].
  exists (Qfloor (p / (25 # 2))).
  assert (Hback : ((25 # 2) * (p / (25 # 2)) == p)%Q) by (now apply Qmult_div_r).
  repeat split.
  - unfold currentStep. rewrite Hp. cbn [ToNumber]. f_equal.
    apply Math_floor_divide.
    apply Qle_shift_div_l; [exact Hpos |]. now rewrite Qmult_0_l.
  - change 0%Z with (Qfloor 0). apply Qfloor_resp_le.
    apply Qle_shift_div_l; [exact Hpos |]. now rewrite Qmult_0_l.
  - change 8%Z with (Qfloor 8). apply Qfloor_resp_le.
    apply Qle_shift_div_r; [exact Hpos |].
    assert (E : (8 * (25 # 2) == 100)%Q) by reflexivity.
    now rewrite E.
  - rewrite <- Hback at 2. apply Qmult_le_l; [exact Hpos |]. apply Qfloor_le.
  - rewrite <- Hback at 1. apply Qmult_lt_l; [exact Hpos |]. apply Qlt_floor.
Qed.

End WithBackend.

End AppFacts.

(** ** GuidedAnalysis.tsx *)

Module GuidedAnalysisFacts.
Import JS Handler GuidedAnalysis JSFacts HandlerFacts.
Local Open Scope handler_scope.

Section WithBackend.
Context {RT : Runtime} {W : Type}.
Variable B : Backend W.

(** C2.  With fewer than ten characters left after trimming,
    [handleInitialSubmit] only sets the inline error: the step stays where
    it was (at [Input] when fired from there), [generate_questions] is not
    invoked, and the text the user entered is kept. *)
Theorem handleInitialSubmit_rejects_short_requirement (c : State) (w : W) :
  (List.length (trim (initialRequirement c)) < 10)%nat ->
  let r := exec (handleInitialSubmit B c) w c in
  currentStep (state r) = currentStep c /\
  (currentStep c = Input -> currentStep (state r) = Input) /\
  calls r = [] /\
  error (state r) =
    Some (str "Please provide at least a brief description (more than 10 characters)") /\
  initialRequirement (state r) = initialRequirement c /\
  state r =
    setError
      (Some (str "Please provide at least a brief description (more than 10 characters)"))
      c /\
  world r = w.
Proof.
  intros Hshort. cbv zeta. unfold exec, handleInitialSubmit.
  apply Nat.ltb_lt in Hshort. rewrite Hshort.
  repeat split; auto.
Qed.

(** C5.  Start over puts every wizard field back to its initial value,
    from whatever state it is fired in: the step is [Input], and the
    requirement, questions, answers, detailed requirements, edit feedback
    and error are cleared.  Only the loading flag is left as it was. *)
Theorem handleStartOver_resets_every_field (s : State) (w : W) :
  let r := exec (handleStartOver (W := W)) w s in
  currentStep (state r) = Input /\
  initialRequirement (state r) = [] /\
  questions (state r) = VArr [] /\
  answers (state r) = [] /\
  detailedRequirements (state r) = VStr [] /\
  editFeedback (state r) = [] /\
  error (state r) = None /\
  state r = setIsLoading (isLoading s) initialState /\
  calls r = [].
Proof. cbv zeta. repeat split; reflexivity. Qed.


End WithBackend.

End GuidedAnalysisFacts.

(** ** ResultsDisplay.tsx *)

Module ResultsDisplayFacts.
Import JS ResultsDisplay.

Section WithRuntime.
Context {RT : Runtime}.

(** C7.  For a response object in which [analysis_result],
    [download_result] and [repo_result] are all absent, every tab renders
    without throwing and shows exactly its placeholder: the three phase
    tabs their ["No ... results available."] line, the Files tab
    ["No files generated."].  The view opens on the Implementation tab. *)
Theorem renderTabContent_shows_placeholders (fields : list (jsstring * value)) :
  assoc (str "status") fields = Some (VStr (str "success")) ->
  assoc (str "analysis_result") fields = None ->
  assoc (str "download_result") fields = None ->
  assoc (str "repo_result") fields = None ->
  let result := VObj fields in
  initialTab = Implementation /\
  renderTabContent Analysis result =
    inr (phase_panel (str "tab-content analysis-content") (str "Analysis Phase")
           [Text (str "No analysis results available.")]) /\
  renderTabContent Download result =
    inr (phase_panel (str "tab-content download-content") (str "Download Phase")
           [Text (str "No download results available.")]) /\
  renderTabContent Implementation result =
    inr (phase_panel (str "tab-content implementation-content")
           (str "Implementation Phase")
           [Text (str "No implementation results available.")]) /\
  renderTabContent Files result =
    inr (Elem (str "div") (str "tab-content files-content") None
           [ Elem (str "h3") [] None [Text (str "Generated Files")];
             Elem (str "div") (str "file-list") None
               [Elem (str "p") [] None [Text (str "No files generated.")]] ]) /\
  (forall tab, exists node,
      renderTabContent tab result = inr node /\
      ResultsDisplay tab result <> inr None /\
      (exists shown, ResultsDisplay tab result = inr (Some shown)) /\
      In (match tab with
          | Analysis => str "No analysis results available."
          | Download => str "No download results available."
          | Implementation => str "No implementation results available."
          | Files => str "No files generated."
          end) (text_content node)).
Proof.
  intros Hstatus Ha Hd Hr. cbv zeta.
  assert (EA : renderTabContent Analysis (VObj fields) =
               inr (phase_panel (str "tab-content analysis-content")
                      (str "Analysis Phase")
                      [Text (str "No analysis results available.")])).
  { unfold renderTabContent, opt_get. rewrite Ha. reflexivity. }
  assert (ED : renderTabContent Download (VObj fields) =
               inr (phase_panel (str "tab-content download-content")
                      (str "Download Phase")
                      [Text (str "No download results available.")])).
  { unfold renderTabContent, opt_get. rewrite Hd. reflexivity. }
  assert (EI : renderTabContent Implementation (VObj fields) =
               inr (phase_panel (str "tab-content implementation-content")
                      (str "Implementation Phase")
                      [Text (str "No implementation results available.")])).
  { unfold renderTabContent, opt_get. rewrite Hr. reflexivity. }
  assert (EF : renderTabContent Files (VObj fields) =
               inr (Elem (str "div") (str "tab-content files-content") None
                      [ Elem (str "h3") [] None [Text (str "Generated Files")];
                        Elem (str "div") (str "file-list") None
                          [Elem (str "p") [] None
                             [Text (str "No files generated.")]] ])).
  { unfold renderTabContent, opt_get. rewrite Hr. reflexivity. }
  repeat split; trivial.
  intros tab. unfold ResultsDisplay. simpl truthy. simpl negb. cbv iota.
  destruct tab;
    [ rewrite EA | rewrite ED | rewrite EI | rewrite EF ];
    (eexists; split; [reflexivity |]; split; [discriminate |];
     split; [eexists; reflexivity |]; simpl; auto 10).
Qed.

End WithRuntime.

End ResultsDisplayFacts.

(** ** Settings.tsx *)

Module SettingsFacts.
Import JS Handler Settings SettingsView JSFacts HandlerFacts.

(** *** Paths *)

Lemma lookup_app (a b : path) (d : value) :
  lookup (a ++ b) d =
  match lookup a d with
  | Some c => lookup b c
  | None => None
  end.
Proof.
  revert d. induction a as [| k a IH]; intro d; simpl; [reflexivity |].
  destruct d; try reflexivity.
  destruct (assoc k fields); [apply IH | reflexivity].
Qed.

Lemma is_prefix_refl_app (a b : path) : is_prefix a (a ++ b) = true.
Proof.
  induction a as [| k a IH]; simpl; [reflexivity |].
  now rewrite jsstring_eqb_refl, IH.
Qed.

Lemma is_prefix_split (a p : path) :
  is_prefix a p = true -> exists q, p = a ++ q.
Proof.
  revert p. induction a as [| k a IH]; intros p H; simpl in *.
  - now exists p.
  - destruct p as [| k' p]; [discriminate |].
    apply andb_true_iff in H. destruct H as [Hk Hp].
    apply jsstring_eqb_eq in Hk. subst k'.
    destruct (IH p Hp) as [q ->]. now exists q.
Qed.

Lemma is_prefix_extend (p a b : path) :
  is_prefix p a = true -> is_prefix p (a ++ b) = true.
Proof.
  revert a. induction p as [| k p IH]; intros a H; simpl in *; [reflexivity |].
  destruct a as [| k' a]; [discriminate |]. simpl.
  apply andb_true_iff in H. destruct H as [Hk Hp].
  now rewrite Hk, (IH a Hp).
Qed.

Lemma apart_cons (k k' : jsstring) (p g : path) :
  apart (k :: p) (k' :: g) = negb (jsstring_eqb k k') || apart p g.
Proof.
  unfold apart. simpl. rewrite (jsstring_eqb_sym k' k).
  destruct (jsstring_eqb k k'); simpl; [reflexivity |].
  reflexivity.
Qed.

Section WithRuntime.
Context {RT : Runtime}.

(** *** One write *)

(** Writing key [k] of the mapping found at [parent] succeeds, puts [x]
    there and leaves every place apart from it alone. *)
Lemma assign_at (parent : path) (k : jsstring) (x : value) :
  forall (d : value) (fs : list (jsstring * value)),
    lookup parent d = Some (VObj fs) ->
    exists d',
      assign (parent ++ [k]) x d = inr d' /\
      is_object d' = true /\
      lookup parent d' = Some (VObj (put k x fs)) /\
      (forall p, apart p (parent ++ [k]) = true -> lookup p d' = lookup p d).
Proof.
  induction parent as [| k0 parent IH]; intros d fs Hd; simpl in Hd.
  - inversion Hd; subst d. simpl. eexists. split; [reflexivity |].
    split; [reflexivity |]. split; [reflexivity |].
    intros [| k2 q] Hp; [discriminate |].
    rewrite apart_cons in Hp. unfold apart in Hp. simpl in Hp.
    rewrite andb_false_r, orb_false_r in Hp.
    apply negb_true_iff in Hp.
    simpl. now rewrite assoc_put_other by exact Hp.
  - destruct d; try discriminate.
    destruct (assoc k0 fields) as [c |] eqn:Ec; [| discriminate].
    destruct (IH c fs Hd) as (c' & Ea & _ & Hl & Hframe).
    simpl. rewrite Ec, Ea. simpl. eexists. split; [reflexivity |].
    split; [reflexivity |].
    split.
    + now rewrite assoc_put_same.
    + intros [| k2 q] Hp; [discriminate |].
      rewrite apart_cons in Hp. simpl.
      destruct (jsstring_eqb k2 k0) eqn:E.
      * apply jsstring_eqb_eq in E. subst k2.
        rewrite assoc_put_same, Ec. simpl in Hp. now apply Hframe.
      * now rewrite assoc_put_other by exact E.
Qed.

Lemma assign_writes (parent : path) (k : jsstring) (x : value)
    (d : value) (fs : list (jsstring * value)) :
  lookup parent d = Some (VObj fs) ->
  exists d',
    assign (parent ++ [k]) x d = inr d' /\
    writes [(parent ++ [k], x)] d d' /\
    lookup parent d' = Some (VObj (put k x fs)).
Proof.
  intro Hd. destruct (assign_at parent k x d Hd) as (d' & Ea & Ho & Hl & Hf).
  exists d'. split; [exact Ea |]. split; [| exact Hl].
  split; [exact Ho |]. split.
  - intros g y [E | []]. inversion E; subst.
    rewrite lookup_app, Hl. simpl. now rewrite assoc_put_same.
  - intros p Hp. apply Hf. apply (Hp _ x). now left.
Qed.

Lemma writes_nil (d : value) : is_object d = true -> writes [] d d.
Proof. intro H. split; [exact H |]. split; [intros g x [] | reflexivity]. Qed.

(** Two rounds of writes at places apart from each other add up. *)
Lemma writes_compose (T1 T2 : list (path * value)) (d d1 d2 : value) :
  writes T1 d d1 -> writes T2 d1 d2 ->
  (forall g1 x1 g2 x2, In (g1, x1) T1 -> In (g2, x2) T2 -> apart g1 g2 = true) ->
  writes (T1 ++ T2) d d2.
Proof.
  intros (_ & H1 & F1) (O2 & H2 & F2) Hap.
  split; [exact O2 |]. split.
  - intros g x Hin. apply in_app_or in Hin. destruct Hin as [Hin | Hin].
    + rewrite F2; [now apply H1 |].
      intros g2 x2 Hin2. now apply (Hap g x g2 x2).
    + now apply H2.
  - intros p Hp. rewrite F2, F1; [reflexivity | |];
      intros g x Hin; apply (Hp g x); apply in_or_app; auto.
Qed.

Lemma opt_get_lookup (d : value) (k : jsstring) :
  opt_get d k = match lookup [k] d with Some v => v | None => VUndef end.
Proof.
  destruct d; simpl; try reflexivity.
  destruct (assoc k fields); reflexivity.
Qed.

Lemma apart_under (g p : path) (k : jsstring) :
  apart p (g ++ [k]) = true ->
  (exists k' q, p = g ++ k' :: q /\ jsstring_eqb k' k = false) \/ apart p g = true.
Proof.
  intro Hp. unfold apart in *.
  apply andb_true_iff in Hp. destruct Hp as [H1 H2].
  apply negb_true_iff in H1, H2.
  destruct (is_prefix g p) eqn:Eg.
  - left. destruct (is_prefix_split _ _ Eg) as [q ->].
    destruct q as [| k' q].
    + rewrite app_nil_r in H1. now rewrite is_prefix_refl_app in H1.
    + exists k', q. split; [reflexivity |].
      destruct (jsstring_eqb k' k) eqn:E; [| reflexivity].
      apply jsstring_eqb_eq in E. subst k'.
      replace (g ++ k :: q) with ((g ++ [k]) ++ q) in H2
        by now rewrite <- app_assoc.
      now rewrite is_prefix_refl_app in H2.
  - right. destruct (is_prefix p g) eqn:Ep; [| reflexivity].
    now rewrite (is_prefix_extend _ _ [k] Ep) in H1.
Qed.

Local Open Scope result_scope.

(** Making sure a top-level section exists. *)
Lemma ensure_section (sec : jsstring) (fresh : list (jsstring * value)) (d : value) :
  is_object d = true ->
  section_shape sec d ->
  exists d1 fs1,
    (if negb (truthy (opt_get d sec)) then assign [sec] (VObj fresh) d else inr d)
    = inr d1 /\
    is_object d1 = true /\
    lookup [sec] d1 = Some (VObj fs1) /\
    (forall p, apart p [sec] = true -> lookup p d1 = lookup p d) /\
    (forall k q, lookup (sec :: k :: q) d1 = lookup (sec :: k :: q) d \/
                 (lookup (sec :: k :: q) d = None /\ fs1 = fresh)).
Proof.
  intros Ho Hs. rewrite opt_get_lookup.
  destruct Hs as [Hs | [fs Hs]]; rewrite Hs; cbv beta iota delta [truthy negb].
  - destruct d as [| | | | | | top]; try discriminate.
    destruct (@assign_writes [] sec (VObj fresh) (VObj top) top eq_refl)
      as (d1 & Ea & (Ho1 & Hh & Hf) & Hl).
    simpl in Ea. exists d1, fresh. split; [exact Ea |]. split; [exact Ho1 |].
    split; [apply (Hh [sec] (VObj fresh)); now left |].
    split.
    + intros p Hp. apply Hf. intros g x [E | []]. now inversion E; subst.
    + intros k q. right. split; [| reflexivity].
      change (sec :: k :: q) with ([sec] ++ k :: q).
      now rewrite lookup_app, Hs.
  - exists d, fs. split; [reflexivity |]. split; [exact Ho |].
    split; [exact Hs |]. split; [reflexivity |]. intros k q. now left.
Qed.

(** A section block with two fields: ensure the section, write both. *)
Lemma section_two_writes (sec k1 k2 : jsstring) (x1 x2 : value)
    (fresh : list (jsstring * value)) (d : value) :
  is_object d = true ->
  section_shape sec d ->
  jsstring_eqb k1 k2 = false ->
  (forall k, jsstring_eqb k k1 = false -> jsstring_eqb k k2 = false ->
             assoc k fresh = None) ->
  exists d',
    (d1 <- (if negb (truthy (opt_get d sec))
            then assign [sec] (VObj fresh) d else inr d) ;;
     d2 <- assign [sec; k1] x1 d1 ;;
     assign [sec; k2] x2 d2) = inr d' /\
    writes [([sec; k1], x1); ([sec; k2], x2)] d d'.
Proof.
  intros Ho Hs Hk Hfresh.
  destruct (ensure_section fresh Ho Hs) as (d1 & fs1 & E1 & Ho1 & Hl1 & Hf1 & Hu1).
  rewrite E1. simpl.
  destruct (@assign_writes [sec] k1 x1 d1 fs1 Hl1) as (d2 & E2 & W2 & Hl2).
  simpl in E2. rewrite E2. simpl.
  destruct (@assign_writes [sec] k2 x2 d2 _ Hl2) as (d3 & E3 & W3 & Hl3).
  simpl in E3. rewrite E3. exists d3. split; [reflexivity |].
  assert (W : writes ([([sec; k1], x1)] ++ [([sec; k2], x2)]) d1 d3).
  { apply (writes_compose W2 W3).
    intros g1 y1 g2 y2 [E | []] [E' | []]. inversion E; inversion E'; subst.
    rewrite !apart_cons. rewrite jsstring_eqb_refl. simpl.
    rewrite Hk. reflexivity. }
  destruct W as (Ho3 & Hh & Hf). split; [exact Ho3 |]. split; [exact Hh |].
  intros p Hp.
  assert (A1 : apart p ([sec] ++ [k1]) = true) by (apply (Hp _ x1); now left).
  assert (A2 : apart p ([sec] ++ [k2]) = true) by (apply (Hp _ x2); right; now left).
  rewrite Hf by exact Hp.
  destruct (apart_under _ _ _ A1) as [(k' & q & -> & Hk1) | Hap].
  - destruct (apart_under _ _ _ A2) as [(k'' & q' & E & Hk2) | Hap2].
    + inversion E; subst k'' q'. simpl app.
      destruct (Hu1 k' q) as [-> | [Hnone ->]]; [reflexivity |].
      rewrite Hnone.
      change (sec :: k' :: q) with ([sec] ++ k' :: q).
      rewrite lookup_app, Hl1. simpl. now rewrite (Hfresh k' Hk1 Hk2).
    + unfold apart in Hap2. simpl in Hap2.
      rewrite jsstring_eqb_refl in Hap2. simpl in Hap2. discriminate.
  - now apply Hf1.
Qed.

(** A section block with one field. *)
Lemma section_one_writes (sec k1 : jsstring) (x1 : value)
    (fresh : list (jsstring * value)) (d : value) :
  is_object d = true ->
  section_shape sec d ->
  (forall k, jsstring_eqb k k1 = false -> assoc k fresh = None) ->
  exists d',
    (d1 <- (if negb (truthy (opt_get d sec))
            then assign [sec] (VObj fresh) d else inr d) ;;
     assign [sec; k1] x1 d1) = inr d' /\
    writes [([sec; k1], x1)] d d'.
Proof.
  intros Ho Hs Hfresh.
  destruct (ensure_section fresh Ho Hs) as (d1 & fs1 & E1 & Ho1 & Hl1 & Hf1 & Hu1).
  rewrite E1. simpl.
  destruct (@assign_writes [sec] k1 x1 d1 fs1 Hl1) as (d2 & E2 & W2 & Hl2).
  simpl in E2. rewrite E2. exists d2. split; [reflexivity |].
  destruct W2 as (Ho2 & Hh & Hf). split; [exact Ho2 |]. split; [exact Hh |].
  intros p Hp.
  assert (A1 : apart p ([sec] ++ [k1]) = true) by (apply (Hp _ x1); now left).
  rewrite Hf by exact Hp.
  destruct (apart_under _ _ _ A1) as [(k' & q & -> & Hk1) | Hap].
  - simpl app.
    destruct (Hu1 k' q) as [-> | [Hnone ->]]; [reflexivity |].
    rewrite Hnone.
    change (sec :: k' :: q) with ([sec] ++ k' :: q).
    rewrite lookup_app, Hl1. simpl. now rewrite (Hfresh k' Hk1).
  - now apply Hf1.
Qed.

Lemma server_of_lookup (d : value) (name : jsstring) :
  server_of d name =
  match lookup [str "mcp"; str "servers"; name] d with
  | Some v => v
  | None => VUndef
  end.
Proof.
  unfold server_of. rewrite !opt_get_lookup.
  change [str "mcp"; str "servers"; name]
    with ([str "mcp"] ++ [str "servers"] ++ [name]).
  rewrite lookup_app.
  destruct (lookup [str "mcp"] d) as [m |]; [| reflexivity].
  rewrite lookup_app.
  destruct (lookup [str "servers"] m) as [sv |]; reflexivity.
Qed.

Lemma update_server_key_writes (name key : jsstring) (x : value) (d : value) :
  is_object d = true ->
  server_shape name d ->
  exists d',
    update_server_key name key x d = inr d' /\
    writes (if is_object (server_of d name)
            then [([str "mcp"; str "servers"; name; str "env"; key], x)]
            else []) d d'.
Proof.
  intros Ho Hs. unfold update_server_key.
  change (opt_get (opt_get (opt_get d (str "mcp")) (str "servers")) name)
    with (server_of d name).
  destruct Hs as [(bfs & Hb & Henv) | Hfalsy].
  - assert (Esv : server_of d name = VObj bfs) by now rewrite server_of_lookup, Hb.
    rewrite Esv. cbv beta iota delta [truthy is_object opt_get].
    destruct Henv as [Henv | [efs Henv]]; rewrite Henv;
      cbv beta iota delta [truthy negb].
    + destruct (@assign_writes [str "mcp"; str "servers"; name] (str "env")
                  (VObj []) d bfs Hb) as (d1 & E1 & W1 & Hl1).
      simpl app in E1. rewrite E1. cbv beta iota delta [and_then].
      assert (Hl1' : lookup [str "mcp"; str "servers"; name; str "env"] d1
                     = Some (VObj [])).
      { change [str "mcp"; str "servers"; name; str "env"]
          with ([str "mcp"; str "servers"; name] ++ [str "env"]).
        rewrite lookup_app, Hl1. simpl. now rewrite assoc_put_same. }
      destruct (@assign_writes [str "mcp"; str "servers"; name; str "env"] key
                  x d1 [] Hl1') as (d2 & E2 & W2 & Hl2).
      simpl app in E2. exists d2. split; [exact E2 |].
      destruct W1 as (_ & _ & Hf1). destruct W2 as (Ho2 & Hh2 & Hf2).
      split; [exact Ho2 |]. split; [exact Hh2 |].
      intros p Hp. rewrite Hf2 by exact Hp.
      assert (A : apart p ([str "mcp"; str "servers"; name; str "env"] ++ [key])
                  = true) by (apply (Hp _ x); now left).
      destruct (apart_under _ _ _ A) as [(k' & q & -> & Hk) | Hap].
      * rewrite !lookup_app, Hl1'.
        change [str "mcp"; str "servers"; name; str "env"]
          with ([str "mcp"; str "servers"; name] ++ [str "env"]).
        rewrite lookup_app, Hb. simpl. now rewrite Henv.
      * apply Hf1. intros g y [E | []]. now inversion E; subst.
    + assert (Hl : lookup [str "mcp"; str "servers"; name; str "env"] d
                   = Some (VObj efs)).
      { change [str "mcp"; str "servers"; name; str "env"]
          with ([str "mcp"; str "servers"; name] ++ [str "env"]).
        rewrite lookup_app, Hb. simpl. now rewrite Henv. }
      cbv beta iota delta [and_then].
      destruct (@assign_writes [str "mcp"; str "servers"; name; str "env"] key
                  x d efs Hl) as (d2 & E2 & W2 & _).
      simpl app in E2. exists d2. split; [exact E2 | exact W2].
  - rewrite Hfalsy. exists d. split; [reflexivity |].
    destruct (server_of d name); try discriminate; now apply writes_nil.
Qed.

(** *** The documents [handleSave] builds *)

Lemma section_shape_moves (sec : jsstring) (d d' : value) :
  lookup [sec] d' = lookup [sec] d -> section_shape sec d -> section_shape sec d'.
Proof. unfold section_shape. intros ->. auto. Qed.

Lemma server_of_moves (name : jsstring) (d d' : value) :
  lookup [str "mcp"; str "servers"; name] d'
  = lookup [str "mcp"; str "servers"; name] d ->
  server_of d' name = server_of d name.
Proof. intro H. now rewrite !server_of_lookup, H. Qed.

Lemma server_shape_moves (name : jsstring) (d d' : value) :
  lookup [str "mcp"; str "servers"; name] d'
  = lookup [str "mcp"; str "servers"; name] d ->
  server_shape name d -> server_shape name d'.
Proof.
  intros H Hs. unfold server_shape.
  rewrite (server_of_moves _ _ _ H), H. exact Hs.
Qed.

Ltac member H :=
  simpl in H; repeat (destruct H as [H | H]);
  try contradiction; inversion H; subst; clear H.

Ltac places_apart :=
  let H1 := fresh "H1" in
  let H2 := fresh "H2" in
  intros ? ? ? ? H1 H2; member H1; member H2; reflexivity.

Ltac untouched W :=
  let Hin := fresh "Hin" in
  apply W; intros ? ? Hin; member Hin; reflexivity.

Lemma updatedConfig_writes (c : State) (cfg : value) (n : jsnum) :
  config c = cfg ->
  ToNumber (docSegThreshold c) = inr n ->
  is_object cfg = true ->
  section_shape (str "document_segmentation") cfg ->
  section_shape (str "openai") cfg ->
  server_shape (str "brave") cfg ->
  server_shape (str "bocha-mcp") cfg ->
  exists cfg',
    updatedConfig c = inr cfg' /\
    writes
      ([(field_path SearchServer, stored SearchServer c);
        (field_path DocSegEnabled, stored DocSegEnabled c);
        (field_path DocSegThreshold, stored DocSegThreshold c);
        (field_path DefaultModel, stored DefaultModel c)]
       ++ (if has_place BraveKey cfg
           then [(field_path BraveKey, stored BraveKey c)] else [])
       ++ (if has_place BochaKey cfg
           then [(field_path BochaKey, stored BochaKey c)] else []))
      cfg cfg'.
Proof.
  intros Hc Hn Ho Hds Hoa Hbr Hbo.
  assert (Est : stored DocSegThreshold c = VNum n)
    by (unfold stored; now rewrite Hn).
  rewrite Est. clear Est.
  unfold updatedConfig. rewrite Hc.
  destruct cfg as [| | | | | | top]; try discriminate. simpl spread.
  destruct (@assign_writes [] (str "default_search_server") (searchServer c)
              (VObj top) top eq_refl) as (d1 & E1 & W1 & _).
  simpl app in E1. rewrite E1. cbv beta iota delta [and_then].
  assert (O1 : is_object d1 = true) by apply W1.
  destruct W1 as (_ & Hh1 & Hf1).
  assert (Hds1 : section_shape (str "document_segmentation") d1).
  { apply (section_shape_moves _ (d := VObj top)); [untouched Hf1 | exact Hds]. }
  unfold write_segmentation. rewrite Hn. cbn [and_then].
  destruct (@section_two_writes (str "document_segmentation")
              (str "enabled") (str "size_threshold_chars")
              (docSegEnabled c) (VNum n)
              [(str "enabled", VBool false);
               (str "size_threshold_chars", VNum (Fin 50000))] d1 O1 Hds1 eq_refl)
    as (d2 & E2 & W2).
  { intros k Hk1 Hk2. simpl. now rewrite Hk1, Hk2. }
  rewrite E2. cbv beta iota delta [and_then].
  assert (O2 : is_object d2 = true) by apply W2.
  destruct W2 as (_ & Hh2 & Hf2).
  assert (Hoa2 : section_shape (str "openai") d2).
  { apply (section_shape_moves _ (d := d1)); [untouched Hf2 |].
    apply (section_shape_moves _ (d := VObj top)); [untouched Hf1 | exact Hoa]. }
  unfold write_model.
  destruct (@section_one_writes (str "openai") (str "default_model")
              (defaultModel c) [(str "default_model", defaultModel c)] d2 O2 Hoa2)
    as (d3 & E3 & W3).
  { intros k Hk1. simpl. now rewrite Hk1. }
  rewrite E3. cbv beta iota delta [and_then].
  assert (O3 : is_object d3 = true) by apply W3.
  destruct W3 as (_ & Hh3 & Hf3).
  assert (L3 : forall name,
             lookup [str "mcp"; str "servers"; name] d3
             = lookup [str "mcp"; str "servers"; name] (VObj top)).
  { intro name. rewrite Hf3, Hf2, Hf1; [reflexivity | | |];
      intros ? ? Hin; member Hin; reflexivity. }
  destruct (@update_server_key_writes (str "brave") (str "BRAVE_API_KEY")
              (braveKey c) d3 O3) as (d4 & E4 & W4).
  { apply (server_shape_moves _ (d := VObj top)); [apply L3 | exact Hbr]. }
  rewrite E4. cbv beta iota delta [and_then].
  rewrite (server_of_moves _ _ _ (L3 (str "brave"))) in W4.
  assert (O4 : is_object d4 = true) by apply W4.
  assert (L4 : lookup [str "mcp"; str "servers"; str "bocha-mcp"] d4
               = lookup [str "mcp"; str "servers"; str "bocha-mcp"] (VObj top)).
  { rewrite <- L3. destruct W4 as (_ & _ & Hf4). apply Hf4.
    intros g x Hin.
    destruct (is_object (server_of (VObj top) (str "brave")));
      member Hin; reflexivity. }
  destruct (@update_server_key_writes (str "bocha-mcp") (str "BOCHA_API_KEY")
              (bochaKey c) d4 O4) as (d5 & E5 & W5).
  { apply (server_shape_moves _ (d := VObj top)); [exact L4 | exact Hbo]. }
  rewrite (server_of_moves _ _ _ L4) in W5.
  exists d5. split; [exact E5 |].
  change (has_place BraveKey (VObj top))
    with (is_object (server_of (VObj top) (str "brave"))).
  change (has_place BochaKey (VObj top))
    with (is_object (server_of (VObj top) (str "bocha-mcp"))).
  assert (W12 : writes ([(field_path SearchServer, stored SearchServer c)]
                        ++ [(field_path DocSegEnabled, stored DocSegEnabled c);
                            (field_path DocSegThreshold, VNum n)])
                  (VObj top) d2).
  { apply (@writes_compose _ _ _ d1).
    - split; [exact O1 |]. split; [exact Hh1 | exact Hf1].
    - split; [exact O2 |]. split; [exact Hh2 | exact Hf2].
    - places_apart. }
  assert (W123 : writes (([(field_path SearchServer, stored SearchServer c)]
                          ++ [(field_path DocSegEnabled, stored DocSegEnabled c);
                              (field_path DocSegThreshold, VNum n)])
                         ++ [(field_path DefaultModel, stored DefaultModel c)])
                   (VObj top) d3).
  { apply (@writes_compose _ _ _ d2); [exact W12 | | places_apart].
    split; [exact O3 |]. split; [exact Hh3 | exact Hf3]. }
  assert (W45 : writes
                  ((if is_object (server_of (VObj top) (str "brave"))
                    then [(field_path BraveKey, stored BraveKey c)] else [])
                   ++ (if is_object (server_of (VObj top) (str "bocha-mcp"))
                       then [(field_path BochaKey, stored BochaKey c)] else []))
                  d3 d5).
  { apply (@writes_compose _ _ _ d4); [exact W4 | exact W5 |].
    destruct (is_object (server_of (VObj top) (str "brave")));
      destruct (is_object (server_of (VObj top) (str "bocha-mcp")));
      places_apart. }
  apply (@writes_compose _ _ _ d3); [exact W123 | exact W45 |].
  destruct (is_object (server_of (VObj top) (str "brave")));
    destruct (is_object (server_of (VObj top) (str "bocha-mcp")));
    places_apart.
Qed.

Lemma updatedSecrets_writes (c : State) (sec : value) :
  secrets c = sec ->
  is_object sec = true ->
  section_shape (str "openai") sec ->
  section_shape (str "anthropic") sec ->
  exists sec',
    updatedSecrets c = inr sec' /\
    writes [(field_path OpenaiKey, stored OpenaiKey c);
            (field_path OpenaiBaseUrl, stored OpenaiBaseUrl c);
            (field_path AnthropicKey, stored AnthropicKey c)]
      sec sec'.
Proof.
  intros Hc Ho Hoa Han. unfold updatedSecrets. rewrite Hc.
  destruct sec as [| | | | | | top]; try discriminate. simpl spread.
  unfold write_openai_secrets.
  destruct (@section_two_writes (str "openai") (str "api_key") (str "base_url")
              (openaiKey c) (openaiBaseUrl c)
              [(str "api_key", VStr []); (str "base_url", VStr [])]
              (VObj top) eq_refl Hoa eq_refl)
    as (d1 & E1 & W1).
  { intros k Hk1 Hk2. simpl. now rewrite Hk1, Hk2. }
  rewrite E1. cbv beta iota delta [and_then].
  assert (O1 : is_object d1 = true) by apply W1.
  assert (Han1 : section_shape (str "anthropic") d1).
  { destruct W1 as (_ & _ & Hf1).
    apply (section_shape_moves _ (d := VObj top)); [untouched Hf1 | exact Han]. }
  unfold write_anthropic_secrets.
  destruct (@section_one_writes (str "anthropic") (str "api_key")
              (anthropicKey c) [(str "api_key", VStr [])] d1 O1 Han1)
    as (d2 & E2 & W2).
  { intros k Hk1. simpl. now rewrite Hk1. }
  exists d2. split; [exact E2 |].
  apply (@writes_compose
           [(field_path OpenaiKey, stored OpenaiKey c);
            (field_path OpenaiBaseUrl, stored OpenaiBaseUrl c)]
           [(field_path AnthropicKey, stored AnthropicKey c)] _ d1);
    [exact W1 | exact W2 | places_apart].
Qed.

(** *** What a kept document tells *)

Lemma kept_section_shape (sec : jsstring) (top : list (jsstring * value))
    (inner : list (jsstring * value) -> bool) :
  kept_section (assoc sec top) inner = true -> section_shape sec (VObj top).
Proof.
  unfold section_shape. simpl.
  destruct (assoc sec top) as [[| | | | | | fs] |]; simpl; try discriminate.
  - intros _. right. now exists fs.
  - intros _. now left.
Qed.

Lemma kept_server_shape (cfg : value) (name key : jsstring) :
  kept_server cfg name key = true -> server_shape name cfg.
Proof.
  unfold kept_server, server_shape. rewrite server_of_lookup.
  destruct (lookup [str "mcp"; str "servers"; name] cfg)
    as [[| | | | | | bfs] |]; simpl; intro H;
    try (right; now apply negb_true_iff in H); try (now right).
  left. exists bfs. split; [reflexivity |].
  destruct (assoc (str "env") bfs) as [[| | | | | | efs] |];
    simpl in H; try discriminate; [right; now exists efs | now left].
Qed.

Lemma config_kept_shapes (cfg : value) :
  config_kept cfg = true ->
  is_object cfg = true /\
  section_shape (str "document_segmentation") cfg /\
  section_shape (str "openai") cfg /\
  server_shape (str "brave") cfg /\
  server_shape (str "bocha-mcp") cfg.
Proof.
  destruct cfg as [| | | | | | top]; try discriminate.
  unfold config_kept. rewrite !andb_true_iff.
  intros [[[[_ Hds] Hoa] Hbr] Hbo].
  split; [reflexivity |].
  split; [now apply kept_section_shape in Hds |].
  split; [now apply kept_section_shape in Hoa |].
  split; now apply kept_server_shape in Hbr, Hbo.
Qed.

Lemma secrets_kept_shapes (sec : value) :
  secrets_kept sec = true ->
  is_object sec = true /\
  section_shape (str "openai") sec /\
  section_shape (str "anthropic") sec.
Proof.
  destruct sec as [| | | | | | top]; try discriminate.
  unfold secrets_kept. rewrite !andb_true_iff.
  intros [Hoa Han].
  split; [reflexivity |].
  split; [now apply kept_section_shape in Hoa | now apply kept_section_shape in Han].
Qed.

(** *** The two handlers, run against the bridge *)

Lemma bridge_read_config (w : Store) :
  broken w (str "read_config") = None ->
  on_invoke bridge w (str "read_config") VUndef = (w, inr (VStr (config_file w))).
Proof. intro H. cbn [on_invoke bridge]. now rewrite H. Qed.

Lemma bridge_read_secrets (w : Store) :
  broken w (str "read_secrets") = None ->
  on_invoke bridge w (str "read_secrets") VUndef = (w, inr (VStr (secrets_file w))).
Proof. intro H. cbn [on_invoke bridge]. now rewrite H. Qed.

Lemma bridge_write_config (w : Store) (text : jsstring) :
  broken w (str "write_config") = None ->
  on_invoke bridge w (str "write_config") (VObj [(str "content", VStr text)]) =
  ({| config_file := text; secrets_file := secrets_file w;
      broken := broken w; refusal := refusal w |}, inr VNull).
Proof. intro H. cbn [on_invoke bridge]. now rewrite H. Qed.

Lemma bridge_write_secrets (w : Store) (text : jsstring) :
  broken w (str "write_secrets") = None ->
  on_invoke bridge w (str "write_secrets") (VObj [(str "content", VStr text)]) =
  ({| config_file := config_file w; secrets_file := text;
      broken := broken w; refusal := refusal w |}, inr VNull).
Proof. intro H. cbn [on_invoke bridge]. now rewrite H. Qed.

(** *** The two blocks of a save *)

Ltac run_block :=
  repeat match goal with
    | |- context [assign ?p ?v ?d] =>
        destruct (assign p v d) as [? | ?];
        cbn [and_then fst snd world state log]
    | |- context [ToNumber ?x] =>
        destruct (ToNumber x) as [? | ?];
        cbn [and_then fst snd world state log]
    | |- context [truthy ?x] =>
        destruct (truthy x);
        cbn [negb and_then fst snd world state log]
    end.

(** What the statements of "Update Config Object" build is
    [updatedConfig]; they call nothing, and leave the config cell seeing
    the new document through the objects it shares with it. *)
Lemma build_config_runs (W : Type) (c : State) (r : Run W State) :
  snd (build_config c r) = updatedConfig c /\
  world (fst (build_config c r)) = world r /\
  log (fst (build_config c r)) = log r /\
  (forall cfg',
     updatedConfig c = inr cfg' ->
     state (fst (build_config c r))
     = setConfig (seen_through [str "default_search_server"] cfg' (config c))
         (state r)).
Proof.
  destruct r as [w s l].
  unfold build_config, updatedConfig, write_segmentation, write_model,
    write_server_key, update_server_key, writing, bind, lift, set, ret.
  cbn [and_then fst snd world state log].
  run_block;
    (split; [reflexivity |]); (split; [reflexivity |]); (split; [reflexivity |]);
    intros cfg' H; try discriminate H; injection H as <-; reflexivity.
Qed.

Lemma build_secrets_runs (W : Type) (c : State) (r : Run W State) :
  snd (build_secrets c r) = updatedSecrets c /\
  world (fst (build_secrets c r)) = world r /\
  log (fst (build_secrets c r)) = log r /\
  (forall sec',
     updatedSecrets c = inr sec' ->
     state (fst (build_secrets c r))
     = setSecrets (seen_through [] sec' (secrets c)) (state r)).
Proof.
  destruct r as [w s l].
  unfold build_secrets, updatedSecrets, write_openai_secrets, write_anthropic_secrets,
    writing, bind, lift, set, ret.
  cbn [and_then fst snd world state log].
  run_block;
    (split; [reflexivity |]); (split; [reflexivity |]); (split; [reflexivity |]);
    intros sec' H; try discriminate H; injection H as <-; reflexivity.
Qed.

(** A save whose two documents are loaded and can be built, at its first
    call: both cells have been written through, nothing has been called. *)
Lemma handleSave_after_builds (W : Type) (B : Backend W) (c s : State) (w : W)
    (cfg' sec' : value) :
  truthy (config c) = true ->
  truthy (secrets c) = true ->
  updatedConfig c = inr cfg' ->
  updatedSecrets c = inr sec' ->
  handleSave B c (start w s) =
  finally
    (try_catch
       (configText <- lift (yaml_dump cfg') ;;
        invoke B (str "write_config") (VObj [(str "content", VStr configText)]) ;;
        secretsText <- lift (yaml_dump sec') ;;
        invoke B (str "write_secrets") (VObj [(str "content", VStr secretsText)]) ;;
        set (setStatusMsg
               (Some {| type := success;
                        text := str "Configuration saved successfully!" |})) ;;
        loadConfiguration B)%handler
       (fun err =>
          console_error (str "Failed to save configuration:") err ;;
          shown <- lift (exn_to_string err) ;;
          set (setStatusMsg
                 (Some {| type := error;
                          text := str "Failed to save configuration: "
                                  ++ shown |})))%handler)
    (set (setIsLoading false))
    {| world := w;
       state := written_through c cfg' sec' (setStatusMsg None (setIsLoading true s));
       log := [] |}.
Proof.
  intros Htc Hts Huc Hus.
  unfold handleSave. unfold bind at 1. unfold set at 1. unfold start.
  cbn [world state log]. unfold bind at 1. unfold set at 1. cbn [world state log].
  rewrite Htc, Hts. cbn [negb orb].
  unfold finally, try_catch. unfold bind at 1.
  match goal with
  | |- context [build_config c ?r0] =>
      destruct (build_config_runs c r0) as (E1 & E2 & E3 & E4);
      specialize (E4 _ Huc); rewrite Huc in E1;
      destruct (build_config c r0) as [r1 res1]
  end.
  cbn [fst snd] in E1, E2, E3, E4. subst res1. unfold bind at 1.
  match goal with
  | |- context [build_secrets c ?r0] =>
      destruct (build_secrets_runs c r0) as (F1 & F2 & F3 & F4);
      specialize (F4 _ Hus); rewrite Hus in F1;
      destruct (build_secrets c r0) as [r2 res2]
  end.
  cbn [fst snd] in F1, F2, F3, F4. subst res2.
  destruct r1 as [w1 s1 l1]. destruct r2 as [w2 s2 l2].
  cbn [world state log] in *. subst. reflexivity.
Qed.

Lemma loadConfiguration_run (r : Run Store State) (cfg sec : value) :
  (forall cmd, broken (world r) cmd = None) ->
  yaml_load (config_file (world r)) = inr cfg ->
  yaml_load (secrets_file (world r)) = inr sec ->
  is_object cfg = true ->
  is_object sec = true ->
  snd (loadConfiguration bridge r) = inr tt /\
  world (fst (loadConfiguration bridge r)) = world r /\
  state (fst (loadConfiguration bridge r)) = populated cfg sec (state r) /\
  calls (fst (loadConfiguration bridge r)) =
    calls r ++ [Invoke (str "read_config") VUndef; Invoke (str "read_secrets") VUndef].
Proof.
  intros Hb Hc Hs Hoc Hos.
  destruct cfg as [| | | | | | ctop]; try discriminate.
  destruct sec as [| | | | | | stop]; try discriminate.
  destruct r as [w s l]. cbn [world] in Hb, Hc, Hs.
  unfold loadConfiguration, finally, try_catch, bind, invoke, record, lift, set.
  cbn [world state log fst snd].
  rewrite bridge_read_config by apply Hb.
  unfold yaml_load_value. cbn [world state log fst snd ToString and_then]. rewrite Hc.
  rewrite bridge_read_secrets by apply Hb.
  unfold yaml_load_value. cbn [world state log fst snd ToString and_then]. rewrite Hs.
  cbn [world state log fst snd get_prop].
  unfold populated, calls.
  destruct (truthy (server_key (VObj ctop) (str "brave") (str "BRAVE_API_KEY")));
    destruct (truthy (server_key (VObj ctop) (str "bocha-mcp") (str "BOCHA_API_KEY")));
    cbn [world state log fst snd ret];
    (split; [reflexivity |]); (split; [reflexivity |]);
    (split; [reflexivity |]);
    rewrite !map_app, <- app_assoc; reflexivity.
Qed.

Lemma handleSave_run (c s : State) (w : Store) (cfg' sec' : value)
    (configText secretsText : jsstring) :
  (forall cmd, broken w cmd = None) ->
  truthy (config c) = true ->
  truthy (secrets c) = true ->
  updatedConfig c = inr cfg' ->
  updatedSecrets c = inr sec' ->
  yaml_dump cfg' = inr configText ->
  yaml_load configText = inr cfg' ->
  yaml_dump sec' = inr secretsText ->
  yaml_load secretsText = inr sec' ->
  is_object cfg' = true ->
  is_object sec' = true ->
  let r := exec (handleSave bridge c) w s in
  config_file (world r) = configText /\
  secrets_file (world r) = secretsText /\
  broken (world r) = broken w /\
  state r = populated cfg' sec' s /\
  calls r =
    [Invoke (str "write_config") (VObj [(str "content", VStr configText)]);
     Invoke (str "write_secrets") (VObj [(str "content", VStr secretsText)]);
     Invoke (str "read_config") VUndef;
     Invoke (str "read_secrets") VUndef].
Proof.
  intros Hb Htc Hts Huc Hus Hd1 Hl1 Hd2 Hl2 Ho1 Ho2. cbv zeta.
  unfold exec. rewrite (@handleSave_after_builds _ bridge c s w cfg' sec' Htc Hts Huc Hus).
  unfold finally, try_catch, bind, invoke, record, lift, set.
  cbn [world state log fst snd].
  rewrite Hd1.
  rewrite bridge_write_config by apply Hb.
  cbn [world state log fst snd]. rewrite Hd2.
  rewrite bridge_write_secrets by (cbn [broken]; apply Hb).
  cbn [world state log fst snd app].
  match goal with
  | |- context [loadConfiguration bridge ?r] =>
      destruct (@loadConfiguration_run r cfg' sec') as (R1 & R2 & R3 & R4);
        [ cbn [world broken]; apply Hb
        | cbn [world config_file]; exact Hl1
        | cbn [world secrets_file]; exact Hl2
        | exact Ho1 | exact Ho2 | ];
        destruct (loadConfiguration bridge r) as [r' res]
  end.
  cbn [fst snd] in R1, R2, R3, R4. subst res.
  cbn [world state log fst snd].
  unfold calls in *. cbn [log world state].
  rewrite R2, R3, R4. cbn [world state log config_file secrets_file broken].
  repeat split; reflexivity.
Qed.

(** *** Kept values come back from the form *)

Lemma lookup_one (a : jsstring) (top : list (jsstring * value)) (y : value) :
  lookup [a] (VObj top) = Some y -> assoc a top = Some y.
Proof. simpl. now destruct (assoc a top). Qed.

Lemma lookup_two (a b : jsstring) (top : list (jsstring * value)) (y : value) :
  lookup [a; b] (VObj top) = Some y ->
  exists fs, assoc a top = Some (VObj fs) /\ assoc b fs = Some y.
Proof.
  simpl. destruct (assoc a top) as [[| | | | | | fs] |]; try discriminate.
  intro H. exists fs. split; [reflexivity |]. now destruct (assoc b fs).
Qed.

Lemma kept_text_value (y : value) :
  kept_text (Some y) = true -> forall fallback, js_or y fallback = y.
Proof. simpl. intros H fallback. unfold js_or. now rewrite H. Qed.

Lemma kept_key_value (y : value) :
  kept_key (Some y) = true -> js_or y (VStr []) = y.
Proof.
  unfold js_or.
  destruct y as [| | | | [| c s] | |]; simpl; try discriminate;
    try reflexivity; now intros ->.
Qed.

Lemma kept_toggle_value (y : value) :
  kept_toggle (Some y) = true -> js_or y (VBool false) = y.
Proof.
  unfold js_or.
  destruct y as [| | [|] | | [| c s] | |]; simpl; try discriminate;
    try reflexivity; now intros ->.
Qed.

Lemma kept_number_value (y : value) :
  kept_number (Some y) = true ->
  forall fallback,
    exists n, ToNumber (js_or y fallback) = inr n /\ VNum n = y.
Proof.
  destruct y as [| | | n | | |]; try discriminate.
  simpl. intros H fallback. unfold js_or. simpl. rewrite H.
  exists n. split; reflexivity.
Qed.

(** The threshold cell a kept config leaves in the form is a number. *)
Lemma kept_threshold_is_number (cfg sec : value) (s0 : State) :
  config_kept cfg = true ->
  exists n, docSegThreshold (populated cfg sec s0) = VNum n.
Proof.
  intro Hc. destruct cfg as [| | | | | | ctop]; try discriminate.
  unfold config_kept in Hc. repeat rewrite andb_true_iff in Hc.
  destruct Hc as [[[[_ Kds] _] _] _].
  cbn [populated docSegThreshold opt_get].
  destruct (assoc (str "document_segmentation") ctop) as [v |];
    [| eexists; reflexivity].
  destruct v as [| | | | | | fs]; try discriminate Kds.
  cbn [kept_section opt_get] in *. apply andb_true_iff in Kds.
  destruct Kds as [_ Kn].
  destruct (assoc (str "size_threshold_chars") fs) as [y |];
    [| eexists; reflexivity].
  destruct y as [| | | n | | |]; try discriminate Kn.
  cbn [kept_number] in Kn. unfold js_or. cbn [truthy]. rewrite Kn.
  eexists. reflexivity.
Qed.

Lemma edited_threshold_converts (cfg sec : value) (s0 : State) (f : field) (x : value) :
  config_kept cfg = true ->
  entered f x = true ->
  exists n, ToNumber (docSegThreshold (edit f x (populated cfg sec s0))) = inr n.
Proof.
  intros Hc He. destruct (@kept_threshold_is_number cfg sec s0 Hc) as [n Hn].
  destruct f; try (exists n; cbn [edit]; change (ToNumber (docSegThreshold (populated cfg sec s0)) = inr n); rewrite Hn; reflexivity).
  destruct x; try discriminate He. eexists. reflexivity.
Qed.

Lemma kept_server_value (cfg : value) (name key : jsstring) (y : value) :
  kept_server cfg name key = true ->
  lookup [str "mcp"; str "servers"; name; str "env"; key] cfg = Some y ->
  server_key cfg name key = y /\ kept_key (Some y) = true.
Proof.
  intros Hk Hl.
  change [str "mcp"; str "servers"; name; str "env"; key]
    with ([str "mcp"; str "servers"; name] ++ [str "env"; key]) in Hl.
  rewrite lookup_app in Hl.
  change (server_key cfg name key)
    with (opt_get (opt_get (server_of cfg name) (str "env")) key).
  unfold kept_server in Hk. rewrite server_of_lookup in *.
  destruct (lookup [str "mcp"; str "servers"; name] cfg) as [v |];
    [| discriminate].
  destruct v as [| | | | | | bfs]; try discriminate.
  destruct (lookup_two _ _ _ Hl) as (efs & Eenv & Ekey).
  cbn [opt_get]. rewrite Eenv in *. cbn [opt_get kept_section] in *.
  rewrite Ekey in *. split; [reflexivity | exact Hk].
Qed.

(** A search key the form did not take from the document stays what it
    was in the panel; with an empty cell that is the value a kept
    document holds. *)
Lemma kept_key_or_stale (y stale : value) :
  kept_key (Some y) = true -> stale = VStr [] ->
  (if truthy y then y else stale) = y.
Proof.
  intros Hk ->.
  destruct y as [| | | | [| c s] | |]; simpl in *; try discriminate;
    try reflexivity; now rewrite Hk.
Qed.

Lemma kept_value_comes_back (cfg sec : value) (s0 : State) (g : field) (y : value) :
  config_kept cfg = true ->
  secrets_kept sec = true ->
  braveKey s0 = VStr [] ->
  bochaKey s0 = VStr [] ->
  lookup (field_path g) (pick (home g) cfg sec) = Some y ->
  stored g (populated cfg sec s0) = y.
Proof.
  intros Hc Hs Hbr Hbo Hl.
  assert (Hc' := Hc). assert (Hs' := Hs).
  destruct cfg as [| | | | | | ctop]; try discriminate.
  destruct sec as [| | | | | | stop]; try discriminate.
  unfold config_kept in Hc. unfold secrets_kept in Hs.
  repeat rewrite andb_true_iff in Hc. repeat rewrite andb_true_iff in Hs.
  destruct Hc as [[[[Kdss Kds] Koa] Kbr] Kbo]. destruct Hs as [Ksoa Ksan].
  destruct g; cbn [field_path home pick] in Hl;
    cbn [stored populated openaiKey openaiBaseUrl anthropicKey braveKey bochaKey
         searchServer docSegEnabled docSegThreshold defaultModel opt_get].
  - (* OpenaiKey *)
    destruct (lookup_two _ _ _ Hl) as (fs & Ea & Eb).
    rewrite Ea in *. cbn [kept_section opt_get] in *. rewrite Eb in *.
    apply andb_true_iff in Ksoa. now apply kept_key_value.
  - (* OpenaiBaseUrl *)
    destruct (lookup_two _ _ _ Hl) as (fs & Ea & Eb).
    rewrite Ea in *. cbn [kept_section opt_get] in *. rewrite Eb in *.
    apply andb_true_iff in Ksoa. now apply kept_key_value.
  - (* AnthropicKey *)
    destruct (lookup_two _ _ _ Hl) as (fs & Ea & Eb).
    rewrite Ea in *. cbn [kept_section opt_get] in *. rewrite Eb in *.
    now apply kept_key_value.
  - (* BraveKey *)
    destruct (kept_server_value _ _ _ Kbr Hl) as (-> & Hk).
    now apply kept_key_or_stale.
  - (* BochaKey *)
    destruct (kept_server_value _ _ _ Kbo Hl) as (-> & Hk).
    now apply kept_key_or_stale.
  - (* SearchServer *)
    apply lookup_one in Hl. rewrite Hl in *. now apply kept_text_value.
  - (* DocSegEnabled *)
    destruct (lookup_two _ _ _ Hl) as (fs & Ea & Eb).
    rewrite Ea in *. cbn [kept_section opt_get] in *. rewrite Eb in *.
    apply andb_true_iff in Kds. now apply kept_toggle_value.
  - (* DocSegThreshold *)
    destruct (lookup_two _ _ _ Hl) as (fs & Ea & Eb).
    rewrite Ea in *. cbn [kept_section opt_get] in *. rewrite Eb in *.
    apply andb_true_iff in Kds.
    destruct (@kept_number_value y (proj2 Kds) (VNum (Fin 50000))) as (n & En & <-).
    rewrite En. reflexivity.
  - (* DefaultModel *)
    destruct (lookup_two _ _ _ Hl) as (fs & Ea & Eb).
    rewrite Ea in *. cbn [kept_section opt_get] in *. rewrite Eb in *.
    now apply kept_text_value.
Qed.

(** *** Editing one field *)

Lemma edit_keeps_documents (f : field) (x : value) (s : State) :
  config (edit f x s) = config s /\ secrets (edit f x s) = secrets s.
Proof. destruct f; split; reflexivity. Qed.

Lemma stored_edit_same (f : field) (x : value) (s : State) :
  entered f x = true -> stored f (edit f x s) = x.
Proof. destruct f; destruct x; try discriminate; reflexivity. Qed.

Lemma stored_edit_other (f g : field) (x : value) (s : State) :
  g <> f -> stored g (edit f x s) = stored g s.
Proof. destruct f; destruct g; intro H; try reflexivity; now elim H. Qed.

Lemma lookup_has_place (g : field) (cfg y : value) :
  lookup (field_path g) cfg = Some y -> has_place g cfg = true.
Proof.
  destruct g; try reflexivity; cbn [field_path has_place]; intro H;
    rewrite server_of_lookup;
    match type of H with
    | lookup [?a; ?b; ?c; ?d; ?e] _ = _ =>
        change [a; b; c; d; e] with ([a; b; c] ++ [d; e]) in H
    end;
    rewrite lookup_app in H;
    match type of H with
    | context [lookup ?p cfg] => destruct (lookup p cfg) as [[| | | | | | ?] |]
    end; try discriminate; reflexivity.
Qed.

Lemma config_writes_hit (c : State) (cfg cfg' : value) (g : field) :
  writes
    ([(field_path SearchServer, stored SearchServer c);
      (field_path DocSegEnabled, stored DocSegEnabled c);
      (field_path DocSegThreshold, stored DocSegThreshold c);
      (field_path DefaultModel, stored DefaultModel c)]
     ++ (if has_place BraveKey cfg
         then [(field_path BraveKey, stored BraveKey c)] else [])
     ++ (if has_place BochaKey cfg
         then [(field_path BochaKey, stored BochaKey c)] else []))
    cfg cfg' ->
  home g = ConfigDoc ->
  has_place g cfg = true ->
  lookup (field_path g) cfg' = Some (stored g c).
Proof.
  intros (_ & Hh & _) Hhome Hplace. apply Hh.
  destruct g; try discriminate Hhome.
  - apply in_or_app. right. rewrite Hplace. simpl. auto.
  - apply in_or_app. right. apply in_or_app. right. rewrite Hplace. simpl. auto.
  - simpl. auto.
  - simpl. auto.
  - simpl. auto.
  - simpl. auto.
Qed.

Lemma config_writes_frame (c : State) (cfg cfg' : value) (p : path) :
  writes
    ([(field_path SearchServer, stored SearchServer c);
      (field_path DocSegEnabled, stored DocSegEnabled c);
      (field_path DocSegThreshold, stored DocSegThreshold c);
      (field_path DefaultModel, stored DefaultModel c)]
     ++ (if has_place BraveKey cfg
         then [(field_path BraveKey, stored BraveKey c)] else [])
     ++ (if has_place BochaKey cfg
         then [(field_path BochaKey, stored BochaKey c)] else []))
    cfg cfg' ->
  (forall g, home g = ConfigDoc -> apart p (field_path g) = true) ->
  lookup p cfg' = lookup p cfg.
Proof.
  intros (_ & _ & Hf) Hp. apply Hf. intros g y Hin.
  destruct (has_place BraveKey cfg); destruct (has_place BochaKey cfg);
    cbn [In app] in Hin;
    repeat (destruct Hin as [Hin | Hin];
            [change g with (fst (g, y)); rewrite <- Hin; cbn [fst];
             now apply Hp |]);
    contradiction.
Qed.

Lemma secrets_writes_hit (c : State) (sec sec' : value) (g : field) :
  writes [(field_path OpenaiKey, stored OpenaiKey c);
          (field_path OpenaiBaseUrl, stored OpenaiBaseUrl c);
          (field_path AnthropicKey, stored AnthropicKey c)]
    sec sec' ->
  home g = SecretsDoc ->
  lookup (field_path g) sec' = Some (stored g c).
Proof.
  intros (_ & Hh & _) Hhome. apply Hh.
  destruct g; try discriminate Hhome; simpl; auto.
Qed.

Lemma secrets_writes_frame (c : State) (sec sec' : value) (p : path) :
  writes [(field_path OpenaiKey, stored OpenaiKey c);
          (field_path OpenaiBaseUrl, stored OpenaiBaseUrl c);
          (field_path AnthropicKey, stored AnthropicKey c)]
    sec sec' ->
  (forall g, home g = SecretsDoc -> apart p (field_path g) = true) ->
  lookup p sec' = lookup p sec.
Proof.
  intros (_ & _ & Hf) Hp. apply Hf. intros g y Hin.
  cbn [In app] in Hin;
    repeat (destruct Hin as [Hin | Hin];
            [change g with (fst (g, y)); rewrite <- Hin; cbn [fst];
             now apply Hp |]);
    contradiction.
Qed.

(** *** The round trip *)

(** The round trip of documents the form keeps.  Documents are trees
    here: a YAML text that shares one node between two places through an
    anchor parses to objects this statement does not cover.  Take a panel
    whose two search-key cells are empty, as they are when it is mounted, and two documents the form
    keeps ([config_kept], [secrets_kept]): every recognised section is
    absent or a mapping, and every recognised field that is present holds
    a value the form's defaulting hands back (a truthy value or the
    field's own fallback; a non-zero number for the threshold).  Load
    them, change one field [f] to a value [x] its control can produce, and
    save; [f] must have a place to be written to (a search key needs its
    server block).  If the YAML library gives the two written documents
    back on load, then after the save and its reload the panel holds what
    the bridge stores, and holds it still after one more reload; in it
    [f] holds [x], every other recognised field that was present holds
    its old value, and every place apart from the recognised fields,
    unknown keys at any depth included, is exactly as it was. *)
Theorem save_then_reload_keeps_documents
    (w0 : Store) (s0 : State) (cfg sec : value) (f : field) (x : value) :
  (forall cmd, broken w0 cmd = None) ->
  braveKey s0 = VStr [] ->
  bochaKey s0 = VStr [] ->
  yaml_load (config_file w0) = inr cfg ->
  yaml_load (secrets_file w0) = inr sec ->
  config_kept cfg = true ->
  secrets_kept sec = true ->
  has_place f cfg = true ->
  entered f x = true ->
  let loaded := exec (loadConfiguration bridge) w0 s0 in
  let edited := edit f x (state loaded) in
  (forall d, updatedConfig edited = inr d \/ updatedSecrets edited = inr d ->
             yaml_returns d) ->
  let r := exec (handleSave bridge edited) (world loaded) edited in
  let cfg' := config (state r) in
  let sec' := secrets (state r) in
  let again := exec (loadConfiguration bridge) (world r) (state r) in
  yaml_load (config_file (world r)) = inr cfg' /\
  yaml_load (secrets_file (world r)) = inr sec' /\
  (config (state again) = cfg' /\ secrets (state again) = sec') /\
  lookup (field_path f) (pick (home f) cfg' sec') = Some x /\
  (forall g y,
      g <> f ->
      lookup (field_path g) (pick (home g) cfg sec) = Some y ->
      lookup (field_path g) (pick (home g) cfg' sec') = Some y) /\
  (forall p,
      (forall g, home g = ConfigDoc -> apart p (field_path g) = true) ->
      lookup p cfg' = lookup p cfg) /\
  (forall p,
      (forall g, home g = SecretsDoc -> apart p (field_path g) = true) ->
      lookup p sec' = lookup p sec).
Proof.
  intros Hb Hbr0 Hbo0 Hlc Hls Hkc Hks Hplace Hent. cbv zeta.
  destruct (config_kept_shapes _ Hkc) as (Oc & Sds & Soa & Sbr & Sbo).
  destruct (secrets_kept_shapes _ Hks) as (Os & Ssoa & Ssan).
  destruct (@loadConfiguration_run (start w0 s0) cfg sec)
    as (_ & Lw & Lst & _); trivial.
  change (state (exec (loadConfiguration bridge) w0 s0)
          = populated cfg sec s0) in Lst.
  change (world (exec (loadConfiguration bridge) w0 s0) = w0) in Lw.
  rewrite Lw, Lst.
  set (edited := edit f x (populated cfg sec s0)).
  intro Hyaml.
  destruct (edit_keeps_documents f x (populated cfg sec s0)) as [Ec Es].
  destruct (@edited_threshold_converts cfg sec s0 f x Hkc Hent) as [n Hn].
  destruct (@updatedConfig_writes edited cfg n) as (cfg' & Uc & Wc); trivial.
  destruct (@updatedSecrets_writes edited sec) as (sec' & Us & Ws); trivial.
  destruct (Hyaml cfg' (or_introl Uc)) as (t1 & D1 & L1).
  destruct (Hyaml sec' (or_intror Us)) as (t2 & D2 & L2).
  assert (Oc' : is_object cfg' = true) by apply Wc.
  assert (Os' : is_object sec' = true) by apply Ws.
  destruct (@handleSave_run edited edited w0 cfg' sec' t1 t2)
    as (R1 & R2 & Rb & R3 & _); trivial.
  { fold edited in Ec. rewrite Ec. cbn [populated config].
    now destruct cfg. }
  { fold edited in Es. rewrite Es. cbn [populated secrets].
    now destruct sec. }
  cbv zeta in R1, R2, Rb, R3.
  destruct (@loadConfiguration_run
              (start (world (exec (handleSave bridge edited) w0 edited))
                 (state (exec (handleSave bridge edited) w0 edited)))
              cfg' sec') as (_ & _ & Ast & _); cbn [start world state]; trivial.
  { intro cmd. rewrite Rb. apply Hb. }
  { now rewrite R1. }
  { now rewrite R2. }
  change (state (exec (loadConfiguration bridge)
                   (world (exec (handleSave bridge edited) w0 edited))
                   (state (exec (handleSave bridge edited) w0 edited)))
          = populated cfg' sec'
              (state (exec (handleSave bridge edited) w0 edited))) in Ast.
  rewrite Ast. rewrite R1, R2, R3. cbn [populated config secrets].
  split; [exact L1 |]. split; [exact L2 |].
  split; [split; reflexivity |].
  split; [| split; [| split]].
  - destruct (home f) eqn:Hhome; cbn [pick].
    + rewrite (@config_writes_hit edited cfg cfg' f Wc Hhome Hplace).
      f_equal. now apply stored_edit_same.
    + rewrite (@secrets_writes_hit edited sec sec' f Ws Hhome).
      f_equal. now apply stored_edit_same.
  - intros g y Hne Hl.
    assert (Hst : stored g edited = y).
    { unfold edited. rewrite stored_edit_other by exact Hne.
      now apply kept_value_comes_back. }
    destruct (home g) eqn:Hhome; cbn [pick] in *.
    + rewrite (@config_writes_hit edited cfg cfg' g Wc Hhome (lookup_has_place _ _ Hl)).
      now f_equal.
    + rewrite (@secrets_writes_hit edited sec sec' g Ws Hhome). now f_equal.
  - intros p Hp. exact (@config_writes_frame edited cfg cfg' p Wc Hp).
  - intros p Hp. exact (@secrets_writes_frame edited sec sec' p Ws Hp).
Qed.

End WithRuntime.

End SettingsFacts.

(** ** Cells a computation leaves alone *)

Module FrameFacts.
Import JS Handler Frames.
Local Open Scope handler_scope.

Section Keeps.
Variables W St X : Type.
Variable B : Backend W.
Variable cell : St -> X.

Lemma keeps_ret A (a : A) : keeps cell (ret a : M W St A).
Proof. intro r. reflexivity. Qed.

Lemma keeps_throw A (e : exn) : keeps cell (throw e : M W St A).
Proof. intro r. reflexivity. Qed.

Lemma keeps_lift A (x : exn + A) : keeps cell (lift x : M W St A).
Proof. intro r. reflexivity. Qed.

Lemma keeps_set (f : St -> St) :
  (forall s, cell (f s) = cell s) -> keeps cell (set f : M W St unit).
Proof. intros H r. apply H. Qed.

Lemma keeps_invoke (cmd : jsstring) (args : value) : keeps cell (invoke B cmd args).
Proof.
  intro r. unfold invoke.
  destruct (on_invoke B (world r) cmd args) as [w res]. reflexivity.
Qed.

Lemma keeps_fetch (url : jsstring) (init : RequestInit) :
  keeps cell (fetch (St := St) B url init).
Proof.
  intro r. unfold fetch.
  destruct (on_fetch B (world r) url init) as [w res]. reflexivity.
Qed.

Lemma keeps_alert (message : jsstring) : keeps cell (alert message : M W St unit).
Proof. intro r. reflexivity. Qed.

Lemma keeps_console_error (label : jsstring) (e : exn) :
  keeps cell (console_error label e : M W St unit).
Proof. intro r. reflexivity. Qed.

Lemma keeps_callback (prop : jsstring) (arg : value) :
  keeps cell (callback prop arg : M W St unit).
Proof. intro r. reflexivity. Qed.

Lemma keeps_bind A C (m : M W St A) (k : A -> M W St C) :
  keeps cell m -> (forall a, keeps cell (k a)) -> keeps cell (bind m k).
Proof.
  intros Hm Hk r. unfold bind.
  specialize (Hm r). destruct (m r) as [r' [e | a]]; simpl in *.
  - exact Hm.
  - now rewrite Hk.
Qed.

Lemma keeps_try_catch A (m : M W St A) (h : exn -> M W St A) :
  keeps cell m -> (forall e, keeps cell (h e)) -> keeps cell (try_catch m h).
Proof.
  intros Hm Hh r. unfold try_catch.
  specialize (Hm r). destruct (m r) as [r' [e | a]]; simpl in *.
  - now rewrite Hh.
  - exact Hm.
Qed.

Lemma keeps_finally A (m : M W St A) (f : M W St unit) :
  keeps cell m -> keeps cell f -> keeps cell (finally m f).
Proof.
  intros Hm Hf r. unfold finally.
  specialize (Hm r). destruct (m r) as [r' res]; simpl in *.
  specialize (Hf r'). destruct (f r') as [r'' [e | u]]; simpl in *; congruence.
Qed.

Lemma keeps_if A (b : bool) (m1 m2 : M W St A) :
  keeps cell m1 -> keeps cell m2 -> keeps cell (if b then m1 else m2).
Proof. now destruct b. Qed.

End Keeps.

(** Proves [keeps cell m] for a handler built from the monad's
    operations, when every setter in it leaves [cell] alone. *)
Ltac frame :=
  repeat first
    [ apply keeps_bind; [| intro]
    | apply keeps_try_catch; [| intro]
    | apply keeps_finally
    | apply keeps_if
    | apply keeps_ret
    | apply keeps_throw
    | apply keeps_lift
    | apply keeps_invoke
    | apply keeps_fetch
    | apply keeps_alert
    | apply keeps_console_error
    | apply keeps_callback
    | apply keeps_set; intro; reflexivity ].

End FrameFacts.

(** ** App.tsx: how a submission ends, and what is shown *)

Module AppMore.
Import JS Handler App AppView ResultsDisplay ProgressDisplay.
Import JSFacts HandlerFacts Frames FrameFacts AppFacts.
Local Open Scope handler_scope.

Section WithBackend.
Context {RT : Runtime} {W : Type}.
Variable B : Backend W.

(** The [try] block either returns early with the status idle, stores a
    reply whose status is not ['error'], or throws with no cell set. *)
Lemma try_block_outcome (c : State) (src : value) (r1 : Run W State) :
  let out := bind (dispatch B c src) store_response r1 in
  (snd out = inr tt /\ state (fst out) = setTaskStatus Idle (state r1))
  \/ (exists data st,
         snd out = inr tt /\
         state (fst out) = setTaskStatus Success (setApiResult data (state r1)) /\
         get_prop data (str "status") = inr st /\
         is_string st (str "error") = false)
  \/ (exists e, snd out = inl e /\ state (fst out) = state r1).
Proof.
  cbv zeta. unfold bind, dispatch.
  destruct (inputType c); destruct (fileInput c);
    unfold bind, lift, invoke, fetch, alert, set, record, ret; simpl;
    repeat match goal with
      | |- context [on_invoke B ?a ?b ?x] =>
          destruct (on_invoke B a b x) as [? [? | ?]]; simpl
      | |- context [on_fetch B ?a ?b ?x] =>
          destruct (on_fetch B a b x) as [? [? | ?]]; simpl
      | |- context [call_trim ?x] => destruct (call_trim x); simpl
      | |- context [jsstring_eqb ?a ?b] => destruct (jsstring_eqb a b); simpl
      | |- context [json ?x] => destruct (json x); simpl
      end;
    try (right; right; eexists; split; reflexivity);
    try (left; split; reflexivity);
    unfold store_response, bind, lift, throw, set; simpl;
    match goal with
    | |- context [match ?v with VStr text => JSON_parse text | _ => _ end] =>
        destruct (match v with VStr text => JSON_parse text | _ => inr v end)
          as [e | data]; simpl
    end;
    try (right; right; eexists; split; reflexivity);
    destruct (get_prop data (str "status")) as [e | st] eqn:Est; simpl;
    try (right; right; eexists; split; reflexivity);
    destruct (is_string st (str "error")) eqn:Eis; simpl;
    try match goal with
      | |- context [ToString ?x] => destruct (ToString x); simpl
      end;
    try (right; right; eexists; split; reflexivity);
    right; left; exists data, st; repeat split; assumption.
Qed.

Lemma exn_message_fails (e ex : exn) :
  exn_message e = inl ex ->
  exists v, (v = VUndef \/ v = VNull) /\ e = Thrown v
            /\ ex = raise (ReadProp v (str "message")).
Proof.
  destruct e as [name message | v]; simpl; [discriminate |].
  destruct v; simpl; try discriminate; intro H; injection H as <-; eauto.
Qed.

(** The four ways a submission ends. *)
Lemma handleSubmit_outcome (c : State) (requirements : value) (w : W) (s : State) :
  let s1 := setShowGuidedAnalysis false
              (setApiResult VNull (setTaskStatus Processing s)) in
  let out := handleSubmit B c requirements (start w s) in
  (snd out = inr tt /\ state (fst out) = setTaskStatus Idle s1)
  \/ (exists data st,
         snd out = inr tt /\
         state (fst out) = setTaskStatus Success (setApiResult data s1) /\
         get_prop data (str "status") = inr st /\
         is_string st (str "error") = false)
  \/ (exists e message,
         exn_message e = inr message /\
         snd out = inr tt /\
         state (fst out) = setTaskStatus Error (setApiResult (error_result message) s1))
  \/ (exists e ex,
         exn_message e = inl ex /\ snd out = inl ex /\ state (fst out) = s1).
Proof.
  cbv zeta. rewrite handleSubmit_unfold. unfold try_catch.
  set (r1 := {| world := w;
                state := setShowGuidedAnalysis false
                           (setApiResult VNull (setTaskStatus Processing s));
                log := [] |}).
  destruct (try_block_outcome c (js_or requirements (textInput c)) r1)
    as [[Hres Hst] | [(data & st & Hres & Hst & Hget & His) | (e & Hres & Hst)]];
    destruct (bind (dispatch B c (js_or requirements (textInput c))) store_response r1)
      as [r2 res]; simpl in Hres, Hst; subst res.
  - left. simpl. split; [reflexivity | exact Hst].
  - right; left. exists data, st. simpl. repeat split; assumption.
  - unfold report_failure, bind, lift, set.
    destruct (exn_message e) as [ex | message] eqn:Em; simpl.
    + right; right; right. exists e, ex. repeat split; assumption.
    + right; right; left. exists e, message. rewrite Hst. repeat split. exact Em.
Qed.

(** [handleGuidedComplete] is a submission from the state with the text
    box already filled. *)
Lemma handleGuidedComplete_unfold (c : State) (requirements : value) (w : W) (s : State) :
  handleGuidedComplete B c requirements (start w s) =
  handleSubmit B c requirements (start w (setTextInput requirements s)).
Proof. reflexivity. Qed.

(** The text branch of the dispatch, run. *)
Lemma dispatch_text_run (c : State) (t : jsstring) (r1 : Run W State) :
  (inputType c <> File \/ fileInput c = None) ->
  trim t <> [] ->
  dispatch B c (VStr t) r1 =
  bind (fetch B text_endpoint
          {| method := str "POST";
             headers := [(str "Content-Type", str "application/json")];
             body := JSON_stringify
                       (request_payload (VStr t) (inputType c) (enableIndexing c)) |})
       (fun fetchResponse =>
          bind (lift (json fetchResponse)) (fun response => ret (Some response))) r1.
Proof.
  intros Hsel Ht. unfold dispatch.
  assert (E : jsstring_eqb (trim t) [] = false) by now apply jsstring_eqb_neq.
  destruct (inputType c) eqn:Ety; destruct (fileInput c) eqn:Ef;
    try (destruct Hsel; congruence);
    unfold bind at 1; unfold lift at 1; simpl call_trim; cbv iota; rewrite E;
    reflexivity.
Qed.

(** X1.  A submission never leaves the task in the processing state when it
    returns; the one way it does not return is a rejection by [null] or
    [undefined], whose [message] the [catch] block cannot read: the
    TypeError escapes and the task stays processing with no result. *)
Theorem handleSubmit_settles_or_sticks
    (c : State) (requirements : value) (w : W) (s : State) :
  let out := handleSubmit B c requirements (start w s) in
  (snd out = inr tt /\ taskStatus (state (fst out)) <> Processing)
  \/ (exists v,
         (v = VUndef \/ v = VNull) /\
         snd out = inl (raise (ReadProp v (str "message"))) /\
         taskStatus (state (fst out)) = Processing /\
         apiResult (state (fst out)) = VNull).
Proof.
  cbv zeta.
  destruct (handleSubmit_outcome c requirements w s)
    as [[Hres Hst] | [(data & st & Hres & Hst & _) |
        [(e & message & _ & Hres & Hst) | (e & ex & Hm & Hres & Hst)]]].
  - left. split; [exact Hres |]. rewrite Hst. discriminate.
  - left. split; [exact Hres |]. rewrite Hst. discriminate.
  - left. split; [exact Hres |]. rewrite Hst. discriminate.
  - right. destruct (exn_message_fails _ Hm) as (v & Hv & _ & ->).
    exists v. rewrite Hres, Hst. repeat split. exact Hv.
Qed.

(** X2.  On the text route, whatever the HTTP status of the response, a
    reply object is stored as the result of a success unless its [status]
    is exactly ['error']; an error reply is reduced to its [error] text
    (or the stock text when it has none), so nothing else of it, such as a
    traceback, reaches the result.  When the [error] entry cannot be
    converted to a string, the text stored is the message of the
    TypeError the conversion throws. *)
Theorem handleSubmit_stores_reply
    (c : State) (requirements : value) (w w' : W) (t : jsstring)
    (resp : Response) (fields : list (jsstring * value)) :
  (inputType c <> File \/ fileInput c = None) ->
  js_or requirements (textInput c) = VStr t ->
  trim t <> [] ->
  on_fetch B w text_endpoint
    {| method := str "POST";
       headers := [(str "Content-Type", str "application/json")];
       body := JSON_stringify
                 (request_payload (VStr t) (inputType c) (enableIndexing c)) |}
    = (w', inr resp) ->
  json resp = inr (VObj fields) ->
  let r := exec (handleSubmit B c requirements) w c in
  let reply := VObj fields in
  let text_of_error :=
    ToString (js_or (opt_get reply (str "error"))
                    (VStr (str "An unknown error occurred."))) in
  (is_string (opt_get reply (str "status")) (str "error") = false ->
     taskStatus (state r) = Success /\ apiResult (state r) = reply)
  /\
  (is_string (opt_get reply (str "status")) (str "error") = true ->
     taskStatus (state r) = Error /\
     (forall text,
        text_of_error = inr text ->
        apiResult (state r) = error_result (VStr text)) /\
     (forall thrown,
        text_of_error = inl thrown ->
        exists object,
          thrown = raise (NotPrimitive object) /\
          apiResult (state r)
          = error_result (VStr (fault_message (NotPrimitive object)))) /\
     opt_get (apiResult (state r)) (str "traceback") = VUndef).
Proof.
  intros Hsel Hsrc Ht Hfetch Hjson. cbv zeta.
  unfold exec. rewrite handleSubmit_unfold, Hsrc.
  set (r1 := {| world := w;
                state := setShowGuidedAnalysis false
                           (setApiResult VNull (setTaskStatus Processing c));
                log := [] |}).
  assert (E : bind (dispatch B c (VStr t)) store_response r1 =
              store_response (Some (VObj fields))
                {| world := w'; state := state r1;
                   log := log r1 ++
                     [(Fetch text_endpoint
                         {| method := str "POST";
                            headers := [(str "Content-Type", str "application/json")];
                            body := JSON_stringify
                                      (request_payload (VStr t) (inputType c)
                                         (enableIndexing c)) |}, state r1)] |}).
  { unfold bind at 1. rewrite dispatch_text_run by assumption.
    unfold bind, fetch, record. subst r1. cbn [world]. rewrite Hfetch.
    unfold lift. rewrite Hjson. reflexivity. }
  unfold try_catch. rewrite E. clear E.
  unfold store_response, bind, lift, get_prop, throw, set, report_failure.
  cbn [opt_get].
  split; intro His; rewrite His; [cbn; split; reflexivity |].
  destruct (ToString (js_or match assoc (str "error") fields with
                            | Some v => v
                            | None => VUndef
                            end (VStr (str "An unknown error occurred."))))
    as [thrown | text] eqn:Etext.
  - destruct (ToString_fault _ Etext) as [object ->].
    cbn. split; [reflexivity |]. split; [intros x Hx; discriminate Hx |].
    split; [| reflexivity].
    intros x Hx. injection Hx as <-. exists object. split; reflexivity.
  - cbn. split; [reflexivity |]. split.
    + intros x Hx. injection Hx as <-. reflexivity.
    + split; [intros x Hx; discriminate Hx | reflexivity].
Qed.


(** Events other than a submission leave the status and the result
    alone. *)
Lemma fire_keeps_result (e : event) (c : State) :
  (forall requirements, e <> GuidedComplete requirements) -> e <> Submit ->
  keeps taskStatus (fire B e c) /\ keeps apiResult (fire B e c).
Proof.
  intros Hg Hs.
  destruct e; try (now elim Hs); try (now elim (Hg requirements));
    split; unfold fire, handleTextChange, handleFileSelect, handleGuidedCancel,
             handleInputModeChange, onmessage;
    try (destruct mode); frame.
Qed.

Lemma outcome_matches_status (c : State) (requirements : value) (w : W) (s : State) :
  result_matches_status (state (fst (handleSubmit B c requirements (start w s)))).
Proof.
  destruct (handleSubmit_outcome c requirements w s)
    as [[Hres Hst] | [(data & st & Hres & Hst & Hget & His) |
        [(e & message & Hm & Hres & Hst) | (e & ex & Hm & Hres & Hst)]]];
    rewrite Hst; unfold result_matches_status; cbn; eauto.
Qed.

(** X4.  In every state [App] can reach, the result cell agrees with the
    task status: [null] while idle or processing, the two-field error
    object (status and error, no traceback) in the error state, and in the
    success state a reply whose status is not ['error']. *)
Theorem reachable_result_matches_status (w : W) (s : State) :
  reachable B w s -> result_matches_status s.
Proof.
  induction 1 as [w | w s e Hreach IH Hen].
  - reflexivity.
  - destruct e;
      try (match goal with
           | |- result_matches_status (state (exec (fire B ?e s) w s)) =>
               destruct (@fire_keeps_result e s) as [Hst Hres];
               [ intros ? ?; discriminate | discriminate
               | unfold result_matches_status, exec;
                 rewrite (Hst (start w s)), (Hres (start w s)); exact IH ]
           end).
    + apply outcome_matches_status.
    + unfold exec, fire. rewrite handleGuidedComplete_unfold.
      apply outcome_matches_status.
Qed.

(** The wizard is only ever open over the chat input type. *)
Lemma submission_hides_wizard (c : State) (requirements : value) (w : W) (s : State) :
  let r := fst (handleSubmit B c requirements (start w s)) in
  showGuidedAnalysis (state r) = false /\
  textInput (state r) = textInput s /\
  inputType (state r) = inputType s.
Proof.
  cbv zeta.
  destruct (handleSubmit_outcome c requirements w s)
    as [[Hres Hst] | [(data & st & Hres & Hst & Hget & His) |
        [(e & message & Hm & Hres & Hst) | (e & ex & Hm & Hres & Hst)]]];
    rewrite Hst; repeat split.
Qed.

Lemma wizard_only_over_chat (w : W) (s : State) :
  reachable B w s -> showGuidedAnalysis s = true -> inputType s = Chat.
Proof.
  induction 1 as [w | w s e Hreach IH Hen]; [discriminate |].
  destruct e; unfold exec; cbn [fire enabled] in *.
  - (* TextChange *)
    apply andb_true_iff in Hen as [Hen _]. apply negb_true_iff in Hen.
    cbn. congruence.
  - apply andb_true_iff in Hen as [Hen _]. apply negb_true_iff in Hen.
    cbn. congruence.
  - destruct (submission_hides_wizard s VUndef w s) as (Hs & _). congruence.
  - rewrite handleGuidedComplete_unfold.
    destruct (submission_hides_wizard s requirements w (setTextInput requirements s))
      as (Hs & _). congruence.
  - cbn. discriminate.
  - apply andb_true_iff in Hen as [Hty _].
    destruct mode; cbn; intros _; destruct (inputType s); try discriminate Hty;
      reflexivity.
  - apply negb_true_iff in Hen. cbn. congruence.
  - cbn. exact IH.
  - cbn. exact IH.
  - cbn. exact IH.
  - cbn. exact IH.
  - cbn. exact IH.
  - cbn. exact IH.
  - cbn. exact IH.
  - (* Message *)
    assert (K1 : keeps showGuidedAnalysis (onmessage (W := W) data))
      by (unfold onmessage; frame).
    assert (K2 : keeps inputType (onmessage (W := W) data))
      by (unfold onmessage; frame).
    rewrite (K1 (start w s)), (K2 (start w s)). exact IH.
Qed.

(** X5.  Whenever the wizard is on screen, completing it with requirements
    that are not blank posts exactly those requirements, as input type
    ['chat'], to the text endpoint: a file selected earlier is not sent,
    whatever the text box held is replaced by the requirements, and the
    wizard is closed. *)
Theorem guided_completion_posts_as_chat (w : W) (s : State) (t : jsstring) :
  reachable B w s ->
  showGuidedAnalysis s = true ->
  trim t <> [] ->
  let r := exec (fire B (GuidedComplete (VStr t)) s) w s in
  calls r =
    [Fetch text_endpoint
       {| method := str "POST";
          headers := [(str "Content-Type", str "application/json")];
          body := JSON_stringify
                    (VObj [ (str "input_source", VStr t);
                            (str "input_type", VStr (str "chat"));
                            (str "enable_indexing", VBool (enableIndexing s)) ]) |}]
  /\ textInput (state r) = VStr t
  /\ showGuidedAnalysis (state r) = false.
Proof.
  intros Hreach Hshow Ht. cbv zeta.
  assert (Hty : inputType s = Chat) by now apply (wizard_only_over_chat Hreach).
  unfold exec, fire. rewrite handleGuidedComplete_unfold.
  destruct (submission_hides_wizard s (VStr t) w (setTextInput (VStr t) s))
    as (Hs & Htext & _).
  split; [| split; [exact Htext | exact Hs]].
  destruct (handleSubmit_after_dispatch B s (VStr t) w (setTextInput (VStr t) s))
    as [Hlog _].
  unfold exec in Hlog. unfold calls. rewrite Hlog.
  assert (Hsrc : js_or (VStr t) (textInput s) = VStr t).
  { unfold js_or. destruct t; [now elim Ht | reflexivity]. }
  rewrite Hsrc, dispatch_text by (auto; left; rewrite Hty; discriminate).
  rewrite Hty. reflexivity.
Qed.

(** X28.  A message of the push channel updates the progress and the
    status text together or not at all, and calls nothing: when its data
    is not JSON, or parses to [null], the handler throws before either
    cell is set; otherwise both cells take what the parsed object holds,
    [undefined] for a field it lacks, and no other cell changes. *)
Theorem onmessage_updates_both_or_nothing (data : jsstring) (w : W) (s : State) :
  let out := onmessage data (start w s) in
  log (fst out) = [] /\
  world (fst out) = w /\
  ((exists parsed,
      JSON_parse data = inr parsed /\
      parsed <> VNull /\ parsed <> VUndef /\
      snd out = inr tt /\
      state (fst out) =
        setStatusText (opt_get parsed (str "message"))
          (setProgress (opt_get parsed (str "progress")) s))
   \/
   (exists e,
      snd out = inl e /\
      state (fst out) = s /\
      (JSON_parse data = inl e \/
       exists parsed,
         JSON_parse data = inr parsed /\
         (parsed = VNull \/ parsed = VUndef) /\
         e = raise (ReadProp parsed (str "progress"))))).
Proof.
  cbv zeta. unfold onmessage, bind, lift, set, start.
  destruct (JSON_parse data) as [e | parsed] eqn:Ep; cbn [fst snd world state log].
  - repeat split. right. exists e. repeat split. now left.
  - destruct parsed; cbn [get_prop fst snd world state log];
      repeat split;
      try (left; eexists; repeat split; try reflexivity; discriminate);
      right; eexists; repeat split; right; eexists; repeat split; auto.
Qed.

End WithBackend.

Section WithRuntime.
Context {RT : Runtime}.










End WithRuntime.

End AppMore.

(** ** GuidedAnalysis.tsx: the calls of the wizard, its answers, its states *)

Module GuidedAnalysisMore.
Import JS Handler GuidedAnalysis GuidedAnalysisView ResultsDisplay ProgressDisplay.
Import JSFacts HandlerFacts Frames FrameFacts.
Local Open Scope handler_scope.

(** *** Answers *)

Lemma answer_at_put_same (i : nat) (x : jsstring) (a : list (nat * jsstring)) :
  answer_at i (put_answer i x a) = Some x.
Proof.
  induction a as [| [j y] rest IH]; simpl.
  - now rewrite Nat.eqb_refl.
  - destruct (Nat.eqb i j) eqn:E; simpl.
    + now rewrite E.
    + destruct (Nat.ltb i j) eqn:L; simpl.
      * now rewrite Nat.eqb_refl.
      * now rewrite E.
Qed.

Lemma answer_at_put_other (i j : nat) (x : jsstring) (a : list (nat * jsstring)) :
  j <> i -> answer_at j (put_answer i x a) = answer_at j a.
Proof.
  intro Hne. apply Nat.eqb_neq in Hne.
  induction a as [| [k y] rest IH]; simpl.
  - now rewrite Hne.
  - destruct (Nat.eqb i k) eqn:E; simpl.
    + apply Nat.eqb_eq in E. subst k. now rewrite Hne.
    + destruct (Nat.ltb i k) eqn:L; simpl.
      * now rewrite Hne.
      * destruct (Nat.eqb j k); [reflexivity | exact IH].
Qed.

(** Every key of an ascending list lies above the first key's
    predecessors. *)
Lemma ascending_tail (i : nat) (x : jsstring) (rest : list (nat * jsstring)) :
  ascending ((i, x) :: rest) = true ->
  ascending rest = true /\ forall j y, In (j, y) rest -> i < j.
Proof.
  revert i x. induction rest as [| [k z] rest IH]; intros i x H.
  - split; [reflexivity | intros j y []].
  - cbn [ascending] in H. apply andb_true_iff in H as [Hlt Hrest].
    apply Nat.ltb_lt in Hlt. split; [exact Hrest |].
    intros j y [Hin | Hin].
    + injection Hin as <- <-. exact Hlt.
    + destruct (IH k z Hrest) as [_ Hall]. specialize (Hall j y Hin). lia.
Qed.

Lemma ascending_cons (i : nat) (x : jsstring) (rest : list (nat * jsstring)) :
  ascending rest = true ->
  (forall j y, In (j, y) rest -> i < j) ->
  ascending ((i, x) :: rest) = true.
Proof.
  intros Hrest Hall. destruct rest as [| [k z] rest]; [reflexivity |].
  cbn [ascending]. apply andb_true_iff. split; [| exact Hrest].
  apply Nat.ltb_lt. apply (Hall k z). now left.
Qed.

Lemma put_answer_keys (i : nat) (x : jsstring) (a : list (nat * jsstring)) :
  forall j y, In (j, y) (put_answer i x a) -> j = i \/ In (j, y) a.
Proof.
  induction a as [| [k z] rest IH]; simpl; intros j y H.
  - destruct H as [H | []]. injection H as <- <-. now left.
  - destruct (Nat.eqb i k) eqn:E.
    + apply Nat.eqb_eq in E. subst k. destruct H as [H | H].
      * injection H as <- <-. now left.
      * right. now right.
    + destruct (Nat.ltb i k).
      * destruct H as [H | H]; [injection H as <- <-; now left | now right].
      * destruct H as [H | H]; [right; now left |].
        destruct (IH j y H) as [-> | Hin]; [now left | right; now right].
Qed.

Lemma put_answer_ascending (i : nat) (x : jsstring) (a : list (nat * jsstring)) :
  ascending a = true -> ascending (put_answer i x a) = true.
Proof.
  induction a as [| [k z] rest IH]; intro H; [reflexivity |].
  cbn [put_answer]. destruct (ascending_tail _ _ _ H) as [Hrest Hall].
  destruct (Nat.eqb i k) eqn:E.
  - now apply ascending_cons.
  - destruct (Nat.ltb i k) eqn:L.
    + apply Nat.ltb_lt in L. apply ascending_cons; [exact H |].
      intros j y [Hin | Hin]; [injection Hin as <- <-; exact L |].
      specialize (Hall j y Hin). lia.
    + apply ascending_cons; [now apply IH |].
      intros j y Hin. destruct (put_answer_keys _ _ _ _ _ Hin) as [-> | Hin'].
      * apply Nat.eqb_neq in E. apply Nat.ltb_ge in L. lia.
      * now apply (Hall j y).
Qed.

Lemma answer_at_below (i : nat) (a : list (nat * jsstring)) :
  (forall j y, In (j, y) a -> i < j) -> answer_at i a = None.
Proof.
  induction a as [| [k z] rest IH]; intro H; [reflexivity |].
  simpl. assert (i < k) by (apply (H k z); now left).
  replace (Nat.eqb i k) with false by (symmetry; apply Nat.eqb_neq; lia).
  apply IH. intros j y Hin. apply (H j y). now right.
Qed.

(** With ascending keys the counter counts the entries whose text is not
    blank. *)
Lemma answered_entries (a : list (nat * jsstring)) :
  ascending a = true ->
  answered a = List.length (filter (fun e => nonblank (snd e)) a).
Proof.
  unfold answered. induction a as [| [i x] rest IH]; intro H; [reflexivity |].
  destruct (ascending_tail _ _ _ H) as [Hrest Hall].
  cbn [map fst filter snd].
  assert (Ehead : is_answered ((i, x) :: rest) i = nonblank x).
  { unfold is_answered. simpl. now rewrite Nat.eqb_refl. }
  assert (Etail : filter (is_answered ((i, x) :: rest)) (map fst rest)
                  = filter (is_answered rest) (map fst rest)).
  { apply filter_ext_in. intros j Hj. apply in_map_iff in Hj as ([j' y] & <- & Hin).
    unfold is_answered. simpl. specialize (Hall j' y Hin).
    replace (Nat.eqb j' i) with false by (symmetry; apply Nat.eqb_neq; lia).
    reflexivity. }
  rewrite Ehead, Etail.
  destruct (nonblank x); simpl; now rewrite IH.
Qed.

Lemma count_after_put (i : nat) (x : jsstring) (a : list (nat * jsstring)) :
  ascending a = true ->
  List.length (filter (fun e => nonblank (snd e)) (put_answer i x a))
  + (if is_answered a i then 1 else 0)
  = List.length (filter (fun e => nonblank (snd e)) a)
    + (if nonblank x then 1 else 0).
Proof.
  induction a as [| [k z] rest IH]; intro H.
  - simpl. destruct (nonblank x); reflexivity.
  - destruct (ascending_tail _ _ _ H) as [Hrest Hall].
    cbn [put_answer]. unfold is_answered. cbn [answer_at].
    destruct (Nat.eqb i k) eqn:E.
    + cbn [filter snd]. fold (nonblank z).
      destruct (nonblank x), (nonblank z); simpl; lia.
    + destruct (Nat.ltb i k) eqn:L.
      * apply Nat.ltb_lt in L.
        rewrite answer_at_below
          by (intros j y Hin; specialize (Hall j y Hin); lia).
        cbn [filter snd]. destruct (nonblank x), (nonblank z); simpl; lia.
      * specialize (IH Hrest). unfold is_answered in IH.
        cbn [filter snd]. destruct (nonblank z); simpl; lia.
Qed.

Lemma ascending_length (a : list (nat * jsstring)) :
  ascending a = true ->
  forall lo n, (forall j y, In (j, y) a -> lo <= j < n) -> List.length a <= n - lo.
Proof.
  induction a as [| [i x] rest IH]; intros H lo n Hall; [simpl; lia |].
  destruct (ascending_tail _ _ _ H) as [Hrest Hgt].
  assert (Hi : lo <= i < n) by (apply (Hall i x); now left).
  assert (Hlen : List.length rest <= n - S i).
  { apply IH; [exact Hrest |]. intros j y Hin.
    specialize (Hgt j y Hin). assert (lo <= j < n) by (apply (Hall j y); now right).
    lia. }
  simpl. lia.
Qed.

(** X8.  [handleAnswerChange] stores the text under its question's index
    and leaves every other answer as it was; the keys of [answers] stay
    in ascending order with no index twice; nothing else of the wizard
    changes and nothing is called. *)
Theorem handleAnswerChange_sets_one_answer
    (W : Type) (s : State) (w : W) (index : nat) (text : jsstring) :
  let r := exec (handleAnswerChange index text) w s in
  answer_at index (answers (state r)) = Some text /\
  (forall j, j <> index -> answer_at j (answers (state r)) = answer_at j (answers s)) /\
  (ascending (answers s) = true -> ascending (answers (state r)) = true) /\
  state r = setAnswers (answers (state r)) s /\
  calls r = [] /\
  world r = w.
Proof.
  cbv zeta. unfold exec, handleAnswerChange, set, start. cbn [fst state answers setAnswers].
  split; [apply answer_at_put_same |].
  split; [intros j Hj; now apply answer_at_put_other |].
  split; [apply put_answer_ascending |].
  repeat split.
Qed.

(** X9.  The count in "You've answered ... out of ... questions" is the
    number of answers that are not blank: changing one answer moves it by
    the difference between the new text and the old one being non-blank,
    so blanking an answer takes it back.  It never exceeds the number of
    answers held, nor the number of questions as long as every answered
    index is the index of a current question. *)
Theorem answered_counts_nonblank_answers
    (a : list (nat * jsstring)) (index : nat) (text : jsstring) :
  ascending a = true ->
  answered (put_answer index text a) + (if is_answered a index then 1 else 0)
  = answered a + (if jsstring_eqb (trim text) [] then 0 else 1)
  /\ answered a <= List.length a
  /\ (forall n, (forall j y, In (j, y) a -> j < n) -> answered a <= n).
Proof.
  intro H.
  assert (Hlen : answered a <= List.length a).
  { rewrite answered_entries by exact H. apply filter_length_le. }
  split; [| split; [exact Hlen |]].
  - rewrite !answered_entries by (try apply put_answer_ascending; exact H).
    rewrite count_after_put by exact H.
    unfold nonblank. now destruct (jsstring_eqb (trim text) []).
  - intros n Hall.
    assert (List.length a <= n - 0).
    { apply ascending_length; [exact H |]. intros j y Hin.
      specialize (Hall j y Hin). lia. }
    lia.
Qed.

(** X10.  The progress bar of the wizard lights the labels up to the current
    step: one at the input step, two at the questions, three at the
    summary, and all four, the last one being "Complete", while the
    requirements are being edited. *)
Theorem renderProgressBar_lights_reached_steps (s : State) :
  let reached :=
    match currentStep s with
    | Input => 1 | Questions => 2 | Summary => 3 | Editing => 4
    end in
  map class_name (cards (renderProgressBar s)) =
    repeat (str "progress-step active") reached
    ++ repeat (str "progress-step ") (4 - reached)
  /\ text_content (renderProgressBar s) =
       [ str "1"; str "Input"; str "2"; str "Questions";
         str "3"; str "Summary"; str "4"; str "Complete" ]
  /\ (In (str "progress-step ") (map class_name (cards (renderProgressBar s)))
      <-> currentStep s <> Editing).
Proof.
  cbv zeta. unfold renderProgressBar.
  destruct (currentStep s); (split; [reflexivity |]); (split; [reflexivity |]);
    split; intro H; try discriminate; try (now elim H);
    try (cbn; tauto).
  cbn in H. repeat (destruct H as [H | H]; [discriminate H |]). contradiction.
Qed.

Section WithBackend.
Context {RT : Runtime} {W : Type}.
Variable B : Backend W.

(** *** The calls of steps 1 and 2 *)

(** The state a [catch] block of the wizard leaves: the banner reads
    [what] followed by the rejection, when the rejection can be printed. *)
Lemma handleInitialSubmit_run (c s : State) (w : W) :
  (10 <= List.length (trim (initialRequirement c)))%nat ->
  handleInitialSubmit B c (start w s) =
  let s1 := setError None (setIsLoading true s) in
  let issued := [(Invoke (str "generate_questions") (questions_request c), s1)] in
  match on_invoke B w (str "generate_questions") (questions_request c) with
  | (w', inr response) =>
      ({| world := w';
          state := setIsLoading false
                     (setCurrentStep Questions (setQuestions response s1));
          log := issued |}, inr tt)
  | (w', inl e) =>
      ({| world := w';
          state := setIsLoading false
                     match exn_to_string e with
                     | inr text =>
                         setError (Some (str "Failed to generate questions: " ++ text)) s1
                     | inl _ => s1
                     end;
          log := issued |}, after_report e)
  end.
Proof.
  intro Hlen. unfold handleInitialSubmit.
  replace (Nat.ltb (List.length (trim (initialRequirement c))) 10) with false
    by (symmetry; apply Nat.ltb_ge; exact Hlen).
  unfold finally, try_catch, bind, invoke, set, lift, start, record, after_report.
  cbn [world state log].
  fold (questions_request c).
  destruct (on_invoke B w (str "generate_questions") (questions_request c))
    as [w' [e | response]]; [| reflexivity].
  cbn [fst snd world state log]. destruct (exn_to_string e); reflexivity.
Qed.

Lemma handleGenerateRequirements_run (c s : State) (w : W) :
  handleGenerateRequirements B c (start w s) =
  let s1 := setError None (setIsLoading true s) in
  let issued :=
    [(Invoke (str "generate_detailed_requirements") (requirements_request c), s1)] in
  match on_invoke B w (str "generate_detailed_requirements") (requirements_request c) with
  | (w', inr response) =>
      ({| world := w';
          state := setIsLoading false
                     (setCurrentStep Summary (setDetailedRequirements response s1));
          log := issued |}, inr tt)
  | (w', inl e) =>
      ({| world := w';
          state := setIsLoading false
                     match exn_to_string e with
                     | inr text =>
                         setError
                           (Some (str "Failed to generate requirements: " ++ text)) s1
                     | inl _ => s1
                     end;
          log := issued |}, after_report e)
  end.
Proof.
  unfold handleGenerateRequirements.
  unfold finally, try_catch, bind, invoke, set, lift, start, record, after_report.
  cbn [world state log].
  fold (requirements_request c).
  destruct (on_invoke B w (str "generate_detailed_requirements") (requirements_request c))
    as [w' [e | response]]; [| reflexivity].
  cbn [fst snd world state log]. destruct (exn_to_string e); reflexivity.
Qed.

(** X11.  With ten or more characters left after trimming (ten are enough),
    [handleInitialSubmit] invokes [generate_questions] exactly once, with
    the trimmed text.  When the call is fulfilled its response becomes the
    questions and the step becomes [Questions]; when it is rejected the
    step and the questions stay, and the error banner reads "Failed to
    generate questions: " followed by the rejection, unless the rejection
    cannot be converted to a string: then no banner is set and the handler
    throws what the conversion threw.  In every case the loading flag ends
    cleared, the text box keeps the untrimmed text and the answers given
    earlier are kept. *)
Theorem handleInitialSubmit_generates_questions (c : State) (w : W) :
  (10 <= List.length (trim (initialRequirement c)))%nat ->
  let request :=
    Invoke (str "generate_questions")
      (VObj [(str "initialRequirement", VStr (trim (initialRequirement c)))]) in
  let out := handleInitialSubmit B c (start w c) in
  let r := exec (handleInitialSubmit B c) w c in
  calls r = [request] /\
  isLoading (state r) = false /\
  initialRequirement (state r) = initialRequirement c /\
  answers (state r) = answers c /\
  (forall w' response,
     on_invoke B w (str "generate_questions")
       (VObj [(str "initialRequirement", VStr (trim (initialRequirement c)))])
       = (w', inr response) ->
     questions (state r) = response /\
     currentStep (state r) = Questions /\
     error (state r) = None /\
     world r = w' /\
     snd out = inr tt) /\
  (forall w' e,
     on_invoke B w (str "generate_questions")
       (VObj [(str "initialRequirement", VStr (trim (initialRequirement c)))])
       = (w', inl e) ->
     questions (state r) = questions c /\
     currentStep (state r) = currentStep c /\
     world r = w' /\
     (forall text,
        exn_to_string e = inr text ->
        error (state r) = Some (str "Failed to generate questions: " ++ text) /\
        snd out = inr tt) /\
     (forall thrown,
        exn_to_string e = inl thrown ->
        error (state r) = None /\ snd out = inl thrown)).
Proof.
  intro Hlen. cbv zeta. unfold exec.
  rewrite (handleInitialSubmit_run c c w Hlen). cbv zeta.
  unfold questions_request, after_report.
  destruct (on_invoke B w (str "generate_questions") _) as [w1 [e1 | response1]];
    cbn [fst snd world state log calls map];
    try (destruct (exn_to_string e1) as [thrown1 | text1] eqn:E1);
    do 4 (split; [reflexivity |]);
    (split; intros w' x Hcall; try discriminate Hcall;
     injection Hcall as <- <-);
    try (do 3 (split; [reflexivity |]);
         split; intros y Hy; rewrite E1 in Hy; try discriminate Hy;
         injection Hy as <-; split; reflexivity);
    repeat split.
Qed.

(** X12.  [handleGenerateRequirements] checks nothing: from any state it
    invokes [generate_detailed_requirements] exactly once, with the
    trimmed initial requirement and the answers object, whose keys are the
    answered indices in ascending order.  When the call is fulfilled its
    response becomes the detailed requirements and the step becomes
    [Summary]; when it is rejected both stay, and the error banner reads
    "Failed to generate requirements: " followed by the rejection, unless
    the rejection cannot be converted to a string: then no banner is set
    and the handler throws what the conversion threw.  The loading flag
    ends cleared and the answers are kept. *)
Theorem handleGenerateRequirements_generates_summary (c : State) (w : W) :
  let request :=
    Invoke (str "generate_detailed_requirements")
      (VObj [(str "initialRequirement", VStr (trim (initialRequirement c)));
             (str "answers",
              VObj (map (fun e => (index_key (fst e), VStr (snd e))) (answers c)))]) in
  let out := handleGenerateRequirements B c (start w c) in
  let r := exec (handleGenerateRequirements B c) w c in
  calls r = [request] /\
  isLoading (state r) = false /\
  answers (state r) = answers c /\
  (forall w' response,
     on_invoke B w (str "generate_detailed_requirements") (requirements_request c)
       = (w', inr response) ->
     detailedRequirements (state r) = response /\
     currentStep (state r) = Summary /\
     error (state r) = None /\
     world r = w' /\
     snd out = inr tt) /\
  (forall w' e,
     on_invoke B w (str "generate_detailed_requirements") (requirements_request c)
       = (w', inl e) ->
     detailedRequirements (state r) = detailedRequirements c /\
     currentStep (state r) = currentStep c /\
     world r = w' /\
     (forall text,
        exn_to_string e = inr text ->
        error (state r) = Some (str "Failed to generate requirements: " ++ text) /\
        snd out = inr tt) /\
     (forall thrown,
        exn_to_string e = inl thrown ->
        error (state r) = None /\ snd out = inl thrown)).
Proof.
  cbv zeta. unfold exec. rewrite (handleGenerateRequirements_run c c w). cbv zeta.
  unfold after_report.
  destruct (on_invoke B w (str "generate_detailed_requirements") _)
    as [w1 [e1 | response1]];
    cbn [fst snd world state log calls map];
    try (destruct (exn_to_string e1) as [thrown1 | text1] eqn:E1);
    do 3 (split; [reflexivity |]);
    (split; intros w' x Hcall; try discriminate Hcall;
     injection Hcall as <- <-);
    try (do 3 (split; [reflexivity |]);
         split; intros y Hy; rewrite E1 in Hy; try discriminate Hy;
         injection Hy as <-; split; reflexivity);
    repeat split.
Qed.

(** *** The states the wizard reaches *)

(** A handler run in one go is the handler run up to its [await], its
    call, and the rest of it run with what the call settled to: the two
    halves are the handler. *)
Lemma fire_splits (e : event) (c : State) (r : Run W State) :
  fire B e c r =
  match until_await B e c r with
  | (r1, inr (Some (cmd, args))) =>
      let (w', outcome) := on_invoke B (world r1) cmd args in
      after_await e outcome (record (Invoke cmd args) r1 w')
  | (r1, inr None) => (r1, inr tt)
  | (r1, inl thrown) => (r1, inl thrown)
  end.
Proof.
  destruct e; cbn [fire until_await after_await];
    try (unfold bind, ret;
         match goal with
         | |- ?m = match (let (_, _) := ?m in _) with _ => _ end =>
             destruct m as [r1 [x | []]]; reflexivity
         end).
  - unfold handleInitialSubmit, too_short.
    destruct (Nat.ltb (List.length (trim (initialRequirement c))) 10);
      [reflexivity |].
    unfold finally, try_catch, bind, invoke, set, lift, ret, record, questions_request.
    cbn [world state log fst snd].
    destruct (on_invoke B (world r) _ _) as [w' [x | response]]; reflexivity.
  - unfold handleGenerateRequirements.
    unfold finally, try_catch, bind, invoke, set, lift, ret, record,
      requirements_request.
    cbn [world state log fst snd].
    destruct (on_invoke B (world r) _ _) as [w' [x | response]]; reflexivity.
  - unfold handleApplyEdit, no_feedback.
    destruct (jsstring_eqb (trim (editFeedback c)) []); [reflexivity |].
    unfold finally, try_catch, bind, invoke, set, lift, ret, record, edit_request.
    cbn [world state log fst snd].
    destruct (on_invoke B (world r) _ _) as [w' [x | response]]; reflexivity.
Qed.

(** The rest of an async handler clears the loading flag and leaves the
    banner empty, as it was, or reporting the failure. *)
Lemma settle_in_step (e : event) (outcome : exn + value) (w : W) (s : State) :
  awaits e = true ->
  reports_failure (error s) ->
  ascending (answers s) = true ->
  in_step (settle e outcome w s) [].
Proof.
  intros Ha Herr Hasc. unfold settle.
  destruct e; try discriminate Ha; cbn [after_await];
    unfold finally, try_catch, bind, lift, set, start;
    destruct outcome as [x | response]; cbn [fst snd world state log];
    try (destruct (exn_to_string x) as [thrown | text];
         cbn [fst snd world state log]);
    (split; [| split; [exact Hasc | split; [intros y [] | left; split; reflexivity]]]);
    try exact Herr; cbn; eexists; reflexivity.
Qed.

Lemma reachable_in_step (w : W) (s : State) (pending : list in_flight) :
  reachable B w s pending -> in_step s pending.
Proof.
  induction 1 as [w | w s pending e Hreach IH Hen
                 | w s before after e outcome Hreach IH].
  - split; [exact I |]. split; [reflexivity |]. split; [intros x [] |].
    left. split; reflexivity.
  - destruct IH as (Herr & Hasc & Hawait & Hload).
    assert (Hsync : forall s',
               reports_failure (error s') -> ascending (answers s') = true ->
               isLoading s' = isLoading s -> in_step s' pending).
    { intros s' H1 H2 H3. split; [exact H1 |]. split; [exact H2 |].
      split; [exact Hawait |]. rewrite H3. exact Hload. }
    unfold take.
    destruct e; cbn [until_await fire enabled] in *;
      try (unfold handleAnswerChange, backToInput, handleStartOver, handleEdit,
             handleConfirm, backToSummary, callback, bind, set, ret, start, record;
           cbn [fst snd world state log];
           apply Hsync; solve [assumption | reflexivity | exact I
                               | now apply put_answer_ascending]).
    + (* InitialSubmit *)
      apply andb_true_iff in Hen as [_ Hen]. apply negb_true_iff in Hen.
      unfold generate_questions_disabled in Hen.
      apply orb_false_iff in Hen as [Hidle Hlen]. rewrite Hlen.
      unfold bind, set, ret, start. cbn [world state log fst snd].
      destruct (on_invoke B w _ _) as [w' outcome]. cbn [fst snd].
      destruct Hload as [[-> _] | [x [_ Hl]]]; [| congruence].
      split; [exact I |]. split; [exact Hasc |].
      split; [intros y [<- | []]; reflexivity |].
      right. eexists. split; reflexivity.
    + (* GenerateRequirements *)
      apply andb_true_iff in Hen as [_ Hen]. apply negb_true_iff in Hen.
      unfold generate_requirements_disabled in Hen.
      unfold bind, set, ret, start. cbn [world state log fst snd].
      destruct (on_invoke B w _ _) as [w' outcome]. cbn [fst snd].
      destruct Hload as [[-> _] | [x [_ Hl]]]; [| congruence].
      split; [exact I |]. split; [exact Hasc |].
      split; [intros y [<- | []]; reflexivity |].
      right. eexists. split; reflexivity.
    + (* ApplyEdit *)
      apply andb_true_iff in Hen as [_ Hen]. apply negb_true_iff in Hen.
      unfold apply_changes_disabled in Hen.
      apply orb_false_iff in Hen as [Hidle Hfb]. rewrite Hfb.
      unfold bind, set, ret, start. cbn [world state log fst snd].
      destruct (on_invoke B w _ _) as [w' outcome]. cbn [fst snd].
      destruct Hload as [[-> _] | [x [_ Hl]]]; [| congruence].
      split; [exact I |]. split; [exact Hasc |].
      split; [intros y [<- | []]; reflexivity |].
      right. eexists. split; reflexivity.
  - destruct IH as (Herr & Hasc & Hawait & Hload).
    assert (Ha : awaits e = true).
    { apply (Hawait (e, outcome)). apply in_or_app. right. now left. }
    assert (Hone : before ++ after = []).
    { destruct Hload as [[Hnil _] | [x [Hx _]]].
      - destruct before; discriminate Hnil.
      - destruct before as [| y before]; [cbn in Hx; injection Hx as _ ->; reflexivity |].
        destruct before; discriminate Hx. }
    rewrite Hone. now apply settle_in_step.
Qed.

(** X13.  In no state the wizard can reach, events taken while a call is
    in flight included, is either of its two validation messages on
    screen: the buttons that would raise them are disabled exactly when
    the handlers would refuse, so the error banner is empty or reports a
    failed call.  In every such state the answers are keyed in ascending
    order with no index twice, at most one call is in flight, and the
    loading flag is set exactly while one is. *)
Theorem reachable_wizard_never_shows_validation_error
    (w : W) (s : State) (pending : list in_flight) :
  reachable B w s pending ->
  error s <> Some too_short /\
  error s <> Some no_feedback /\
  (error s = None \/ exists rest, error s = Some (str "Failed to " ++ rest)) /\
  ascending (answers s) = true /\
  (List.length pending <= 1)%nat /\
  (isLoading s = true <-> pending <> []).
Proof.
  intro Hreach. destruct (reachable_in_step Hreach) as (Herr & Hasc & _ & Hload).
  assert (Hflag : (List.length pending <= 1)%nat
                  /\ (isLoading s = true <-> pending <> [])).
  { destruct Hload as [[-> Hl] | [x [-> Hl]]]; rewrite Hl; cbn [List.length].
    - split; [lia |]. split; [discriminate | intro H; now elim H].
    - split; [lia |]. split; [discriminate | reflexivity]. }
  unfold reports_failure in Herr.
  destruct (error s) as [text |].
  - destruct Herr as [rest ->].
    split; [intro H; discriminate H |]. split; [intro H; discriminate H |].
    split; [right; now exists rest |]. split; [exact Hasc | exact Hflag].
  - split; [discriminate |]. split; [discriminate |].
    split; [now left |]. split; [exact Hasc | exact Hflag].
Qed.

End WithBackend.

End GuidedAnalysisMore.

(** ** ResultsDisplay.tsx: file names, the file list, the opening tab *)

Module ResultsDisplayMore.
Import JS ResultsDisplay Download JSFacts.

Lemma last_segment_splits (s : jsstring) :
  forall acc,
    ~ In 47%N acc ->
    ~ In 47%N (last_segment acc s) /\
    (acc ++ s = last_segment acc s
     \/ exists dir, acc ++ s = dir ++ [47%N] ++ last_segment acc s).
Proof.
  induction s as [| c rest IH]; intros acc Hacc; cbn [last_segment].
  - split; [exact Hacc |]. left. apply app_nil_r.
  - destruct (N.eqb c 47) eqn:E.
    + apply N.eqb_eq in E. subst c.
      destruct (IH [] (fun H => H)) as [Hno [Hall | [dir Hdir]]]; split; trivial; right.
      * exists acc. cbn [app] in Hall |- *. f_equal. f_equal. exact Hall.
      * exists (acc ++ 47%N :: dir). cbn [app] in Hdir. rewrite <- app_assoc.
        cbn [app]. f_equal. f_equal. exact Hdir.
    + assert (Hacc' : ~ In 47%N (acc ++ [c])).
      { intro H. apply in_app_or in H as [H | [H | []]]; [now apply Hacc |].
        subst c. discriminate E. }
      destruct (IH (acc ++ [c]) Hacc') as [Hno Hsplit].
      rewrite <- app_assoc in Hsplit. split; assumption.
Qed.

(** X14.  The name shown for a generated file, and offered for its
    download, is the part of its path after the last slash: it holds no
    slash, the path is that name alone or a directory, a slash and the
    name, and a path without a slash is shown whole.  The download name
    is never empty: a path ending in a slash is saved as "download". *)
Theorem last_segment_is_the_file_name (filePath : jsstring) :
  let base := last_segment [] filePath in
  ~ In 47%N base /\
  (filePath = base \/ exists dir, filePath = dir ++ [47%N] ++ base) /\
  (~ In 47%N filePath -> base = filePath) /\
  download_name filePath <> [] /\
  ~ In 47%N (download_name filePath) /\
  (base <> [] -> download_name filePath = base) /\
  (base = [] -> download_name filePath = str "download").
Proof.
  cbv zeta.
  destruct (@last_segment_splits filePath [] (fun H => H)) as [Hno Hsplit].
  cbn [app] in Hsplit.
  split; [exact Hno |]. split; [exact Hsplit |]. split.
  - intro Hpath. destruct Hsplit as [E | [dir E]]; [now symmetry |].
    exfalso. apply Hpath. rewrite E. apply in_or_app. right. now left.
  - unfold download_name. destruct (last_segment [] filePath) as [| c base].
    + repeat split; try discriminate; try reflexivity.
      * intro H. cbn in H. repeat (destruct H as [H | H]; [discriminate H |]).
        contradiction.
      * intro H. now elim H.
    + repeat split; try discriminate; try reflexivity. exact Hno.
Qed.

Section WithRuntime.
Context {RT : Runtime}.

(** The row of one file. *)
Lemma file_items_of_paths (paths : list jsstring) :
  file_items (map VStr paths) =
  inr (map (fun p =>
              Elem (str "div") (str "file-item") None
                [ Elem (str "span") (str "file-icon") None [Text [55357; 56516]%N];
                  Elem (str "span") (str "file-name") None [Text (last_segment [] p)];
                  Elem (str "button") (str "download-btn")
                    (Some (HandleDownload (VStr p))) [Text (str "Download")] ])
           paths).
Proof.
  induction paths as [| p rest IH]; [reflexivity |].
  cbn [map file_items]. unfold file_item at 1. cbn [file_base_name and_then].
  rewrite IH. reflexivity.
Qed.

(** X15.  For a reply whose [repo_result.generated_files] is a non-empty
    list of paths, the Files tab shows one row per file, in the order of
    the list: each row names the file by the part of its path after the
    last slash, and its Download button is bound to the whole path.  An
    entry that is [null] where a path should be makes the tab throw. *)
Theorem files_tab_lists_every_file
    (fields repo : list (jsstring * value)) (paths : list jsstring) :
  assoc (str "repo_result") fields = Some (VObj repo) ->
  paths <> [] ->
  (assoc (str "generated_files") repo = Some (VArr (map VStr paths)) ->
   renderTabContent Files (VObj fields) =
     inr (Elem (str "div") (str "tab-content files-content") None
            [ Elem (str "h3") [] None [Text (str "Generated Files")];
              Elem (str "div") (str "file-list") None
                (map (fun p =>
                        Elem (str "div") (str "file-item") None
                          [ Elem (str "span") (str "file-icon") None
                              [Text [55357; 56516]%N];
                            Elem (str "span") (str "file-name") None
                              [Text (last_segment [] p)];
                            Elem (str "button") (str "download-btn")
                              (Some (HandleDownload (VStr p)))
                              [Text (str "Download")] ])
                     paths) ]))
  /\
  (forall rest,
     assoc (str "generated_files") repo = Some (VArr (map VStr paths ++ VNull :: rest)) ->
     renderTabContent Files (VObj fields) = inl (raise (ReadProp VNull (str "split")))).
Proof.
  intros Hrepo Hne. split.
  - intro Hfiles. unfold renderTabContent, opt_get. rewrite Hrepo, Hfiles.
    unfold js_or. cbn [truthy]. unfold file_list.
    destruct paths as [| p rest]; [now elim Hne |].
    cbn [map]. change (VStr p :: map VStr rest) with (map VStr (p :: rest)).
    rewrite file_items_of_paths. reflexivity.
  - intros rest Hfiles. unfold renderTabContent, opt_get. rewrite Hrepo, Hfiles.
    unfold js_or. cbn [truthy]. unfold file_list.
    destruct paths as [| p more]; [now elim Hne |].
    cbn [map app].
    assert (E : forall before,
               file_items (map VStr before ++ VNull :: rest)
               = inl (raise (ReadProp VNull (str "split")))).
    { induction before as [| q before IH]; [reflexivity |].
      cbn [map app file_items]. unfold file_item at 1.
      cbn [file_base_name and_then]. now rewrite IH. }
    change (VStr p :: map VStr more ++ VNull :: rest)
      with (map VStr (p :: more) ++ VNull :: rest).
    now rewrite E.
Qed.

(** X16.  The results view always opens: whatever a (truthy) reply holds,
    the Implementation tab, the one shown first, renders without throwing
    and shows one text, the indented JSON of [repo_result] or the
    placeholder when there is none.  The Analysis and Download tabs are
    not as forgiving: a mapping where their text should be is refused by
    React and the render throws. *)
Theorem implementation_tab_always_renders (result : value) :
  (exists text,
      renderTabContent Implementation result =
        inr (phase_panel (str "tab-content implementation-content")
               (str "Implementation Phase") [Text text]) /\
      (opt_get result (str "repo_result") = VUndef ->
         text = str "No implementation results available.") /\
      (opt_get result (str "repo_result") <> VUndef ->
         JSON_stringify_indent2 (opt_get result (str "repo_result")) <> [] ->
         text = JSON_stringify_indent2 (opt_get result (str "repo_result"))))
  /\ (truthy result = true ->
      exists node, ResultsDisplay initialTab result = inr (Some node))
  /\ (forall inner,
        opt_get result (str "analysis_result") = VObj inner ->
        renderTabContent Analysis result = inl (raise (InvalidReactChild (VObj inner))))
  /\ (forall inner,
        opt_get result (str "download_result") = VObj inner ->
        renderTabContent Download result = inl (raise (InvalidReactChild (VObj inner)))).
Proof.
  assert (Himpl : exists text,
      renderTabContent Implementation result =
        inr (phase_panel (str "tab-content implementation-content")
               (str "Implementation Phase") [Text text]) /\
      (opt_get result (str "repo_result") = VUndef ->
         text = str "No implementation results available.") /\
      (opt_get result (str "repo_result") <> VUndef ->
         JSON_stringify_indent2 (opt_get result (str "repo_result")) <> [] ->
         text = JSON_stringify_indent2 (opt_get result (str "repo_result")))).
  { unfold renderTabContent, stringify_indented.
    destruct (opt_get result (str "repo_result")) eqn:E;
      try (unfold js_or; cbn [truthy];
           match goal with
           | |- context [JSON_stringify_indent2 ?v] =>
               destruct (JSON_stringify_indent2 v) as [| c text] eqn:Ej
           end;
           (cbn [child and_then]; eexists; (split; [reflexivity |]);
            (split; [discriminate | intros _ H; try (now elim H); reflexivity]))).
    unfold js_or. cbn [truthy child and_then]. eexists. split; [reflexivity |].
    split; [reflexivity | intro H; now elim H]. }
  split; [exact Himpl |]. split; [| split].
  - intro Ht. unfold ResultsDisplay. rewrite Ht. cbn [negb].
    destruct Himpl as (text & E & _). unfold initialTab. rewrite E.
    cbn [and_then]. eexists. reflexivity.
  - intros inner E. unfold renderTabContent. rewrite E. reflexivity.
  - intros inner E. unfold renderTabContent. rewrite E. reflexivity.
Qed.

End WithRuntime.

End ResultsDisplayMore.

(** ** Settings.tsx: failed loads and saves, Reset, key order *)

Module SettingsMore.
Import JS Handler Settings SettingsView.
Import JSFacts HandlerFacts Frames FrameFacts SettingsFacts.
Local Open Scope handler_scope.

Section WithBackend.
Context {RT : Runtime} {W : Type}.
Variable B : Backend W.

(** *** Loads *)

Lemma get_prop_present (v : value) (k : jsstring) :
  nullish v = false -> get_prop v k = inr (opt_get v k).
Proof. destruct v; try discriminate; reflexivity. Qed.

Lemma get_prop_nullish (v : value) (k : jsstring) :
  nullish v = true -> get_prop v k = inl (raise (ReadProp v k)).
Proof. destruct v; try discriminate; reflexivity. Qed.

(** A load whose two reads go through and parse to documents that are
    not [null] populates the panel. *)
Lemma loadConfiguration_loads (r : Run W State) (w1 w2 : W)
    (content1 content2 cfg sec : value) :
  on_invoke B (world r) (str "read_config") VUndef = (w1, inr content1) ->
  yaml_load_value content1 = inr cfg ->
  on_invoke B w1 (str "read_secrets") VUndef = (w2, inr content2) ->
  yaml_load_value content2 = inr sec ->
  nullish cfg = false ->
  nullish sec = false ->
  snd (loadConfiguration B r) = inr tt /\
  world (fst (loadConfiguration B r)) = w2 /\
  state (fst (loadConfiguration B r)) = populated cfg sec (state r) /\
  calls (fst (loadConfiguration B r)) =
    calls r ++ [Invoke (str "read_config") VUndef; Invoke (str "read_secrets") VUndef].
Proof.
  intros H1 Hy1 H2 Hy2 Hc Hs.
  destruct r as [w s l]. cbn [world] in H1.
  unfold loadConfiguration, finally, try_catch, bind, invoke, record, lift, set.
  cbn [world state log fst snd].
  rewrite H1. cbn [world state log fst snd]. rewrite Hy1.
  rewrite H2. cbn [world state log fst snd]. rewrite Hy2.
  rewrite !get_prop_present by assumption.
  unfold populated, calls.
  destruct (truthy (server_key cfg (str "brave") (str "BRAVE_API_KEY")));
    destruct (truthy (server_key cfg (str "bocha-mcp") (str "BOCHA_API_KEY")));
    cbn [world state log fst snd ret];
    (split; [reflexivity |]); (split; [reflexivity |]);
    (split; [reflexivity |]);
    rewrite !map_app, <- app_assoc; reflexivity.
Qed.

(** What the body of a load sets is never the status message. *)
Lemma load_body_keeps_status :
  keeps statusMsg
    (configContent <- invoke B (str "read_config") VUndef ;;
     parsedConfig <- lift (yaml_load_value configContent) ;;
     set (setConfig parsedConfig) ;;
     secretsContent <- invoke B (str "read_secrets") VUndef ;;
     parsedSecrets <- lift (yaml_load_value secretsContent) ;;
     set (setSecrets parsedSecrets) ;;
     server <- lift (get_prop parsedConfig (str "default_search_server")) ;;
     set (setSearchServer (js_or server (VStr (str "brave")))) ;;
     set (setDocSegEnabled
            (js_or (opt_get (opt_get parsedConfig (str "document_segmentation"))
                            (str "enabled"))
                   (VBool false))) ;;
     set (setDocSegThreshold
            (js_or (opt_get (opt_get parsedConfig (str "document_segmentation"))
                            (str "size_threshold_chars"))
                   (VNum (Fin 50000)))) ;;
     set (setDefaultModel
            (js_or (opt_get (opt_get parsedConfig (str "openai"))
                            (str "default_model"))
                   (VStr (str "anthropic/claude-3.5-sonnet")))) ;;
     openai <- lift (get_prop parsedSecrets (str "openai")) ;;
     set (setOpenaiKey (js_or (opt_get openai (str "api_key")) (VStr []))) ;;
     set (setOpenaiBaseUrl (js_or (opt_get openai (str "base_url")) (VStr []))) ;;
     set (setAnthropicKey
            (js_or (opt_get (opt_get parsedSecrets (str "anthropic"))
                            (str "api_key"))
                   (VStr []))) ;;
     (if truthy (server_key parsedConfig (str "brave") (str "BRAVE_API_KEY"))
      then set (setBraveKey
                  (server_key parsedConfig (str "brave") (str "BRAVE_API_KEY")))
      else ret tt) ;;
     (if truthy (server_key parsedConfig (str "bocha-mcp") (str "BOCHA_API_KEY"))
      then set (setBochaKey
                  (server_key parsedConfig (str "bocha-mcp") (str "BOCHA_API_KEY")))
      else ret tt)).
Proof. frame. Qed.

(** A load always ends with the loading flag cleared and either no
    status message or an error.  It returns, unless what it caught cannot
    be converted to a string: then it throws the TypeError of that
    conversion, with no status message set. *)
Lemma loadConfiguration_settles (r : Run W State) :
  (snd (loadConfiguration B r) = inr tt \/
   exists object,
     snd (loadConfiguration B r) = inl (raise (NotPrimitive object)) /\
     statusMsg (state (fst (loadConfiguration B r))) = None) /\
  isLoading (state (fst (loadConfiguration B r))) = false /\
  no_success (statusMsg (state (fst (loadConfiguration B r)))).
Proof.
  remember (loadConfiguration B r) as out eqn:Eout.
  unfold loadConfiguration in Eout.
  unfold bind at 1 in Eout. unfold set at 1 in Eout.
  unfold bind at 1 in Eout. unfold set at 1 in Eout.
  unfold finally, try_catch in Eout.
  match type of Eout with
  | context [bind (invoke B (str "read_config") VUndef) ?k ?r0] =>
      pose proof (load_body_keeps_status r0) as Hkeep;
      destruct (bind (invoke B (str "read_config") VUndef) k r0) as [r1 [e | u]]
  end; cbn [fst snd state] in Hkeep.
  - unfold bind, console_error, set, lift, record in Eout.
    cbn [fst snd world state log] in Eout.
    destruct (exn_to_string e) as [thrown | shown] eqn:E;
      cbn [fst snd world state log] in Eout; subst out;
      cbn [fst snd world state log].
    + destruct e as [name message | v]; [discriminate E |].
      destruct (ToString_fault _ E) as [object ->].
      split; [right; exists object; split; [reflexivity | exact Hkeep] |].
      split; [reflexivity |]. left. exact Hkeep.
    + split; [now left |]. split; [reflexivity |]. right. eexists. reflexivity.
  - unfold set in Eout. cbn in Eout. subst out. cbn. destruct u.
    split; [now left |]. split; [reflexivity |]. left.
    rewrite Hkeep. reflexivity.
Qed.

(** X17.  A load can fail in six ways, and only the last of them touches
    the form.  When the config cannot be read or parsed, only the status
    message and the loading flag change, the secrets are not asked for,
    and the failure goes to the console.  When the secrets cannot be read
    or parsed, the parsed config has by then replaced the config cell, and
    no form field has been touched.  When the config parses to [null] or
    [undefined] (an empty file), both document cells have been replaced
    and the load stops at the first field it reads.  When the config is a
    document and the secrets parse to [null] or [undefined], the four form
    fields that come from the config have been set by the time the load
    stops at the first field it reads from the secrets: this failed load
    does change the form.  In every case the status message reports the
    failure, or is empty when the failure cannot be converted to a
    string. *)
Theorem loadConfiguration_failure_modes (s : State) (w : W) :
  let r := exec (loadConfiguration B) w s in
  let report := ConsoleError (str "Failed to load configuration:") in
  let failure := failed (str "Failed to load configuration: ") in
  (forall w1 e,
     on_invoke B w (str "read_config") VUndef = (w1, inl e) ->
     state r = failure e s /\
     calls r = [Invoke (str "read_config") VUndef; report e])
  /\
  (forall w1 content e,
     on_invoke B w (str "read_config") VUndef = (w1, inr content) ->
     yaml_load_value content = inl e ->
     state r = failure e s /\
     calls r = [Invoke (str "read_config") VUndef; report e])
  /\
  (forall w1 w2 content cfg e,
     on_invoke B w (str "read_config") VUndef = (w1, inr content) ->
     yaml_load_value content = inr cfg ->
     on_invoke B w1 (str "read_secrets") VUndef = (w2, inl e) ->
     state r = failure e (setConfig cfg s) /\
     calls r = [Invoke (str "read_config") VUndef;
                Invoke (str "read_secrets") VUndef; report e])
  /\
  (forall w1 w2 content1 content2 cfg e,
     on_invoke B w (str "read_config") VUndef = (w1, inr content1) ->
     yaml_load_value content1 = inr cfg ->
     on_invoke B w1 (str "read_secrets") VUndef = (w2, inr content2) ->
     yaml_load_value content2 = inl e ->
     state r = failure e (setConfig cfg s) /\
     calls r = [Invoke (str "read_config") VUndef;
                Invoke (str "read_secrets") VUndef; report e])
  /\
  (forall w1 w2 content1 content2 cfg sec,
     on_invoke B w (str "read_config") VUndef = (w1, inr content1) ->
     yaml_load_value content1 = inr cfg ->
     on_invoke B w1 (str "read_secrets") VUndef = (w2, inr content2) ->
     yaml_load_value content2 = inr sec ->
     nullish cfg = true ->
     let e := raise (ReadProp cfg (str "default_search_server")) in
     state r = failure e (setSecrets sec (setConfig cfg s)) /\
     calls r = [Invoke (str "read_config") VUndef;
                Invoke (str "read_secrets") VUndef; report e])
  /\
  (forall w1 w2 content1 content2 cfg sec,
     on_invoke B w (str "read_config") VUndef = (w1, inr content1) ->
     yaml_load_value content1 = inr cfg ->
     on_invoke B w1 (str "read_secrets") VUndef = (w2, inr content2) ->
     yaml_load_value content2 = inr sec ->
     nullish cfg = false ->
     nullish sec = true ->
     let e := raise (ReadProp sec (str "openai")) in
     state r =
       failure e
         (setDefaultModel
            (js_or (opt_get (opt_get cfg (str "openai")) (str "default_model"))
                   (VStr (str "anthropic/claude-3.5-sonnet")))
            (setDocSegThreshold
               (js_or (opt_get (opt_get cfg (str "document_segmentation"))
                               (str "size_threshold_chars"))
                      (VNum (Fin 50000)))
               (setDocSegEnabled
                  (js_or (opt_get (opt_get cfg (str "document_segmentation"))
                                  (str "enabled"))
                         (VBool false))
                  (setSearchServer
                     (js_or (opt_get cfg (str "default_search_server"))
                            (VStr (str "brave")))
                     (setSecrets sec (setConfig cfg s)))))) /\
     calls r = [Invoke (str "read_config") VUndef;
                Invoke (str "read_secrets") VUndef; report e]).
Proof.
  cbv zeta. unfold exec, start, failed.
  split; [| split; [| split; [| split; [| split]]]].
  - intros w1 e H1.
    unfold loadConfiguration, finally, try_catch, bind, invoke, record, lift, set,
      console_error.
    cbn [world state log fst snd]. rewrite H1. cbn [world state log fst snd].
    destruct (exn_to_string e); split; reflexivity.
  - intros w1 content e H1 Hy.
    unfold loadConfiguration, finally, try_catch, bind, invoke, record, lift, set,
      console_error.
    cbn [world state log fst snd]. rewrite H1.
    cbn [world state log fst snd]. rewrite Hy. cbn [world state log fst snd].
    destruct (exn_to_string e); split; reflexivity.
  - intros w1 w2 content cfg e H1 Hy H2.
    unfold loadConfiguration, finally, try_catch, bind, invoke, record, lift, set,
      console_error.
    cbn [world state log fst snd]. rewrite H1.
    cbn [world state log fst snd]. rewrite Hy.
    rewrite H2. cbn [world state log fst snd].
    destruct (exn_to_string e); split; reflexivity.
  - intros w1 w2 content1 content2 cfg e H1 Hy1 H2 Hy2.
    unfold loadConfiguration, finally, try_catch, bind, invoke, record, lift, set,
      console_error.
    cbn [world state log fst snd]. rewrite H1.
    cbn [world state log fst snd]. rewrite Hy1.
    rewrite H2. cbn [world state log fst snd]. rewrite Hy2.
    cbn [world state log fst snd].
    destruct (exn_to_string e); split; reflexivity.
  - intros w1 w2 content1 content2 cfg sec H1 Hy1 H2 Hy2 Hc.
    unfold loadConfiguration, finally, try_catch, bind, invoke, record, lift, set,
      console_error.
    cbn [world state log fst snd]. rewrite H1.
    cbn [world state log fst snd]. rewrite Hy1.
    rewrite H2. cbn [world state log fst snd]. rewrite Hy2.
    rewrite get_prop_nullish by exact Hc. split; reflexivity.
  - intros w1 w2 content1 content2 cfg sec H1 Hy1 H2 Hy2 Hc Hs.
    unfold loadConfiguration, finally, try_catch, bind, invoke, record, lift, set,
      console_error.
    cbn [world state log fst snd]. rewrite H1.
    cbn [world state log fst snd]. rewrite Hy1.
    rewrite H2. cbn [world state log fst snd]. rewrite Hy2.
    rewrite (get_prop_present _ _ Hc). cbn [world state log fst snd].
    rewrite (get_prop_nullish _ _ Hs). split; reflexivity.
Qed.

(** X29.  A load never writes: whatever the bridge and the parser
    do, the only calls a load issues are [read_config], [read_secrets]
    and the report of a failure to the console, in that order, each at
    most once. *)
Theorem loadConfiguration_only_reads (s : State) (w : W) :
  let r := exec (loadConfiguration B) w s in
  exists failure,
    (failure = [] \/
     exists e, failure = [ConsoleError (str "Failed to load configuration:") e]) /\
    (calls r = Invoke (str "read_config") VUndef :: failure \/
     calls r = Invoke (str "read_config") VUndef
               :: Invoke (str "read_secrets") VUndef :: failure).
Proof.
  cbv zeta.
  unfold exec, start, loadConfiguration, finally, try_catch, bind, invoke, lift, set,
    console_error, record, ret, calls.
  cbn [world state log fst snd].
  repeat match goal with
    | |- context [on_invoke B ?a ?b ?x] =>
        destruct (on_invoke B a b x) as [? [? | ?]]; cbn [world state log fst snd]
    | |- context [yaml_load_value ?x] =>
        destruct (yaml_load_value x) as [? | ?]; cbn [world state log fst snd]
    | |- context [exn_to_string ?x] =>
        destruct (exn_to_string x) as [? | ?]; cbn [world state log fst snd]
    | |- context [get_prop ?a ?b] =>
        destruct (get_prop a b) as [? | ?]; cbn [world state log fst snd]
    | |- context [truthy ?x] =>
        destruct (truthy x); cbn [world state log fst snd]
    end;
    cbn [map app fst];
    first
      [ exists []; split; [now left |]; first [now left | now right]
      | eexists; split; [right; eexists; reflexivity |];
        first [left; reflexivity | right; reflexivity] ].
Qed.

(** *** Saves *)

Lemma handleSave_unloaded (c s : State) (w : W) :
  truthy (config c) = false \/ truthy (secrets c) = false ->
  exec (handleSave B c) w s =
  {| world := w; state := setIsLoading false (setStatusMsg None s); log := [] |}.
Proof.
  intro H. unfold exec, handleSave.
  assert (E : negb (truthy (config c)) || negb (truthy (secrets c)) = true).
  { destruct H as [-> | ->]; [reflexivity | apply orb_true_r]. }
  rewrite E. reflexivity.
Qed.

(** X18.  Save does nothing unless both documents are loaded: with the
    config or the secrets cell empty it calls nothing and shows no
    message, whatever was typed into the form.  An empty config file gets
    the panel there: it parses to [undefined] (or [null]), the load stops
    at the first field it reads from it and reports the TypeError, and a
    save from the panel it leaves writes nothing. *)
Theorem handleSave_needs_both_documents (s : State) (w : W) :
  (forall c,
     truthy (config c) = false \/ truthy (secrets c) = false ->
     exec (handleSave B c) w s =
     {| world := w; state := setIsLoading false (setStatusMsg None s); log := [] |})
  /\
  (forall w1 w2 content1 content2 v sec,
     on_invoke B w (str "read_config") VUndef = (w1, inr content1) ->
     yaml_load_value content1 = inr v ->
     nullish v = true ->
     on_invoke B w1 (str "read_secrets") VUndef = (w2, inr content2) ->
     yaml_load_value content2 = inr sec ->
     let loaded := exec (loadConfiguration B) w s in
     state loaded =
       failed (str "Failed to load configuration: ")
         (raise (ReadProp v (str "default_search_server")))
         (setSecrets sec (setConfig v s)) /\
     calls (exec (handleSave B (state loaded)) (world loaded) (state loaded)) = [] /\
     world (exec (handleSave B (state loaded)) (world loaded) (state loaded))
       = world loaded).
Proof.
  split; [intros c H; now apply handleSave_unloaded |].
  intros w1 w2 content1 content2 v sec H1 Hy1 Hv H2 Hy2. cbv zeta.
  assert (E : state (exec (loadConfiguration B) w s) =
              failed (str "Failed to load configuration: ")
                (raise (ReadProp v (str "default_search_server")))
                (setSecrets sec (setConfig v s))).
  { unfold exec, start.
    unfold loadConfiguration, finally, try_catch, bind, invoke, record, lift, set,
      console_error.
    cbn [world state log fst snd]. rewrite H1.
    cbn [world state log fst snd]. rewrite Hy1.
    rewrite H2. cbn [world state log fst snd]. rewrite Hy2.
    rewrite get_prop_nullish by exact Hv. reflexivity. }
  split; [exact E |].
  rewrite handleSave_unloaded.
  - split; reflexivity.
  - left. rewrite E. cbn. destruct v; try discriminate Hv; reflexivity.
Qed.

(** X19.  A save is not atomic, in the files and in the panel.  The
    statements that build the two documents write into the objects the
    config and secrets cells hold, so by the first call both cells already
    show the form's values in the sections they share with the copies.
    The config is written first; when the write of the secrets is then
    rejected, the config file has already been replaced, nothing is
    reloaded, and the panel keeps the cells written through and reports
    the failure (or throws, with no message, when the rejection cannot be
    converted to a string).  When the write of the config itself is
    rejected, the secrets are not written either. *)
Theorem handleSave_is_not_atomic
    (c : State) (w : W) (cfg' sec' : value) (configText secretsText : jsstring) :
  truthy (config c) = true ->
  truthy (secrets c) = true ->
  updatedConfig c = inr cfg' ->
  updatedSecrets c = inr sec' ->
  yaml_dump cfg' = inr configText ->
  yaml_dump sec' = inr secretsText ->
  let out := handleSave B c (start w c) in
  let r := exec (handleSave B c) w c in
  let write_config :=
    Invoke (str "write_config") (VObj [(str "content", VStr configText)]) in
  let write_secrets :=
    Invoke (str "write_secrets") (VObj [(str "content", VStr secretsText)]) in
  let report := ConsoleError (str "Failed to save configuration:") in
  (forall w1 e,
     on_invoke B w (str "write_config") (VObj [(str "content", VStr configText)])
       = (w1, inl e) ->
     calls r = [write_config; report e] /\
     world r = w1 /\
     state r = failed (str "Failed to save configuration: ") e
                 (written_through c cfg' sec' c) /\
     snd out = after_report e)
  /\
  (forall w1 w2 done e,
     on_invoke B w (str "write_config") (VObj [(str "content", VStr configText)])
       = (w1, inr done) ->
     on_invoke B w1 (str "write_secrets") (VObj [(str "content", VStr secretsText)])
       = (w2, inl e) ->
     calls r = [write_config; write_secrets; report e] /\
     world r = w2 /\
     state r = failed (str "Failed to save configuration: ") e
                 (written_through c cfg' sec' c) /\
     snd out = after_report e).
Proof.
  intros Htc Hts Huc Hus Hd1 Hd2. cbv zeta. unfold exec.
  rewrite (@handleSave_after_builds _ _ B c c w cfg' sec' Htc Hts Huc Hus).
  unfold failed, after_report. split.
  - intros w1 e H1.
    unfold finally, try_catch, bind, invoke, record, lift, set, console_error.
    cbn [world state log fst snd].
    rewrite Hd1. cbn [world state log fst snd]. rewrite H1.
    cbn [world state log fst snd].
    destruct (exn_to_string e); repeat split.
  - intros w1 w2 done e H1 H2.
    unfold finally, try_catch, bind, invoke, record, lift, set, console_error.
    cbn [world state log fst snd].
    rewrite Hd1. cbn [world state log fst snd]. rewrite H1.
    cbn [world state log fst snd]. rewrite Hd2. cbn [world state log fst snd].
    rewrite H2. cbn [world state log fst snd].
    destruct (exn_to_string e); repeat split.
Qed.

Lemma build_config_keeps_status (c : State) :
  keeps statusMsg (build_config (W := W) c).
Proof.
  unfold build_config, write_server_key, writing. cbv zeta. frame.
Qed.

Lemma build_secrets_keeps_status (c : State) :
  keeps statusMsg (build_secrets (W := W) c).
Proof.
  unfold build_secrets, writing. cbv zeta. frame.
Qed.

(** X20.  Neither a load nor a save ever leaves the panel loading, and
    neither ever ends with a success message on screen: the message
    [handleSave] sets after its two writes is cleared by the reload that
    follows, so what is left is no message or an error.  Each of them
    returns, with one exception: when what its [catch] block caught cannot
    be converted to a string, the handler throws the TypeError of that
    conversion and no message is set. *)
Theorem handleSave_never_ends_on_success_message (c s : State) (w : W) :
  let saved := handleSave B c (start w s) in
  let loaded := loadConfiguration B (start w s) in
  ((snd saved = inr tt \/
    exists object,
      snd saved = inl (raise (NotPrimitive object)) /\
      statusMsg (state (fst saved)) = None) /\
   isLoading (state (fst saved)) = false /\
   no_success (statusMsg (state (fst saved))))
  /\
  ((snd loaded = inr tt \/
    exists object,
      snd loaded = inl (raise (NotPrimitive object)) /\
      statusMsg (state (fst loaded)) = None) /\
   isLoading (state (fst loaded)) = false /\
   no_success (statusMsg (state (fst loaded)))).
Proof.
  cbv zeta. split; [| apply loadConfiguration_settles].
  assert (Hcatch : forall (r1 : Run W State) (e : exn),
             statusMsg (state r1) = None ->
             let out :=
               finally
                 (fun r0 : Run W State =>
                    (console_error (str "Failed to save configuration:") e ;;
                     shown <- lift (exn_to_string e) ;;
                     set (setStatusMsg
                            (Some {| type := error;
                                     text := str "Failed to save configuration: "
                                             ++ shown |}))) r0)
                 (set (setIsLoading false)) r1 in
             (snd out = inr tt \/
              exists object,
                snd out = inl (raise (NotPrimitive object)) /\
                statusMsg (state (fst out)) = None) /\
             isLoading (state (fst out)) = false /\
             no_success (statusMsg (state (fst out)))).
  { intros r1 e Hnone. cbv zeta.
    unfold finally, bind, console_error, set, lift, record.
    cbn [fst snd world state log].
    destruct (exn_to_string e) as [thrown | shown] eqn:E;
      cbn [fst snd world state log].
    - destruct e as [name message | v]; [discriminate E |].
      destruct (ToString_fault _ E) as [object ->].
      split; [right; exists object; split; [reflexivity | exact Hnone] |].
      split; [reflexivity |]. left. exact Hnone.
    - split; [now left |]. split; [reflexivity |]. right. eexists. reflexivity. }
  remember (handleSave B c (start w s)) as out eqn:Eout.
  unfold handleSave in Eout.
  unfold bind at 1 in Eout. unfold set at 1 in Eout.
  unfold bind at 1 in Eout. unfold set at 1 in Eout.
  cbn [world state log start] in Eout.
  destruct (negb (truthy (config c)) || negb (truthy (secrets c))).
  - unfold finally, try_catch, ret, set in Eout. cbn in Eout. subst out. cbn.
    split; [now left |]. split; [reflexivity |]. now left.
  - unfold finally at 1 in Eout. unfold try_catch at 1 in Eout.
    unfold bind at 1 in Eout.
    match type of Eout with
    | context [build_config c ?r0] =>
        pose proof (build_config_keeps_status c r0) as K1;
        destruct (build_config c r0) as [r1 [e1 | newConfig]]
    end; cbn [fst snd state] in K1.
    { specialize (Hcatch r1 e1 K1). cbv zeta in Hcatch.
      unfold finally in Hcatch. rewrite Eout. exact Hcatch. }
    unfold bind at 1 in Eout.
    match type of Eout with
    | context [build_secrets c ?r0] =>
        pose proof (build_secrets_keeps_status c r0) as K2;
        destruct (build_secrets c r0) as [r2 [e2 | newSecrets]]
    end; cbn [fst snd state] in K2; rewrite K1 in K2.
    { specialize (Hcatch r2 e2 K2). cbv zeta in Hcatch.
      unfold finally in Hcatch. rewrite Eout. exact Hcatch. }
    destruct r2 as [w2 s2 l2]. cbn [state] in K2.
    unfold bind at 1 in Eout. unfold lift at 1 in Eout.
    destruct (yaml_dump newConfig) as [e3 | configText].
    { specialize (Hcatch {| world := w2; state := s2; log := l2 |} e3 K2).
      cbv zeta in Hcatch. unfold finally in Hcatch. rewrite Eout. exact Hcatch. }
    unfold bind at 1 in Eout. unfold invoke at 1 in Eout. unfold record in Eout.
    cbn [world state log] in Eout.
    destruct (on_invoke B w2 (str "write_config") _) as [w3 [e4 | done1]].
    { match type of Eout with
      | context [{| world := w3; state := ?st; log := ?lg |}] =>
          specialize (Hcatch {| world := w3; state := st; log := lg |} e4 K2)
      end.
      cbv zeta in Hcatch. unfold finally in Hcatch. rewrite Eout. exact Hcatch. }
    unfold bind at 1 in Eout. unfold lift at 1 in Eout.
    destruct (yaml_dump newSecrets) as [e5 | secretsText].
    { match type of Eout with
      | context [{| world := w3; state := ?st; log := ?lg |}] =>
          specialize (Hcatch {| world := w3; state := st; log := lg |} e5 K2)
      end.
      cbv zeta in Hcatch. unfold finally in Hcatch. rewrite Eout. exact Hcatch. }
    unfold bind at 1 in Eout. unfold invoke at 1 in Eout. unfold record in Eout.
    cbn [world state log] in Eout.
    destruct (on_invoke B w3 (str "write_secrets") _) as [w4 [e6 | done2]].
    { match type of Eout with
      | context [{| world := w4; state := ?st; log := ?lg |}] =>
          specialize (Hcatch {| world := w4; state := st; log := lg |} e6 K2)
      end.
      cbv zeta in Hcatch. unfold finally in Hcatch. rewrite Eout. exact Hcatch. }
    unfold bind at 1 in Eout. unfold set at 1 in Eout. cbn [world state log] in Eout.
    match type of Eout with
    | context [loadConfiguration B ?r0] =>
        destruct (loadConfiguration_settles r0) as (R1 & R2 & R3);
        destruct (loadConfiguration B r0) as [r' res]
    end.
    cbn [fst snd] in R1, R2, R3.
    destruct R1 as [-> | (object & -> & Rnone)].
    + unfold set in Eout. cbn [fst snd world state log] in Eout. subst out.
      cbn [fst snd world state log isLoading statusMsg setIsLoading].
      split; [now left |]. split; [reflexivity |]. exact R3.
    + specialize (Hcatch r' (raise (NotPrimitive object)) Rnone).
      cbv zeta in Hcatch. unfold finally in Hcatch. rewrite Eout. exact Hcatch.
Qed.

(** *** Reset *)

Lemma populated_twice (cfg sec : value) (s : State) :
  populated cfg sec (populated cfg sec s) = populated cfg sec s.
Proof.
  unfold populated. cbn [activeTab braveKey bochaKey].
  destruct (truthy (server_key cfg (str "brave") (str "BRAVE_API_KEY")));
    destruct (truthy (server_key cfg (str "bocha-mcp") (str "BOCHA_API_KEY")));
    reflexivity.
Qed.

(** X21.  Reset (a load) is idempotent, and it undoes an edit that was not
    saved: with both files readable and holding documents, loading again
    after changing any field but the two search keys gives the panel the
    first load gave.  A search key is the exception: when the document has
    none for that server, the key typed into the panel outlives the
    reset. *)
Theorem loadConfiguration_twice_is_once
    (s : State) (w : W) (content1 content2 cfg sec : value) :
  on_invoke B w (str "read_config") VUndef = (w, inr content1) ->
  yaml_load_value content1 = inr cfg ->
  on_invoke B w (str "read_secrets") VUndef = (w, inr content2) ->
  yaml_load_value content2 = inr sec ->
  nullish cfg = false ->
  nullish sec = false ->
  let once := exec (loadConfiguration B) w s in
  let again (s' : State) := exec (loadConfiguration B) w s' in
  state once = populated cfg sec s /\
  world once = w /\
  state (again (state once)) = state once /\
  (forall f x, f <> BraveKey -> f <> BochaKey ->
     state (again (edit f x (state once))) = state once) /\
  (forall x,
     truthy (server_key cfg (str "brave") (str "BRAVE_API_KEY")) = false ->
     braveKey (state (again (edit BraveKey x (state once)))) = x) /\
  (forall x,
     truthy (server_key cfg (str "bocha-mcp") (str "BOCHA_API_KEY")) = false ->
     bochaKey (state (again (edit BochaKey x (state once)))) = x).
Proof.
  intros H1 Hy1 H2 Hy2 Hc Hs. cbv zeta.
  assert (L : forall s', state (exec (loadConfiguration B) w s') = populated cfg sec s'
                         /\ world (exec (loadConfiguration B) w s') = w).
  { intro s'. unfold exec.
    destruct (@loadConfiguration_loads (start w s') w w content1 content2 cfg sec)
      as (_ & Lw & Lst & _); try assumption.
    split; assumption. }
  destruct (L s) as [E Ew]. rewrite E.
  split; [reflexivity |]. split; [exact Ew |].
  split; [rewrite (proj1 (L _)); apply populated_twice |].
  split; [| split].
  - intros f x Hb Hbo. rewrite (proj1 (L _)).
    unfold populated.
    destruct f; try (now elim Hb); try (now elim Hbo);
      cbn [edit activeTab braveKey bochaKey setOpenaiKey setOpenaiBaseUrl
           setAnthropicKey setSearchServer setDocSegEnabled setDocSegThreshold
           setDefaultModel];
      destruct (truthy (server_key cfg (str "brave") (str "BRAVE_API_KEY")));
      destruct (truthy (server_key cfg (str "bocha-mcp") (str "BOCHA_API_KEY")));
      reflexivity.
  - intros x Hk. rewrite (proj1 (L _)). unfold populated. cbn [braveKey].
    rewrite Hk. reflexivity.
  - intros x Hk. rewrite (proj1 (L _)). unfold populated. cbn [bochaKey].
    rewrite Hk. reflexivity.
Qed.

End WithBackend.

Section WithRuntime.
Context {RT : Runtime}.
Local Open Scope result_scope.

(** *** Keys *)

Lemma put_keys (k : jsstring) (v : value) (fs : list (jsstring * value)) :
  map fst (put k v fs) =
  map fst fs ++ match assoc k fs with Some _ => [] | None => [k] end.
Proof.
  induction fs as [| [k' v'] fs IH]; [reflexivity |].
  simpl. destruct (jsstring_eqb k k') eqn:E; simpl.
  - now rewrite app_nil_r.
  - now rewrite IH.
Qed.

Lemma assoc_none_keys (k : jsstring) (fs : list (jsstring * value)) :
  assoc k fs = None -> ~ In k (map fst fs).
Proof.
  induction fs as [| [k' v'] fs IH]; simpl; [tauto |].
  destruct (jsstring_eqb k k') eqn:E; [discriminate |].
  intros H [Hk | Hk]; [| now apply IH].
  subst k'. now rewrite jsstring_eqb_refl in E.
Qed.

Lemma extends_refl (added : list jsstring) (d : value) :
  is_object d = true -> extends_keys added d d.
Proof.
  intro H. split; [exact H |]. split; [exact H |].
  exists []. rewrite app_nil_r. split; [reflexivity |]. split; [intros x [] | auto].
Qed.

Lemma extends_trans (added : list jsstring) (d d1 d2 : value) :
  extends_keys added d d1 -> extends_keys added d1 d2 -> extends_keys added d d2.
Proof.
  intros (Hd & _ & e1 & K1 & I1 & N1) (_ & Hd2 & e2 & K2 & I2 & N2).
  split; [exact Hd |]. split; [exact Hd2 |].
  exists (e1 ++ e2). split; [now rewrite K2, K1, app_assoc |].
  split; [now apply incl_app | auto].
Qed.

(** A write through a mapping keeps the mapping's keys where they are;
    the key written is appended if it was not there. *)
Lemma assign_extends (added : list jsstring) (k : jsstring) (rest : path)
    (v d d' : value) :
  is_object d = true ->
  In k added \/ lookup [k] d <> None ->
  assign (k :: rest) v d = inr d' ->
  extends_keys added d d'.
Proof.
  intros Hd Hk Ha. destruct d as [| | | | | | fs]; try discriminate Hd.
  cbn [assign] in Ha.
  destruct (assign rest v match assoc k fs with Some c => c | None => VUndef end)
    as [e | child]; [discriminate |].
  cbn [and_then] in Ha. injection Ha as <-.
  split; [reflexivity |]. split; [reflexivity |].
  cbn [keys]. rewrite put_keys.
  destruct (assoc k fs) as [c |] eqn:E.
  - exists []. split; [reflexivity |]. split; [intros x [] |].
    now rewrite app_nil_r.
  - exists [k]. split; [reflexivity |]. split.
    + intros x [<- | []]. destruct Hk as [Hk | Hk]; [exact Hk |].
      exfalso. apply Hk. cbn [lookup]. now rewrite E.
    + intro Hno. apply NoDup_app; [exact Hno | repeat constructor; intros [] |].
      intros x Hx [<- | []]. now apply (assoc_none_keys _ _ E).
Qed.

Lemma ensure_extends (added : list jsstring) (sec : jsstring) (fresh d d' : value) :
  is_object d = true ->
  In sec added ->
  (if negb (truthy (opt_get d sec)) then assign [sec] fresh d else inr d) = inr d' ->
  extends_keys added d d'.
Proof.
  intros Hd Hin H. destruct (negb (truthy (opt_get d sec))).
  - eapply assign_extends; [exact Hd | left; exact Hin | exact H].
  - injection H as <-. now apply extends_refl.
Qed.

Lemma extends_object (added : list jsstring) (d d' : value) :
  extends_keys added d d' -> is_object d' = true.
Proof. now intros (_ & H & _). Qed.

Ltac chain H d E :=
  match type of H with
  | and_then ?m _ = inr _ =>
      destruct m as [? | d] eqn:E; [discriminate H |]; cbn [and_then] in H
  end.

Ltac written :=
  eapply assign_extends;
  [ eapply extends_object; eassumption | | eassumption ];
  left; assumption.

Lemma write_segmentation_extends (added : list jsstring) (c : State) (d d' : value) :
  is_object d = true ->
  In (str "document_segmentation") added ->
  write_segmentation c d = inr d' -> extends_keys added d d'.
Proof.
  intros Hd Hin H. unfold write_segmentation in H. chain H d1 E1. chain H d2 E2.
  chain H threshold E3.
  assert (X1 : extends_keys added d d1) by (eapply ensure_extends; eassumption).
  assert (X2 : extends_keys added d1 d2) by written.
  assert (X3 : extends_keys added d2 d') by written.
  exact (extends_trans X1 (extends_trans X2 X3)).
Qed.

Lemma write_model_extends (added : list jsstring) (c : State) (d d' : value) :
  is_object d = true ->
  In (str "openai") added ->
  write_model c d = inr d' -> extends_keys added d d'.
Proof.
  intros Hd Hin H. unfold write_model in H. chain H d1 E1.
  assert (X1 : extends_keys added d d1) by (eapply ensure_extends; eassumption).
  assert (X2 : extends_keys added d1 d') by written.
  exact (extends_trans X1 X2).
Qed.

Lemma truthy_server_has_mcp (d : value) (name : jsstring) :
  truthy (opt_get (opt_get (opt_get d (str "mcp")) (str "servers")) name) = true ->
  lookup [str "mcp"] d <> None.
Proof.
  intro H. destruct d as [| | | | | | fs]; try discriminate H.
  cbn [lookup]. cbn [opt_get] in H.
  destruct (assoc (str "mcp") fs); [discriminate |]. discriminate H.
Qed.

Lemma assoc_some_keys (k : jsstring) (fs : list (jsstring * value)) :
  assoc k fs <> None -> In k (map fst fs).
Proof.
  induction fs as [| [k0 v0] fs IH]; simpl; [intro H; now elim H |].
  destruct (jsstring_eqb k k0) eqn:E0; intro H.
  - left. symmetry. now apply jsstring_eqb_eq.
  - right. now apply IH.
Qed.

Lemma extends_keeps_key (added : list jsstring) (k : jsstring) (d d' : value) :
  extends_keys added d d' -> lookup [k] d <> None -> lookup [k] d' <> None.
Proof.
  intros (Hd & Hd' & extra & K & _) Hk.
  destruct d as [| | | | | | fs]; try discriminate Hd.
  destruct d' as [| | | | | | fs']; try discriminate Hd'.
  cbn [keys] in K. cbn [lookup] in Hk |- *.
  destruct (assoc k fs') eqn:A'; [discriminate |].
  exfalso. apply (assoc_none_keys _ _ A'). rewrite K. apply in_or_app. left.
  apply assoc_some_keys. intro A. now rewrite A in Hk.
Qed.

Lemma update_server_key_extends (added : list jsstring) (name key : jsstring)
    (x d d' : value) :
  is_object d = true ->
  update_server_key name key x d = inr d' -> extends_keys added d d'.
Proof.
  intros Hd H. unfold update_server_key in H.
  destruct (truthy (opt_get (opt_get (opt_get d (str "mcp")) (str "servers")) name))
    eqn:Ht.
  - apply truthy_server_has_mcp in Ht. chain H d1 E1.
    assert (X1 : extends_keys added d d1).
    { destruct (negb (truthy (opt_get
                 (opt_get (opt_get (opt_get d (str "mcp")) (str "servers")) name)
                 (str "env")))).
      - eapply assign_extends; [exact Hd | right; exact Ht | exact E1].
      - injection E1 as <-. now apply extends_refl. }
    assert (Hv : lookup [str "mcp"] d1 <> None)
      by (eapply extends_keeps_key; eassumption).
    assert (X2 : extends_keys added d1 d').
    { eapply assign_extends;
        [eapply extends_object; eassumption | right; exact Hv | exact H]. }
    exact (extends_trans X1 X2).
  - injection H as <-. now apply extends_refl.
Qed.

Lemma spread_object (v : value) : is_object (spread v) = true.
Proof. destruct v; reflexivity. Qed.

Lemma updatedConfig_extends (c : State) (cfg' : value) :
  updatedConfig c = inr cfg' ->
  extends_keys [str "default_search_server"; str "document_segmentation"; str "openai"]
    (spread (config c)) cfg'.
Proof.
  intro H. unfold updatedConfig in H.
  chain H d1 E1. chain H d2 E2. chain H d3 E3. chain H d4 E4.
  set (added := [str "default_search_server"; str "document_segmentation";
                 str "openai"]).
  assert (I1 : In (str "default_search_server") added) by (left; reflexivity).
  assert (I2 : In (str "document_segmentation") added) by (right; left; reflexivity).
  assert (I3 : In (str "openai") added) by (right; right; left; reflexivity).
  assert (X1 : extends_keys added (spread (config c)) d1).
  { eapply assign_extends; [apply spread_object | left; exact I1 | exact E1]. }
  assert (X2 : extends_keys added d1 d2).
  { eapply write_segmentation_extends;
      [eapply extends_object; eassumption | exact I2 | exact E2]. }
  assert (X3 : extends_keys added d2 d3).
  { eapply write_model_extends;
      [eapply extends_object; eassumption | exact I3 | exact E3]. }
  assert (X4 : extends_keys added d3 d4).
  { eapply update_server_key_extends; [eapply extends_object; eassumption | exact E4]. }
  assert (X5 : extends_keys added d4 cfg').
  { eapply update_server_key_extends; [eapply extends_object; eassumption | exact H]. }
  exact (extends_trans X1 (extends_trans X2 (extends_trans X3 (extends_trans X4 X5)))).
Qed.

Lemma updatedSecrets_extends (c : State) (sec' : value) :
  updatedSecrets c = inr sec' ->
  extends_keys [str "openai"; str "anthropic"] (spread (secrets c)) sec'.
Proof.
  intro H. unfold updatedSecrets in H. chain H d3 E.
  set (added := [str "openai"; str "anthropic"]).
  assert (Ho : In (str "openai") added) by (left; reflexivity).
  assert (Ha : In (str "anthropic") added) by (right; left; reflexivity).
  assert (X1 : extends_keys added (spread (secrets c)) d3).
  { unfold write_openai_secrets in E. chain E d1 E1. chain E d2 E2.
    assert (Y1 : extends_keys added (spread (secrets c)) d1).
    { eapply ensure_extends; [apply spread_object | exact Ho | exact E1]. }
    assert (Y2 : extends_keys added d1 d2) by written.
    assert (Y3 : extends_keys added d2 d3) by written.
    exact (extends_trans Y1 (extends_trans Y2 Y3)). }
  assert (X2 : extends_keys added d3 sec').
  { unfold write_anthropic_secrets in H. chain H d4 E4.
    assert (Y1 : extends_keys added d3 d4).
    { eapply ensure_extends; [eapply extends_object; eassumption | exact Ha | exact E4]. }
    assert (Y2 : extends_keys added d4 sec') by written.
    exact (extends_trans Y1 Y2). }
  exact (extends_trans X1 X2).
Qed.

(** X22.  A save never reorders or drops the top-level keys of a document.
    The config it dumps is a mapping that starts with the keys of the
    loaded config, in their order, and can only go on with
    [default_search_server], [document_segmentation] and [openai] when
    they were missing; the secrets likewise, with [openai] and
    [anthropic].  No key comes twice. *)
Theorem handleSave_keeps_key_order (c : State) :
  (forall top cfg',
     config c = VObj top ->
     updatedConfig c = inr cfg' ->
     exists top' extra,
       cfg' = VObj top' /\
       map fst top' = map fst top ++ extra /\
       incl extra [str "default_search_server"; str "document_segmentation";
                   str "openai"] /\
       (NoDup (map fst top) -> NoDup (map fst top')))
  /\
  (forall top sec',
     secrets c = VObj top ->
     updatedSecrets c = inr sec' ->
     exists top' extra,
       sec' = VObj top' /\
       map fst top' = map fst top ++ extra /\
       incl extra [str "openai"; str "anthropic"] /\
       (NoDup (map fst top) -> NoDup (map fst top'))).
Proof.
  split; intros top d' Hdoc H.
  - apply updatedConfig_extends in H. rewrite Hdoc in H.
    destruct H as (_ & Hobj & extra & K & I & N).
    destruct d' as [| | | | | | top']; try discriminate Hobj.
    exists top', extra. repeat split; assumption.
  - apply updatedSecrets_extends in H. rewrite Hdoc in H.
    destruct H as (_ & Hobj & extra & K & I & N).
    destruct d' as [| | | | | | top']; try discriminate Hobj.
    exists top', extra. repeat split; assumption.
Qed.

Lemma updatedConfig_converts (c : State) (cfg' : value) :
  updatedConfig c = inr cfg' -> exists n, ToNumber (docSegThreshold c) = inr n.
Proof.
  intro H. unfold updatedConfig in H. chain H d1 E1.
  unfold write_segmentation in H.
  destruct (ToNumber (docSegThreshold c)) as [e | n]; [| now exists n].
  exfalso. revert H.
  repeat match goal with
    | |- context [and_then ?m _] =>
        match m with
        | context [and_then] => fail 1
        | _ => destruct m as [? | ?]; cbn [and_then]
        end
    end; discriminate.
Qed.

(** X23.  A search key typed for a server the config does not define is
    not saved: with no [mcp.servers.brave] (or [bocha-mcp]) block to put
    it in, the config that is dumped has no key at that place, whatever
    the panel holds, and nothing tells the user.  The config is built
    whenever the threshold cell converts to a number. *)
Theorem handleSave_drops_key_of_missing_server (c : State) (cfg : value) (f : field) :
  config c = cfg ->
  is_object cfg = true ->
  section_shape (str "document_segmentation") cfg ->
  section_shape (str "openai") cfg ->
  server_shape (str "brave") cfg ->
  server_shape (str "bocha-mcp") cfg ->
  has_place f cfg = false ->
  (f = BraveKey \/ f = BochaKey) /\
  (forall n, ToNumber (docSegThreshold c) = inr n ->
             exists cfg', updatedConfig c = inr cfg') /\
  (forall cfg',
     updatedConfig c = inr cfg' ->
     lookup (field_path f) cfg' = None /\
     lookup (firstn 3 (field_path f)) cfg' = lookup (firstn 3 (field_path f)) cfg).
Proof.
  intros Hc Hobj S1 S2 S3 S4 Hplace.
  assert (Hf : f = BraveKey \/ f = BochaKey)
    by (destruct f; try discriminate Hplace; auto).
  split; [exact Hf |].
  split.
  { intros n Hn.
    destruct (@updatedConfig_writes _ c cfg n Hc Hn Hobj S1 S2 S3 S4)
      as (cfg' & Hu & _).
    now exists cfg'. }
  intros cfg1 Hu1.
  destruct (updatedConfig_converts _ Hu1) as [n Hn].
  destruct (@updatedConfig_writes _ c cfg n Hc Hn Hobj S1 S2 S3 S4)
    as (cfg' & Hu & _ & _ & Hframe).
  rewrite Hu in Hu1. injection Hu1 as <-.
  assert (Hnone : lookup (field_path f) cfg = None).
  { destruct Hf as [-> | ->]; cbn [has_place] in Hplace.
    - change (field_path BraveKey)
        with ([str "mcp"; str "servers"; str "brave"] ++ [str "env"; str "BRAVE_API_KEY"]).
      rewrite lookup_app. pose proof (server_of_lookup cfg (str "brave")) as E.
      destruct (lookup [str "mcp"; str "servers"; str "brave"] cfg) as [v |];
        [| reflexivity].
      rewrite E in Hplace. destruct v; try discriminate Hplace; reflexivity.
    - change (field_path BochaKey)
        with ([str "mcp"; str "servers"; str "bocha-mcp"]
              ++ [str "env"; str "BOCHA_API_KEY"]).
      rewrite lookup_app. pose proof (server_of_lookup cfg (str "bocha-mcp")) as E.
      destruct (lookup [str "mcp"; str "servers"; str "bocha-mcp"] cfg) as [v |];
        [| reflexivity].
      rewrite E in Hplace. destruct v; try discriminate Hplace; reflexivity. }
  split.
  - rewrite <- Hnone. apply Hframe. intros g x Hin.
    destruct Hf as [-> | ->]; rewrite Hplace in Hin;
      destruct (has_place BochaKey cfg); destruct (has_place BraveKey cfg);
      try discriminate Hplace;
      cbn [app] in Hin; repeat (destruct Hin as [Hin | Hin];
        [injection Hin as <- _; reflexivity |]); contradiction.
  - apply Hframe. intros g x Hin.
    destruct Hf as [-> | ->]; rewrite Hplace in Hin;
      destruct (has_place BochaKey cfg); destruct (has_place BraveKey cfg);
      try discriminate Hplace;
      cbn [app] in Hin; repeat (destruct Hin as [Hin | Hin];
        [injection Hin as <- _; reflexivity |]); contradiction.
Qed.

End WithRuntime.

End SettingsMore.

(** ** ProcessingHistory.tsx and SystemDiagnostics.tsx *)

Module HistoryMore.
Import JS Handler ProcessingHistory JSFacts.
Local Open Scope handler_scope.

Section WithRuntime.
Context {RT : Runtime}.

Lemma count_status_cons (status : jsstring) (h : value) (rest : list value) (n : nat) :
  count_status status (h :: rest) = inr n ->
  exists found m,
    get_prop h (str "status") = inr found /\
    count_status status rest = inr m /\
    n = if is_string found status then S m else m.
Proof.
  cbn [count_status]. unfold has_status.
  destruct (get_prop h (str "status")) as [e | found]; [discriminate |].
  cbn [and_then].
  destruct (count_status status rest) as [e | m]; [discriminate |].
  cbn [and_then]. intro H. injection H as <-. now exists found, m.
Qed.

Lemma not_both (found : value) :
  is_string found (str "success") = true ->
  is_string found (str "error") = true -> False.
Proof.
  destruct found; try discriminate. cbn [is_string]. intros H1 H2.
  apply jsstring_eqb_eq in H1. subst s. discriminate H2.
Qed.

(** X24.  The statistics row of the history never counts an entry twice:
    successful plus failed is at most the total, which is the number of
    entries, and the two add up to the total exactly when every entry's
    status is ['success'] or ['error'] (an entry still processing, or
    with a status the panel does not know, is in neither count). *)
Theorem stats_count_within_total (entries : list value) (total successful failed : nat) :
  stats entries = inr (total, successful, failed) ->
  total = List.length entries /\
  successful + failed <= total /\
  (successful + failed = total <->
   forall h, In h entries ->
     exists found,
       get_prop h (str "status") = inr found /\
       (is_string found (str "success") = true \/ is_string found (str "error") = true)).
Proof.
  unfold stats.
  destruct (count_status (str "success") entries) as [e | ok] eqn:Eok; [discriminate |].
  destruct (count_status (str "error") entries) as [e | bad] eqn:Ebad; [discriminate |].
  cbn [and_then]. intro H. injection H as <- <- <-.
  split; [reflexivity |].
  revert ok bad Eok Ebad.
  induction entries as [| h rest IH]; intros ok bad Eok Ebad.
  - cbn in Eok, Ebad. injection Eok as <-. injection Ebad as <-.
    split; [simpl; lia |]. split; [intros _ h [] | reflexivity].
  - apply count_status_cons in Eok as (f1 & m1 & G1 & C1 & ->).
    apply count_status_cons in Ebad as (f2 & m2 & G2 & C2 & ->).
    rewrite G1 in G2. injection G2 as <-.
    destruct (IH m1 m2 C1 C2) as [Hle Hiff].
    cbn [List.length].
    destruct (is_string f1 (str "success")) eqn:S1;
      destruct (is_string f1 (str "error")) eqn:S2.
    + exfalso. now apply (not_both f1).
    + split; [lia |]. split.
      * intros Hsum h' [<- | Hin].
        -- exists f1. split; [exact G1 | now left].
        -- apply Hiff; [lia | exact Hin].
      * intro Hall. assert (m1 + m2 = List.length rest).
        { apply Hiff. intros h' Hin. apply Hall. now right. }
        lia.
    + split; [lia |]. split.
      * intros Hsum h' [<- | Hin].
        -- exists f1. split; [exact G1 | now right].
        -- apply Hiff; [lia | exact Hin].
      * intro Hall. assert (m1 + m2 = List.length rest).
        { apply Hiff. intros h' Hin. apply Hall. now right. }
        lia.
    + split; [lia |]. split.
      * intro Hsum. lia.
      * intro Hall. exfalso.
        destruct (Hall h (or_introl eq_refl)) as (found & G & [Hs | He]);
          rewrite G1 in G; injection G as <-; congruence.
Qed.

End WithRuntime.

Section WithBackend.
Context {RT : Runtime} {W : Type}.
Variable B : Backend W.

(** X25.  The history panel keeps its list when the bridge fails.  A
    rejected load leaves the entries shown before and a rejected clear
    leaves them all; either failure only goes to the console, and the
    loading flag is cleared.  The list is emptied only by a clear that
    the user confirmed and the bridge accepted; a clear that is not
    confirmed calls nothing. *)
Theorem history_survives_bridge_failures (s : State) (w : W) :
  (forall w' e,
     on_invoke B w (str "get_processing_history") VUndef = (w', inl e) ->
     let r := exec (loadHistory B) w s in
     state r = setIsLoading false s /\
     history (state r) = history s /\
     calls r = [Invoke (str "get_processing_history") VUndef;
                ConsoleError (str "Failed to load processing history:") e])
  /\
  (forall w' response,
     on_invoke B w (str "get_processing_history") VUndef = (w', inr response) ->
     let r := exec (loadHistory B) w s in
     state r = setIsLoading false (setHistory response s) /\
     calls r = [Invoke (str "get_processing_history") VUndef])
  /\
  exec (handleClearHistory B false) w s = start w s
  /\
  (forall w' e,
     on_invoke B w (str "clear_processing_history") VUndef = (w', inl e) ->
     let r := exec (handleClearHistory B true) w s in
     state r = s /\
     calls r = [Invoke (str "clear_processing_history") VUndef;
                ConsoleError (str "Failed to clear history:") e])
  /\
  (forall w' done,
     on_invoke B w (str "clear_processing_history") VUndef = (w', inr done) ->
     let r := exec (handleClearHistory B true) w s in
     state r = setHistory (VArr []) s /\
     calls r = [Invoke (str "clear_processing_history") VUndef]).
Proof.
  assert (Hrun : forall m : M W State unit, exec m w s = fst (m (start w s)))
    by reflexivity.
  split; [| split; [| split; [reflexivity | split]]];
    intros w' x Hcall; cbv zeta; rewrite Hrun;
    unfold loadHistory, handleClearHistory, finally, try_catch, bind,
      invoke, console_error, set, record, start;
    cbn [world state log fst snd negb]; rewrite Hcall;
    destruct s; repeat split.
Qed.

End WithBackend.

End HistoryMore.

Module DiagnosticsMore.
Import JS Handler SystemDiagnostics JSFacts.
Local Open Scope handler_scope.

Section WithBackend.
Context {RT : Runtime} {W : Type}.
Variable B : Backend W.

(** X26.  A confirmed reset invokes [reset_application_state] twice in a
    row when the first call is accepted, and only then announces success
    and sets the 1.5 second timer for the reload; when the first call is
    rejected there is no second one, and when either is rejected no reload
    is scheduled and the banner reads "Failed to reset state: " followed
    by the rejection, unless the rejection cannot be converted to a
    string: then the banner is left as it was and the handler throws what
    the conversion threw.  A reset that is not confirmed calls nothing. *)
Theorem handleResetState_resets_twice (s : State) (w : W) :
  let reset := Invoke (str "reset_application_state") VUndef in
  handleResetState B false (start w s) = (start w s, inr None)
  /\
  (forall w1 w2 done1 done2,
     on_invoke B w (str "reset_application_state") VUndef = (w1, inr done1) ->
     on_invoke B w1 (str "reset_application_state") VUndef = (w2, inr done2) ->
     let out := handleResetState B true (start w s) in
     calls (fst out) = [reset; reset] /\
     snd out = inr (Some 1500%N) /\
     state (fst out) = setResetMessage (Some reset_done) s /\
     world (fst out) = w2)
  /\
  (forall w1 e,
     on_invoke B w (str "reset_application_state") VUndef = (w1, inl e) ->
     let out := handleResetState B true (start w s) in
     calls (fst out) = [reset] /\
     (forall text,
        exn_to_string e = inr text ->
        snd out = inr None /\
        state (fst out) =
          setResetMessage (Some (str "Failed to reset state: " ++ text)) s) /\
     (forall thrown,
        exn_to_string e = inl thrown ->
        snd out = inl thrown /\ state (fst out) = s))
  /\
  (forall w1 w2 done1 e,
     on_invoke B w (str "reset_application_state") VUndef = (w1, inr done1) ->
     on_invoke B w1 (str "reset_application_state") VUndef = (w2, inl e) ->
     let out := handleResetState B true (start w s) in
     calls (fst out) = [reset; reset] /\
     (forall text,
        exn_to_string e = inr text ->
        snd out = inr None /\
        state (fst out) =
          setResetMessage (Some (str "Failed to reset state: " ++ text)) s) /\
     (forall thrown,
        exn_to_string e = inl thrown ->
        snd out = inl thrown /\ state (fst out) = s)).
Proof.
  cbv zeta. split; [reflexivity |]. split; [| split].
  - intros w1 w2 done1 done2 H1 H2.
    unfold handleResetState, try_catch, bind, invoke, set, record, start, ret.
    cbn [world state log fst snd negb]. rewrite H1.
    cbn [world state log fst snd]. rewrite H2. repeat split.
  - intros w1 e H1.
    unfold handleResetState, try_catch, bind, invoke, set, lift, record, start, ret.
    cbn [world state log fst snd negb]. rewrite H1. cbn [world state log fst snd].
    destruct (exn_to_string e) as [thrown1 | text1];
      cbn [world state log fst snd];
      (split; [reflexivity |]);
      split; intros x Hx; try discriminate Hx; injection Hx as <-;
      split; reflexivity.
  - intros w1 w2 done1 e H1 H2.
    unfold handleResetState, try_catch, bind, invoke, set, lift, record, start, ret.
    cbn [world state log fst snd negb]. rewrite H1.
    cbn [world state log fst snd]. rewrite H2. cbn [world state log fst snd].
    destruct (exn_to_string e) as [thrown1 | text1];
      cbn [world state log fst snd];
      (split; [reflexivity |]);
      split; intros x Hx; try discriminate Hx; injection Hx as <-;
      split; reflexivity.
Qed.

End WithBackend.

(** X27.  The reset banner is styled by its text: it gets the success class
    exactly when the message contains "success".  The announcement of a
    reset does, and so does the report of a failed reset whenever the
    text of the rejection happens to contain that word. *)
Theorem reset_banner_is_styled_by_its_text (text : jsstring) :
  reset_message_class reset_done = str "reset-message success"
  /\ reset_message_class (str "Failed to reset state: " ++ text)
     = str "reset-message "
       ++ (if includes text (str "success") then str "success" else str "error")
  /\ (forall message,
        reset_message_class message = str "reset-message success"
        <-> includes message (str "success") = true).
Proof.
  split; [reflexivity |]. split; [reflexivity |].
  intro message. unfold reset_message_class.
  destruct (includes message (str "success")); split; intro H;
    try reflexivity; try discriminate H.
Qed.

End DiagnosticsMore.

(** ** The theorems at work on concrete runs *)

Module Examples.
Import JS Handler Fixtures.

(** A chat submission posts once; a file submission calls the bridge once. *)
Lemma handleSubmit_dispatches_once_witness :
  calls (exec (App.handleSubmit (RT := demoRuntime) okBackend chatState VUndef)
           tt chatState)
  = [Fetch (str "http://localhost:8000/process/text")
       {| method := str "POST";
          headers := [(str "Content-Type", str "application/json")];
          body := encode
                    (VObj [ (str "input_source", VStr (str "build a todo app"));
                            (str "input_type", VStr (str "chat"));
                            (str "enable_indexing", VBool true) ]) |}]
  /\
  calls (exec (App.handleSubmit (RT := demoRuntime) okBackend fileState VUndef)
           tt fileState)
  = [Invoke (str "process_file")
       (VObj [(str "filePath", VStr (str "/home/user/paper.pdf"))])].
Proof.
  split.
  - apply (proj1 (AppFacts.handleSubmit_dispatches_once (RT := demoRuntime)
                    okBackend chatState VUndef tt) (str "build a todo app")).
    + left. reflexivity.
    + reflexivity.
    + discriminate.
  - apply (proj2 (AppFacts.handleSubmit_dispatches_once (RT := demoRuntime)
                    okBackend fileState VUndef tt) paper); reflexivity.
Defined.

(** An empty text box and no file: only the alert. *)
Lemma handleSubmit_rejects_empty_input_witness :
  calls (exec (App.handleSubmit (RT := demoRuntime) okBackend App.initialState VUndef)
           tt App.initialState)
  = [Alert (str "Please provide an input.")]
  /\ App.taskStatus
       (state (exec (App.handleSubmit (RT := demoRuntime) okBackend
                       App.initialState VUndef) tt App.initialState))
     = App.Idle.
Proof.
  destruct (AppFacts.handleSubmit_rejects_empty_input (RT := demoRuntime)
              okBackend App.initialState VUndef tt (t := []))
    as (Hcalls & _ & _ & Hidle & _); try reflexivity.
  split; [exact Hcalls | exact Hidle].
Defined.

(** File type chosen, no file, text left in the box: the text is posted. *)
Lemma handleSubmit_file_type_falls_back_to_text_witness :
  calls (exec (App.handleSubmit (RT := demoRuntime) okBackend fileTypeWithText VUndef)
           tt fileTypeWithText)
  = [Fetch App.text_endpoint
       {| method := str "POST";
          headers := [(str "Content-Type", str "application/json")];
          body := encode
                    (VObj [ (str "input_source", VStr (str "notes on the paper"));
                            (str "input_type", VStr (str "file"));
                            (str "enable_indexing", VBool true) ]) |}].
Proof.
  apply (AppFacts.handleSubmit_file_type_falls_back_to_text (RT := demoRuntime)
           okBackend fileTypeWithText VUndef tt (t := str "notes on the paper"));
    try reflexivity.
  discriminate.
Defined.

(** A previous success is gone after a submission rejected for empty
    input, and the alert of that rejection was raised while the task was
    marked as processing, with no result. *)
Lemma handleSubmit_clears_previous_result_witness :
  let r := exec (App.handleSubmit (RT := demoRuntime) okBackend staleState VUndef)
             tt staleState in
  App.taskStatus (state r) = App.Idle
  /\ App.apiResult (state r) = VNull
  /\ exists call seen,
       log r = [(call, seen)]
       /\ App.taskStatus seen = App.Processing
       /\ App.apiResult seen = VNull.
Proof.
  destruct (AppFacts.handleSubmit_clears_previous_result
              (RT := demoRuntime) okBackend staleState VUndef tt)
    as (_ & _ & Hidle & Hcall).
  destruct (Hidle [] eq_refl eq_refl eq_refl) as [Hstatus Hresult].
  destruct (Hcall (or_intror (ex_intro _ [] eq_refl)))
    as (call & seen & Hlog & Hprocessing & Hnull & _).
  split; [exact Hstatus |]. split; [exact Hresult |].
  exists call, seen. split; [exact Hlog |]. split; [exact Hprocessing | exact Hnull].
Defined.

(** Progress 87 is shown as the seventh stage, index 6. *)
Lemma currentStep_is_floor_of_band_witness :
  App.currentStep (RT := demoRuntime)
    (App.setProgress (VNum (Fin 87)) App.initialState)
  = inr (Fin (inject_Z 6)).
Proof.
  destruct (AppFacts.currentStep_is_floor_of_band (RT := demoRuntime)
              (App.setProgress (VNum (Fin 87)) App.initialState) (p := 87))
    as ((k & Hk & Ek & _) & _).
  - discriminate.
  - discriminate.
  - reflexivity.
  - rewrite Hk, Ek. reflexivity.
Defined.

(** Seven characters after trimming are not enough. *)
Lemma handleInitialSubmit_rejects_short_requirement_witness :
  calls (exec (GuidedAnalysis.handleInitialSubmit (RT := demoRuntime) okBackend
                 shortIdea) tt shortIdea) = []
  /\ GuidedAnalysis.currentStep
       (state (exec (GuidedAnalysis.handleInitialSubmit (RT := demoRuntime) okBackend
                       shortIdea) tt shortIdea)) = GuidedAnalysis.Input
  /\ GuidedAnalysis.initialRequirement
       (state (exec (GuidedAnalysis.handleInitialSubmit (RT := demoRuntime) okBackend
                       shortIdea) tt shortIdea)) = str "  a bot  ".
Proof.
  destruct (GuidedAnalysisFacts.handleInitialSubmit_rejects_short_requirement
              (RT := demoRuntime) okBackend shortIdea tt)
    as (_ & Hstep & Hcalls & _ & Htext & _).
  - vm_compute. lia.
  - split; [exact Hcalls |]. split; [now apply Hstep | exact Htext].
Defined.



(** A bare success response shows the placeholder on the opening tab. *)
Lemma renderTabContent_shows_placeholders_witness :
  ResultsDisplay.renderTabContent (RT := demoRuntime)
    ResultsDisplay.initialTab okResponse
  = inr (ResultsDisplay.phase_panel (str "tab-content implementation-content")
           (str "Implementation Phase")
           [ResultsDisplay.Text (str "No implementation results available.")]).
Proof.
  assert (H := @ResultsDisplayFacts.renderTabContent_shows_placeholders
                 demoRuntime [(str "status", VStr (str "success"))]
                 eq_refl eq_refl eq_refl eq_refl).
  exact (proj1 (proj2 (proj2 (proj2 H)))).
Defined.

(** Saving a new OpenAI key keeps the unknown keys of both documents. *)
Example save_keeps_unknown_keys :
  Settings.lookup [str "openai"; str "api_key"]
    (Settings.secrets (state (saveNewKey demoConfig demoSecrets)))
  = Some (VStr (str "sk-new"))
  /\ Settings.lookup [str "document_segmentation"; str "size_threshold_chars"]
       (Settings.config (state (saveNewKey demoConfig demoSecrets)))
     = Some (VNum (Fin 80000))
  /\ Settings.lookup [str "openai"; str "base_max_tokens"]
       (Settings.config (state (saveNewKey demoConfig demoSecrets)))
     = Some (VNum (Fin 16384))
  /\ Settings.lookup [str "google"; str "api_key"]
       (Settings.secrets (state (saveNewKey demoConfig demoSecrets)))
     = Some (VStr (str "g-key")).
Proof.
  destruct (SettingsFacts.save_then_reload_keeps_documents (RT := demoRuntime)
              (storeOf demoConfig demoSecrets) Settings.initialState
              (cfg := demoConfig) (sec := demoSecrets)
              Settings.OpenaiKey (VStr (str "sk-new")))
    as (_ & _ & _ & Hnew & Hold & Hcfg & Hsec); try reflexivity.
  { intros d [H | H]; vm_compute in H; injection H as <-;
      eexists; split; vm_compute; reflexivity. }
  split; [exact Hnew |].
  split; [apply (Hold Settings.DocSegThreshold); [discriminate | reflexivity] |].
  split.
  - rewrite Hcfg; [reflexivity |]. intros [] Hhome; try discriminate Hhome;
      reflexivity.
  - rewrite Hsec; [reflexivity |]. intros [] Hhome; try discriminate Hhome;
      reflexivity.
Qed.

(** C3 at its failing inputs.  A threshold of zero is present in the
    loaded config; the load puts [0 || 50000] into the form, so saving
    after an edit of the OpenAI key alone writes 50000 in its place, and
    that is what the file holds and the reload shows.  And a threshold
    that is itself edited to zero is written as zero, but the reload that
    follows the save shows 50000 in the form, not the new value.  The
    stand-in YAML reads the documents back as they were written. *)
Lemma save_then_reload_resets_zero_threshold :
  let place := [str "document_segmentation"; str "size_threshold_chars"] in
  let before := zeroThresholdConfig in
  let after := Settings.config (state (saveNewKey zeroThresholdConfig demoSecrets)) in
  let loaded :=
    exec (Settings.loadConfiguration (RT := demoRuntime) Settings.bridge)
      (storeOf zeroThresholdConfig demoSecrets) Settings.initialState in
  let zeroed := saveZeroThreshold demoConfig demoSecrets in
  (yaml_load (Runtime := demoRuntime) (encode before) = inr before
   /\ Settings.config (state loaded) = before
   /\ Settings.docSegThreshold (state loaded) = VNum (Fin 50000)
   /\ yaml_load (Runtime := demoRuntime)
        (Settings.config_file (world (saveNewKey zeroThresholdConfig demoSecrets)))
      = inr after
   /\ Settings.config_kept before = false
   /\ place <> Settings.field_path Settings.OpenaiKey
   /\ Settings.lookup place before = Some (VNum (Fin 0))
   /\ Settings.lookup place after = Some (VNum (Fin 50000))
   /\ Settings.lookup place after <> Settings.lookup place before)
  /\
  (place = Settings.field_path Settings.DocSegThreshold
   /\ Settings.entered Settings.DocSegThreshold (VNum (Fin 0)) = true
   /\ yaml_load (Runtime := demoRuntime) (Settings.config_file (world zeroed))
      = inr (Settings.config (state zeroed))
   /\ Settings.lookup place (Settings.config (state zeroed)) = Some (VNum (Fin 0))
   /\ Settings.docSegThreshold (state zeroed) = VNum (Fin 50000)
   /\ Settings.statusMsg (state zeroed) = None).
Proof. vm_compute. repeat split; discriminate. Qed.

(** *** Further runs of the model *)

Example trim_strips_both_ends :
  trim (str "  a bot  ") = str "a bot"
  /\ trim ([9; 10; 160; 8232; 65279]%N ++ str "x" ++ [12288; 13]%N) = str "x"
  /\ trim (str "   ") = [].
Proof. repeat split; reflexivity. Qed.

Example last_segment_is_base_name :
  last_segment [] (str "out/src/main.py") = str "main.py"
  /\ last_segment [] (str "README.md") = str "README.md"
  /\ last_segment [] (str "dir/") = [].
Proof. repeat split; reflexivity. Qed.

(** A failed request ends in the error state with the error's message;
    a bridge rejection by a plain string has no [message] to show. *)
Example handleSubmit_failure_states :
  (let r := exec (App.handleSubmit (RT := demoRuntime) downBackend chatState VUndef)
              tt chatState in
   App.taskStatus (state r) = App.Error
   /\ App.apiResult (state r)
      = VObj [ (str "status", VStr (str "error"));
               (str "error", VStr (str "Failed to fetch")) ])
  /\
  (let r := exec (App.handleSubmit (RT := demoRuntime) downBackend fileState VUndef)
              tt fileState in
   App.taskStatus (state r) = App.Error
   /\ App.apiResult (state r)
      = VObj [ (str "status", VStr (str "error")); (str "error", VUndef) ]).
Proof. vm_compute. repeat split. Qed.

(** The Files tab lists the generated files by base name. *)
Example files_tab_lists_base_names :
  match ResultsDisplay.renderTabContent (RT := demoRuntime)
          ResultsDisplay.Files filesResponse with
  | inr node =>
      ResultsDisplay.text_content node
      = [ str "Generated Files";
          [55357; 56516]%N; str "main.py"; str "Download";
          [55357; 56516]%N; str "README.md"; str "Download" ]
  | inl _ => False
  end.
Proof. vm_compute. reflexivity. Qed.

(** The stage cards around stage 4: done before it, active at it,
    pending after it. *)
Example getStepClass_around_current :
  App.getStepClass (Fin (inject_Z 4)) (str "active") 3 = str "completed"
  /\ App.getStepClass (Fin (inject_Z 4)) (str "active") 4 = str "active"
  /\ App.getStepClass (Fin (inject_Z 4)) (str "active") 5 = str "pending".
Proof. vm_compute. repeat split. Qed.

(** A load does not clear a search key typed into the panel when the
    document's key is empty; the next save writes the typed key. *)
Example loadConfiguration_keeps_typed_search_key :
  let loaded :=
    exec (Settings.loadConfiguration (RT := demoRuntime) Settings.bridge)
      (storeOf emptyBraveKeyConfig demoSecrets) typedBraveKey in
  let saved :=
    exec (Settings.handleSave (RT := demoRuntime) Settings.bridge (state loaded))
      (world loaded) (state loaded) in
  Settings.braveKey (state loaded) = VStr (str "typed-key")
  /\ Settings.lookup (Settings.field_path Settings.BraveKey)
       (Settings.config (state saved)) = Some (VStr (str "typed-key")).
Proof. vm_compute. repeat split. Qed.

(** A successful save leaves no status message: the reload that follows
    clears it. *)
Example handleSave_success_message_is_cleared :
  Settings.statusMsg (state (saveNewKey demoConfig demoSecrets)) = None
  /\ Settings.isLoading (state (saveNewKey demoConfig demoSecrets)) = false.
Proof. vm_compute. repeat split. Qed.

End Examples.

(** ** Further theorems at work on concrete runs *)

Module MoreExamples.
Import JS Handler Fixtures MoreFixtures.

(** *** App *)

(** A 422 body without a status is stored as a success; a 500 error
    reply is reduced to its error text. *)
Lemma handleSubmit_stores_reply_witness :
  (let r := exec (App.handleSubmit (RT := demoRuntime) strictBackend chatState VUndef)
              tt chatState in
   App.taskStatus (state r) = App.Success /\ App.apiResult (state r) = VObj unprocessable)
  /\
  (let r := exec (App.handleSubmit (RT := demoRuntime) failingBackend chatState VUndef)
              tt chatState in
   App.taskStatus (state r) = App.Error /\
   App.apiResult (state r) = AppView.error_result (VStr (str "model unavailable"))).
Proof.
  split; cbv zeta.
  - destruct (@AppMore.handleSubmit_stores_reply demoRuntime unit strictBackend
                chatState VUndef tt tt (str "build a todo app")
                {| ok := false; json := inr (VObj unprocessable) |} unprocessable)
      as [Hok _]; try reflexivity.
    + left. discriminate.
    + discriminate.
    + exact (Hok eq_refl).
  - destruct (@AppMore.handleSubmit_stores_reply demoRuntime unit failingBackend
                chatState VUndef tt tt (str "build a todo app")
                {| ok := false; json := inr (VObj errorReply) |} errorReply)
      as [_ Herr]; try reflexivity.
    + left. discriminate.
    + discriminate.
    + destruct (Herr eq_refl) as (Hst & Hres & _).
      split; [exact Hst | exact (Hres (str "model unavailable") eq_refl)].
Defined.


Lemma appAfter_reachable (B : Backend unit) (events : list AppView.event) :
  forall s,
    AppView.reachable (RT := demoRuntime) B tt s ->
    appAllows B events s = true ->
    AppView.reachable (RT := demoRuntime) B tt (appAfter B events s).
Proof.
  induction events as [| e rest IH]; intros s Hs Hall; [exact Hs |].
  cbn [appAllows] in Hall. apply andb_prop in Hall as [He Hrest].
  cbn [appAfter]. apply IH; [| exact Hrest].
  pose proof (@AppView.reach_event demoRuntime unit B tt s e Hs He) as Hnext.
  destruct (world (exec (AppView.fire B e s) tt s)). exact Hnext.
Defined.

Lemma wizardAfter_reachable (B : Backend unit) (turns : list turn) :
  forall x : wizard,
    GuidedAnalysisView.reachable (RT := demoRuntime) B
      (fst (fst x)) (snd (fst x)) (snd x) ->
    wizardAllows B turns x = true ->
    GuidedAnalysisView.reachable (RT := demoRuntime) B
      (fst (fst (wizardAfter B turns x))) (snd (fst (wizardAfter B turns x)))
      (snd (wizardAfter B turns x)).
Proof.
  induction turns as [| t rest IH]; intros x Hx Hall; [exact Hx |].
  cbn [wizardAllows] in Hall. apply andb_prop in Hall as [Ht Hrest].
  cbn [wizardAfter]. apply IH; [| exact Hrest].
  destruct x as [[w s] pending]. cbn [fst snd] in Hx.
  destruct t as [e |]; cbn [wizardTurn turnAllowed] in *.
  - exact (@GuidedAnalysisView.reach_event demoRuntime unit B w s pending e Hx Ht).
  - destruct pending as [| [e outcome] others]; [discriminate Ht |].
    exact (@GuidedAnalysisView.reach_settled demoRuntime unit B w s [] others
             e outcome Hx).
Defined.

(** After typing and submitting, the result agrees with the status. *)
Lemma reachable_result_matches_status_witness :
  AppView.result_matches_status (RT := demoRuntime)
    (appAfter okBackend typedAndSubmitted App.initialState)
  /\ App.taskStatus (appAfter okBackend typedAndSubmitted App.initialState)
     = App.Success.
Proof.
  split; [| reflexivity].
  apply (@AppMore.reachable_result_matches_status demoRuntime unit okBackend tt).
  apply appAfter_reachable; [apply AppView.reach_initial | reflexivity].
Defined.

(** A file was chosen before the wizard was opened: completing the
    wizard still posts the requirements as chat. *)
Lemma guided_completion_posts_as_chat_witness :
  let s := appAfter okBackend wizardOverFile App.initialState in
  App.fileInput s = Some paper
  /\ calls (exec (AppView.fire (RT := demoRuntime) okBackend
                    (AppView.GuidedComplete (VStr (str "A web shop with login"))) s)
              tt s)
     = [Fetch App.text_endpoint
          {| method := str "POST";
             headers := [(str "Content-Type", str "application/json")];
             body := encode
                       (VObj [ (str "input_source", VStr (str "A web shop with login"));
                               (str "input_type", VStr (str "chat"));
                               (str "enable_indexing", VBool true) ]) |}].
Proof.
  cbv zeta. split; [reflexivity |].
  apply (@AppMore.guided_completion_posts_as_chat demoRuntime unit okBackend tt
           (appAfter okBackend wizardOverFile App.initialState)
           (str "A web shop with login")).
  - apply appAfter_reachable; [apply AppView.reach_initial | reflexivity].
  - reflexivity.
  - discriminate.
Defined.



(** *** The wizard *)

(** The third question gets an answer; the first keeps its own. *)
Lemma handleAnswerChange_sets_one_answer_witness :
  let r := exec (GuidedAnalysis.handleAnswerChange 2 (str "REST"))
             tt answering in
  GuidedAnalysisView.answer_at 2 (GuidedAnalysis.answers (state r)) = Some (str "REST")
  /\ GuidedAnalysisView.answer_at 0 (GuidedAnalysis.answers (state r))
     = Some (str "a web app")
  /\ GuidedAnalysisView.ascending (GuidedAnalysis.answers (state r)) = true.
Proof.
  cbv zeta.
  destruct (@GuidedAnalysisMore.handleAnswerChange_sets_one_answer unit answering tt
              2%nat (str "REST")) as (Hset & Hother & Hasc & _).
  split; [exact Hset |]. split.
  - rewrite Hother; [reflexivity | discriminate].
  - apply Hasc. reflexivity.
Defined.

(** Two of three answers are not blank; answering the blank one makes
    it three. *)
Lemma answered_counts_nonblank_answers_witness :
  GuidedAnalysisView.answered someAnswers = 2%nat
  /\ GuidedAnalysisView.answered (GuidedAnalysis.put_answer 2 (str "REST") someAnswers)
     = 3%nat
  /\ (GuidedAnalysisView.answered someAnswers <= 4)%nat.
Proof.
  destruct (@GuidedAnalysisMore.answered_counts_nonblank_answers someAnswers 2%nat
              (str "REST") eq_refl) as (Hstep & _ & Hbound).
  split; [reflexivity |]. split.
  - change (if GuidedAnalysisView.is_answered someAnswers 2 then 1 else 0)%nat
      with 0%nat in Hstep.
    change (GuidedAnalysisView.answered someAnswers) with 2%nat in Hstep.
    change (if jsstring_eqb (trim (str "REST")) [] then 0 else 1)%nat
      with 1%nat in Hstep.
    rewrite Nat.add_0_r in Hstep. exact Hstep.
  - apply Hbound. intros j y Hin. cbn in Hin.
    repeat (destruct Hin as [Hin | Hin]; [injection Hin as <- _; lia |]).
    contradiction.
Defined.

(** While editing, all four labels are lit. *)
Lemma renderProgressBar_lights_reached_steps_witness :
  map ProgressDisplay.class_name
    (ProgressDisplay.cards (GuidedAnalysisView.renderProgressBar editing))
  = repeat (str "progress-step active") 4.
Proof.
  exact (proj1 (GuidedAnalysisMore.renderProgressBar_lights_reached_steps editing)).
Defined.

(** Ten characters are enough, and the answers of an earlier round stay.
    A rejection that cannot be printed sets no banner: the handler
    throws. *)
Lemma handleInitialSubmit_generates_questions_witness :
  let r := exec (GuidedAnalysis.handleInitialSubmit (RT := demoRuntime) okBackend
                   longIdea) tt longIdea in
  let out := GuidedAnalysis.handleInitialSubmit (RT := demoRuntime) opaqueBackend
               longIdea (start tt longIdea) in
  List.length (trim (GuidedAnalysis.initialRequirement longIdea)) = 10%nat
  /\ calls r = [Invoke (str "generate_questions")
                  (VObj [(str "initialRequirement", VStr (str "a todo app"))])]
  /\ GuidedAnalysis.currentStep (state r) = GuidedAnalysis.Questions
  /\ GuidedAnalysis.initialRequirement (state r) = str "  a todo app  "
  /\ GuidedAnalysis.error (state (fst out)) = None
  /\ snd out = inl (raise (RT := demoRuntime) (NotPrimitive opaqueRejection)).
Proof.
  cbv zeta.
  destruct (@GuidedAnalysisMore.handleInitialSubmit_generates_questions demoRuntime
              unit okBackend longIdea tt ltac:(vm_compute; lia))
    as (Hcalls & _ & Htext & _ & Hok & _).
  destruct (Hok tt okResponse eq_refl) as (_ & Hstep & _).
  destruct (@GuidedAnalysisMore.handleInitialSubmit_generates_questions demoRuntime
              unit opaqueBackend longIdea tt ltac:(vm_compute; lia))
    as (_ & _ & _ & _ & _ & Hfail).
  destruct (Hfail tt (Thrown opaqueRejection) eq_refl) as (_ & _ & _ & _ & Hthrown).
  destruct (Hthrown (raise (RT := demoRuntime) (NotPrimitive opaqueRejection)) eq_refl)
    as [Hnone Hout].
  split; [reflexivity |]. split; [exact Hcalls |]. split; [exact Hstep |].
  split; [exact Htext |]. split; [exact Hnone | exact Hout].
Defined.

(** The answers go out keyed by their indices; a bridge that is down
    leaves the wizard at the questions. *)
Lemma handleGenerateRequirements_generates_summary_witness :
  calls (exec (GuidedAnalysis.handleGenerateRequirements (RT := demoRuntime) downBackend
                 answering) tt answering)
  = [Invoke (str "generate_detailed_requirements")
       (VObj [(str "initialRequirement", VStr (str "a todo app"));
              (str "answers",
               VObj [(str "0", VStr (str "a web app"));
                     (str "2", VStr (str "   "));
                     (str "3", VStr (str "Postgres"))])])]
  /\ GuidedAnalysis.currentStep
       (state (exec (GuidedAnalysis.handleGenerateRequirements (RT := demoRuntime)
                       downBackend answering) tt answering))
     = GuidedAnalysis.Questions.
Proof.
  destruct (@GuidedAnalysisMore.handleGenerateRequirements_generates_summary demoRuntime
              unit downBackend answering tt) as (Hcalls & _ & _ & _ & Hfail).
  destruct (Hfail tt (Thrown (VStr (str "bridge unavailable"))) eq_refl)
    as (_ & Hstep & _).
  split; [exact Hcalls | exact Hstep].
Defined.

(** The bridge is down when the idea is sent, and the user goes on
    typing while the call is in flight: the loading flag is set exactly
    while it is, and the banner then reports the failed call, not a
    validation message. *)
Lemma reachable_wizard_never_shows_validation_error_witness :
  let during := wizardAfter downBackend ideaSent freshWizard in
  let after := wizardAfter downBackend ideaSentWhileDown freshWizard in
  List.length (snd during) = 1%nat
  /\ GuidedAnalysis.isLoading (snd (fst during)) = true
  /\ GuidedAnalysis.initialRequirement (snd (fst after))
     = str "a todo app for big teams"
  /\ GuidedAnalysis.error (snd (fst after))
     = Some (str "Failed to generate questions: bridge unavailable")
  /\ GuidedAnalysis.error (snd (fst after)) <> Some GuidedAnalysisView.too_short
  /\ (GuidedAnalysis.isLoading (snd (fst after)) = true <-> snd after <> []).
Proof.
  cbv zeta.
  destruct (@GuidedAnalysisMore.reachable_wizard_never_shows_validation_error
              demoRuntime unit downBackend
              (fst (fst (wizardAfter downBackend ideaSentWhileDown freshWizard)))
              (snd (fst (wizardAfter downBackend ideaSentWhileDown freshWizard)))
              (snd (wizardAfter downBackend ideaSentWhileDown freshWizard)))
    as (Hshort & _ & _ & _ & _ & Hload).
  - apply wizardAfter_reachable;
      [apply GuidedAnalysisView.reach_initial | reflexivity].
  - split; [reflexivity |]. split; [reflexivity |]. split; [reflexivity |].
    split; [reflexivity |]. split; [exact Hshort | exact Hload].
Defined.

(** *** The results view *)

Lemma last_segment_is_the_file_name_witness :
  last_segment [] (str "out/src/main.py") = str "main.py"
  /\ Download.download_name (str "out/src/") = str "download"
  /\ ~ In 47%N (last_segment [] (str "out/src/main.py")).
Proof.
  destruct (ResultsDisplayMore.last_segment_is_the_file_name (str "out/src/main.py"))
    as (Hno & _).
  destruct (ResultsDisplayMore.last_segment_is_the_file_name (str "out/src/"))
    as (_ & _ & _ & _ & _ & _ & Hname).
  split; [reflexivity |]. split; [apply Hname; reflexivity | exact Hno].
Defined.

(** Two generated files, two rows, named by their base names. *)
Lemma files_tab_lists_every_file_witness :
  match ResultsDisplay.renderTabContent (RT := demoRuntime)
          ResultsDisplay.Files filesResponse with
  | inr node =>
      ResultsDisplay.text_content node
      = [ str "Generated Files";
          [55357; 56516]%N; str "main.py"; str "Download";
          [55357; 56516]%N; str "README.md"; str "Download" ]
  | inl _ => False
  end.
Proof.
  pose proof (proj1 (@ResultsDisplayMore.files_tab_lists_every_file demoRuntime
                       [ (str "status", VStr (str "success"));
                         (str "repo_result",
                          VObj [ (str "generated_files",
                                  VArr [ VStr (str "out/src/main.py");
                                         VStr (str "README.md") ]) ]) ]
                       [ (str "generated_files",
                          VArr [ VStr (str "out/src/main.py"); VStr (str "README.md") ]) ]
                       [ str "out/src/main.py"; str "README.md" ]
                       eq_refl ltac:(discriminate)) eq_refl) as H.
  unfold filesResponse. cbn [map] in H. rewrite H. reflexivity.
Defined.

(** A reply whose analysis is a mapping: the opening tab renders, the
    Analysis tab throws. *)
Lemma implementation_tab_always_renders_witness :
  let reply :=
    VObj [ (str "status", VStr (str "success"));
           (str "analysis_result", VObj [(str "summary", VStr (str "ok"))]) ] in
  (exists node,
      ResultsDisplay.ResultsDisplay (RT := demoRuntime) ResultsDisplay.initialTab reply
      = inr (Some node))
  /\ ResultsDisplay.renderTabContent (RT := demoRuntime) ResultsDisplay.Analysis reply
     = inl (raise (RT := demoRuntime)
              (InvalidReactChild (VObj [(str "summary", VStr (str "ok"))]))).
Proof.
  cbv zeta.
  destruct (@ResultsDisplayMore.implementation_tab_always_renders demoRuntime
              (VObj [ (str "status", VStr (str "success"));
                      (str "analysis_result",
                       VObj [(str "summary", VStr (str "ok"))]) ]))
    as (_ & Hopen & Hanalysis & _).
  split; [apply Hopen; reflexivity | apply Hanalysis; reflexivity].
Defined.

(** *** Settings *)

(** The bridge is down: the load reports it and the form is as it was.
    An empty secrets file: the load fails after it has put the config's
    model into the form. *)
Lemma loadConfiguration_failure_modes_witness :
  let r := exec (Settings.loadConfiguration (RT := demoRuntime) downBackend)
             tt typedBraveKey in
  let r' := exec (Settings.loadConfiguration (RT := demoRuntime) Settings.bridge)
              (storeOf demoConfig VUndef) Settings.initialState in
  Settings.statusMsg (state r)
  = Some {| Settings.type := Settings.error;
            Settings.text := str "Failed to load configuration: bridge unavailable" |}
  /\ Settings.braveKey (state r) = VStr (str "typed-key")
  /\ Settings.isLoading (state r) = false
  /\ Settings.statusMsg (state r')
     = Some {| Settings.type := Settings.error;
               Settings.text := str "Failed to load configuration: TypeError: fault" |}
  /\ Settings.defaultModel (state r') = VStr (str "openai/gpt-4o")
  /\ Settings.defaultModel (state r') <> Settings.defaultModel Settings.initialState.
Proof.
  cbv zeta.
  destruct (proj1 (@SettingsMore.loadConfiguration_failure_modes demoRuntime unit
                     downBackend typedBraveKey tt)
              tt (Thrown (VStr (str "bridge unavailable"))) eq_refl) as [Hstate _].
  destruct (proj2 (proj2 (proj2 (proj2 (proj2
              (@SettingsMore.loadConfiguration_failure_modes demoRuntime Settings.Store
                 Settings.bridge Settings.initialState
                 (storeOf demoConfig VUndef))))))
              (storeOf demoConfig VUndef) (storeOf demoConfig VUndef)
              (VStr (encode demoConfig)) (VStr (encode VUndef)) demoConfig VUndef
              eq_refl eq_refl eq_refl eq_refl eq_refl eq_refl) as [Hstate' _].
  rewrite Hstate, Hstate'.
  repeat split. discriminate.
Defined.

(** A panel that has loaded nothing saves nothing. *)
Lemma handleSave_needs_both_documents_witness :
  calls (exec (Settings.handleSave (RT := demoRuntime) okBackend typedBraveKey)
           tt typedBraveKey) = []
  /\ Settings.statusMsg
       (state (exec (Settings.handleSave (RT := demoRuntime) okBackend typedBraveKey)
                 tt typedBraveKey)) = None.
Proof.
  rewrite (proj1 (@SettingsMore.handleSave_needs_both_documents demoRuntime unit
                    okBackend typedBraveKey tt) typedBraveKey (or_introl eq_refl)).
  split; reflexivity.
Defined.

(** The toggle is switched off and the secrets cannot be written: the
    config file is replaced all the same, the secrets file is as it was,
    the panel reports the failure, and its config cell, which held the
    toggle switched on, now holds it switched off although nothing was
    loaded. *)
Lemma handleSave_is_not_atomic_witness :
  let w := readOnlySecrets demoConfig demoSecrets in
  let r := exec (Settings.handleSave (RT := demoRuntime) Settings.bridge toggledPanel)
             w toggledPanel in
  Settings.config_file (world r) = encode toggledNewConfig
  /\ Settings.secrets_file (world r) = encode demoSecrets
  /\ Settings.statusMsg (state r)
     = Some {| Settings.type := Settings.error;
               Settings.text := str "Failed to save configuration: permission denied" |}
  /\ Settings.lookup [str "document_segmentation"; str "enabled"]
       (Settings.config toggledPanel) = Some (VBool true)
  /\ Settings.lookup [str "document_segmentation"; str "enabled"]
       (Settings.config (state r)) = Some (VBool false).
Proof.
  cbv zeta.
  destruct (proj2 (@SettingsMore.handleSave_is_not_atomic demoRuntime Settings.Store
                     Settings.bridge toggledPanel
                     (readOnlySecrets demoConfig demoSecrets)
                     toggledNewConfig toggledNewSecrets
                     (encode toggledNewConfig) (encode toggledNewSecrets)
                     eq_refl eq_refl eq_refl eq_refl eq_refl eq_refl)
              {| Settings.config_file := encode toggledNewConfig;
                 Settings.secrets_file := encode demoSecrets;
                 Settings.broken :=
                   Settings.broken (readOnlySecrets demoConfig demoSecrets);
                 Settings.refusal := Thrown (VStr (str "invalid args")) |}
              {| Settings.config_file := encode toggledNewConfig;
                 Settings.secrets_file := encode demoSecrets;
                 Settings.broken :=
                   Settings.broken (readOnlySecrets demoConfig demoSecrets);
                 Settings.refusal := Thrown (VStr (str "invalid args")) |}
              VNull (Thrown (VStr (str "permission denied"))) eq_refl eq_refl)
    as (_ & Hworld & Hstate & _).
  rewrite Hworld, Hstate. repeat split.
Defined.

(** A save of the demo documents ends with no message on screen; a
    load rejected with an object that cannot be printed throws, with no
    message and the loading flag cleared. *)
Lemma handleSave_never_ends_on_success_message_witness :
  let thrown :=
    Settings.loadConfiguration (RT := demoRuntime) opaqueBackend
      (start tt Settings.initialState) in
  SettingsView.no_success
    (Settings.statusMsg
       (state (fst (Settings.handleSave (RT := demoRuntime) Settings.bridge loadedPanel
                      (start (storeOf demoConfig demoSecrets) loadedPanel)))))
  /\ Settings.statusMsg (state (saveNewKey demoConfig demoSecrets)) = None
  /\ snd thrown = inl (raise (RT := demoRuntime) (NotPrimitive opaqueRejection))
  /\ Settings.isLoading (state (fst thrown)) = false.
Proof.
  cbv zeta. split; [| split; [reflexivity | split; [reflexivity |]]].
  - exact (proj2 (proj2 (proj1
             (@SettingsMore.handleSave_never_ends_on_success_message demoRuntime
                Settings.Store Settings.bridge loadedPanel loadedPanel
                (storeOf demoConfig demoSecrets))))).
  - exact (proj1 (proj2 (proj2
             (@SettingsMore.handleSave_never_ends_on_success_message demoRuntime
                unit opaqueBackend Settings.initialState Settings.initialState tt)))).
Defined.

(** Reset undoes a mistyped model; a typed Brave key outlives it. *)
Lemma loadConfiguration_twice_is_once_witness :
  let w := storeOf demoConfig demoSecrets in
  let again (s : Settings.State) :=
    state (exec (Settings.loadConfiguration (RT := demoRuntime) Settings.bridge) w s) in
  again (Settings.edit Settings.DefaultModel (VStr (str "openai/gpt-4o-mini")) loadedPanel)
  = loadedPanel
  /\ Settings.braveKey
       (again (Settings.edit Settings.BraveKey (VStr (str "typed-key")) loadedPanel))
     = VStr (str "typed-key").
Proof.
  cbv zeta.
  destruct (@SettingsMore.loadConfiguration_twice_is_once demoRuntime Settings.Store
              Settings.bridge Settings.initialState (storeOf demoConfig demoSecrets)
              (VStr (encode demoConfig)) (VStr (encode demoSecrets))
              demoConfig demoSecrets
              eq_refl eq_refl eq_refl eq_refl eq_refl eq_refl)
    as (_ & _ & _ & Hundo & Hbrave & _).
  split.
  - apply (Hundo Settings.DefaultModel); discriminate.
  - apply Hbrave. reflexivity.
Defined.

(** The demo config comes back with its keys in their order. *)
Lemma handleSave_keeps_key_order_witness :
  exists top' extra,
    Settings.updatedConfig (RT := demoRuntime) loadedPanel = inr (VObj top')
    /\ map fst top'
       = [ str "default_search_server"; str "document_segmentation";
           str "openai"; str "planning_mode" ] ++ extra.
Proof.
  destruct (proj1 (@SettingsMore.handleSave_keeps_key_order demoRuntime loadedPanel)
              [ (str "default_search_server", VStr (str "brave"));
                (str "document_segmentation",
                   VObj [ (str "enabled", VBool true);
                          (str "size_threshold_chars", VNum (Fin 80000)) ]);
                (str "openai", VObj [ (str "default_model", VStr (str "openai/gpt-4o"));
                                      (str "base_max_tokens", VNum (Fin 16384)) ]);
                (str "planning_mode", VStr (str "traditional")) ]
              panelNewConfig eq_refl eq_refl)
    as (top' & extra & Hcfg & Hkeys & _).
  exists top', extra. split; [| exact Hkeys].
  rewrite <- Hcfg. reflexivity.
Defined.

(** The demo config defines no Brave server: a typed key is not saved. *)
Lemma handleSave_drops_key_of_missing_server_witness :
  exists cfg',
    Settings.updatedConfig (RT := demoRuntime)
      (Settings.edit Settings.BraveKey (VStr (str "typed-key")) loadedPanel)
    = inr cfg'
    /\ Settings.lookup (Settings.field_path Settings.BraveKey) cfg' = None.
Proof.
  destruct (SettingsFacts.config_kept_shapes demoConfig eq_refl)
    as (Hobj & S1 & S2 & S3 & S4).
  destruct (@SettingsMore.handleSave_drops_key_of_missing_server demoRuntime
              (Settings.edit Settings.BraveKey (VStr (str "typed-key")) loadedPanel)
              demoConfig Settings.BraveKey eq_refl Hobj S1 S2 S3 S4 eq_refl)
    as (_ & Hbuilt & Hdropped).
  destruct (Hbuilt (Fin 80000) eq_refl) as [cfg' Hsaved].
  exists cfg'. split; [exact Hsaved | exact (proj1 (Hdropped cfg' Hsaved))].
Defined.

(** *** History and diagnostics *)

(** Four entries, two successful, one failed, one still processing. *)
Lemma stats_count_within_total_witness :
  ProcessingHistory.stats (RT := demoRuntime) someHistory = inr (4, 2, 1)%nat
  /\ (2 + 1 <= 4)%nat
  /\ (2 + 1 <> 4)%nat.
Proof.
  destruct (@HistoryMore.stats_count_within_total demoRuntime someHistory 4 2 1 eq_refl)
    as (_ & Hle & _).
  split; [reflexivity |]. split; [exact Hle | discriminate].
Defined.

(** With the bridge down, the entries stay on screen. *)
Lemma history_survives_bridge_failures_witness :
  ProcessingHistory.history
    (state (exec (ProcessingHistory.loadHistory downBackend) tt shownHistory))
  = VArr someHistory
  /\ ProcessingHistory.history
       (state (exec (ProcessingHistory.handleClearHistory downBackend true)
                 tt shownHistory))
     = VArr someHistory.
Proof.
  destruct (@HistoryMore.history_survives_bridge_failures unit downBackend
              shownHistory tt) as (Hload & _ & _ & Hclear & _).
  destruct (Hload tt (Thrown (VStr (str "bridge unavailable"))) eq_refl)
    as (_ & Hkept & _).
  destruct (Hclear tt (Thrown (VStr (str "bridge unavailable"))) eq_refl)
    as (Hsame & _).
  split; [exact Hkept | now rewrite Hsame].
Defined.

(** An accepted reset is invoked twice; a reset rejected with an object
    that cannot be printed leaves the banner empty and throws. *)
Lemma handleResetState_resets_twice_witness :
  let out := SystemDiagnostics.handleResetState (RT := demoRuntime) opaqueBackend true
               (start tt SystemDiagnostics.initialState) in
  calls (fst (SystemDiagnostics.handleResetState (RT := demoRuntime) okBackend true
                (start tt SystemDiagnostics.initialState)))
  = [ Invoke (str "reset_application_state") VUndef;
      Invoke (str "reset_application_state") VUndef ]
  /\ snd out = inl (raise (RT := demoRuntime) (NotPrimitive opaqueRejection))
  /\ state (fst out) = SystemDiagnostics.initialState.
Proof.
  cbv zeta.
  destruct (proj1 (proj2 (@DiagnosticsMore.handleResetState_resets_twice demoRuntime
                            unit okBackend SystemDiagnostics.initialState tt))
              tt tt okResponse okResponse eq_refl eq_refl) as (Hcalls & _).
  destruct (proj1 (proj2 (proj2 (@DiagnosticsMore.handleResetState_resets_twice
                                   demoRuntime unit opaqueBackend
                                   SystemDiagnostics.initialState tt)))
              tt (Thrown opaqueRejection) eq_refl) as (_ & _ & Hthrown).
  split; [exact Hcalls |].
  exact (Hthrown (raise (RT := demoRuntime) (NotPrimitive opaqueRejection)) eq_refl).
Defined.

(** A failed reset whose rejection says "unsuccessful" is shown in the
    success style. *)
Lemma reset_banner_is_styled_by_its_text_witness :
  SystemDiagnostics.reset_message_class
    (str "Failed to reset state: " ++ str "unsuccessful")
  = str "reset-message success".
Proof.
  rewrite (proj1 (proj2 (DiagnosticsMore.reset_banner_is_styled_by_its_text
                           (str "unsuccessful")))).
  reflexivity.
Defined.

(** A rejection by [undefined] escapes the handler and the task stays
    processing. *)
Lemma handleSubmit_settles_or_sticks_witness :
  App.taskStatus
    (state (fst (App.handleSubmit (RT := demoRuntime) silentBackend chatState VUndef
                   (start tt chatState)))) = App.Processing.
Proof.
  destruct (@AppMore.handleSubmit_settles_or_sticks demoRuntime unit silentBackend
              chatState VUndef tt chatState)
    as [[Hres _] | (v & _ & _ & Hst & _)].
  - discriminate Hres.
  - exact Hst.
Defined.

End MoreExamples.
